(** * LinkedIn management system: the workflow engine, the trend ranker,
      the content reviewer and the post scheduler

    A shallow embedding of [app/workflows/linkedin_workflow.py] and of
    [TrendAnalysisAgent._rank_trends] ([app/agents/trend_analysis_agent.py]).

    Conventions of the embedding:
    - a Python [float] is a primitive binary64 [float]; its operations are
      the IEEE 754 ones ([PrimFloat]), specified by [SpecFloat];
    - a Python [int] is a [Z];
    - a naive [datetime] is its proleptic Gregorian ordinal (what
      [date.toordinal()] returns) with the time-of-day fields;
    - a raised exception is a [None] (or a dedicated constructor) of the
      result, and a [try/except] is the match on it;
    - the external collaborators (agents, language model, database, clock)
      are functions over an explicit world state. *)

From Stdlib Require Import ZArith List Bool Lia String Ascii Floats.
From Stdlib Require Import Permutation Sorted.
Import ListNotations.

Set Implicit Arguments.
#[local] Set Warnings "-inexact-float,-register-all".
Local Open Scope string_scope.
Local Open Scope Z_scope.

(* ================================================================== *)
(** * Part I: definitions *)
(* ================================================================== *)

(** ** The option monad, for code that can raise *)

Definition bind {A B : Type} (x : option A) (f : A -> option B) : option B :=
  match x with
  | Some a => f a
  | None => None
  end.

Notation "x <- c1 ;; c2" := (bind c1 (fun x => c2))
  (at level 61, c1 at next level, right associativity).

(** ** [datetime] and [timedelta] (CPython's [datetime] module) *)

Module Datetime.

Definition MAXORDINAL : Z := 3652059.

(** [timedelta]: normalised to [0 <= seconds < 86400] and
  [0 <= microseconds < 1000000]. *)
Record timedelta := mk_timedelta
  { td_days : Z; td_seconds : Z; td_microseconds : Z }.

(** [timedelta(days, seconds, microseconds, minutes=, hours=)] on integer
  arguments; [None] is the [OverflowError] of [abs(days) > 999999999]. *)
Definition timedelta_new (days seconds microseconds minutes hours : Z)
  : option timedelta :=
  let s := seconds + 60 * minutes + 3600 * hours + microseconds / 1000000 in
  let d := days + s / 86400 in
  if Z.abs d <=? 999999999
  then Some (mk_timedelta d (s mod 86400) (microseconds mod 1000000))
  else None.

(** [timedelta.__add__] *)
Definition timedelta_add (a b : timedelta) : option timedelta :=
  timedelta_new (td_days a + td_days b) (td_seconds a + td_seconds b)
                (td_microseconds a + td_microseconds b) 0 0.

Record datetime := mk_datetime
  { ordinal : Z; hour : Z; minute : Z; second : Z; microsecond : Z }.

(** The fields of a [datetime] object are always in range. *)
Definition wf (t : datetime) : Prop :=
  1 <= ordinal t <= MAXORDINAL /\ 0 <= hour t < 24 /\ 0 <= minute t < 60 /\
  0 <= second t < 60 /\ 0 <= microsecond t < 1000000.

(** [datetime.__add__(timedelta)]; [None] is its
  [OverflowError("date value out of range")]. *)
Definition add (t : datetime) (other : timedelta) : option datetime :=
  delta0 <- timedelta_new (ordinal t) (second t) (microsecond t)
                          (minute t) (hour t) ;;
  delta <- timedelta_add delta0 other ;;
  let hour := td_seconds delta / 3600 in
  let rem := td_seconds delta mod 3600 in
  let minute := rem / 60 in
  let second := rem mod 60 in
  if (0 <? td_days delta) && (td_days delta <=? MAXORDINAL)
  then Some (mk_datetime (td_days delta) hour minute second
                         (td_microseconds delta))
  else None.

(** [t.replace(hour=h, minute=0, second=0, microsecond=0)] *)
Definition replace_hour (t : datetime) (h : Z) : datetime :=
  mk_datetime (ordinal t) h 0 0 0.

(** Microseconds since the start of ordinal day 0: the order of
  [datetime] values is the order of this number. *)
Definition to_microseconds (t : datetime) : Z :=
  (((ordinal t * 24 + hour t) * 60 + minute t) * 60 + second t) * 1000000
  + microsecond t.

Definition leb (a b : datetime) : bool :=
  to_microseconds a <=? to_microseconds b.

Definition ltb (a b : datetime) : bool :=
  to_microseconds a <? to_microseconds b.

Definition eqb (a b : datetime) : bool :=
  (ordinal a =? ordinal b) && (hour a =? hour b) && (minute a =? minute b)
  && (second a =? second b) && (microsecond a =? microsecond b).

(** The length of a [timedelta] in microseconds. *)
Definition us_per_day : Z := 86400000000.

Definition timedelta_us (d : timedelta) : Z :=
  td_days d * us_per_day + td_seconds d * 1000000 + td_microseconds d.

Definition timedelta_norm (d : timedelta) : Prop :=
  0 <= td_seconds d < 86400 /\ 0 <= td_microseconds d < 1000000.

End Datetime.

Import Datetime.

(** ** PostScheduler: [_calculate_optimal_post_times] *)

Definition optimal_hours : list Z := [8; 12; 17].

(** [optimal_hours[i % len(optimal_hours)]] *)
Definition optimal_hour (i : Z) : Z :=
  nth (Z.to_nat (i mod Z.of_nat (List.length optimal_hours))) optimal_hours 0.

(** The body of the loop for index [i]. *)
Definition schedule_time (base_time : datetime) (i : Z) : option datetime :=
  let hour := optimal_hour i in
  schedule_time <-
    (if Datetime.hour base_time >=? hour
     then one_day <- timedelta_new 1 0 0 0 0 ;;
          Datetime.add (replace_hour base_time hour) one_day
     else Some (replace_hour base_time hour)) ;;
  jitter <- timedelta_new 0 0 0 (i * 30) 0 ;;
  Datetime.add schedule_time jitter.

(** [for i in range(...)]: the indices [i, i+1, ..., i+n-1] in order, the
    first exception ending the loop. *)
Fixpoint schedule_loop (base_time : datetime) (i : Z) (n : nat)
  : option (list datetime) :=
  match n with
  | O => Some []
  | S n' =>
      t <- schedule_time base_time i ;;
      rest <- schedule_loop base_time (i + 1) n' ;;
      Some (t :: rest)
  end.

(** [_calculate_optimal_post_times(num_posts)], with [base_time] the value
    of [datetime.utcnow()]. *)
Definition calculate_optimal_post_times (base_time : datetime) (num_posts : Z)
  : option (list datetime) :=
  schedule_loop base_time 0 (Z.to_nat num_posts).


(** ** Python built-ins used by the code *)

(** [l[:stop]] for an integer [stop]: a negative [stop] counts from the
    end of the list. *)
Definition py_slice_to {A : Type} (l : list A) (stop : Z) : list A :=
  if stop <? 0
  then firstn (Z.to_nat (Z.of_nat (List.length l) + stop)) l
  else firstn (Z.to_nat stop) l.

(** [min(a, b)] and [max(a, b)]: the first argument is kept unless the
    second is strictly smaller (resp. larger); a NaN is never "smaller". *)
Definition py_min (a b : float) : float := if (b <? a)%float then b else a.
Definition py_max (a b : float) : float := if (a <? b)%float then b else a.

(** [float(n)] for an integer [n], correctly rounded (exact below 2^53). *)
Definition float_of_int (n : Z) : float :=
  SF2Prim (binary_normalize prec emax n 0 false).

(** [a / b] on two integers below 2^53 in magnitude: CPython divides the
    two doubles.  Every count the ranker divides is at most 10. *)
Definition int_true_div (a b : Z) : float :=
  (float_of_int a / float_of_int b)%float.

(** [list.sort(key=..., reverse=True)] and [sorted(..., reverse=True)]:
    a stable sort that compares keys with [<] only.  With [reverse=True]
    the elements come out in descending key order and elements with equal
    keys keep their original order.  This describes the result for keys
    that are numbers; with a NaN among the keys the order CPython leaves
    depends on the comparisons its algorithm happens to make, and the
    model is not meant for it. *)
Section Sort.
Variable A : Type.
Variable key : A -> float.

Fixpoint insert_desc (x : A) (l : list A) : list A :=
  match l with
  | [] => [x]
  | y :: r => if (key x <? key y)%float then y :: insert_desc x r
              else x :: y :: r
  end.

Definition sort_desc (l : list A) : list A := fold_right insert_desc [] l.
End Sort.

(** A [dict] keyed by strings, in insertion order. *)
Definition dict (V : Type) : Type := list (string * V).

Fixpoint dict_get {V : Type} (k : string) (d : dict V) : option V :=
  match d with
  | [] => None
  | (k', v) :: r => if String.eqb k k' then Some v else dict_get k r
  end.

(** [d[k] = v]: an existing key keeps its position, a new key goes last. *)
Fixpoint dict_set {V : Type} (k : string) (v : V) (d : dict V) : dict V :=
  match d with
  | [] => [(k, v)]
  | (k', v') :: r => if String.eqb k k' then (k, v) :: r
                     else (k', v') :: dict_set k v r
  end.

Definition dict_keys {V : Type} (d : dict V) : list string := map fst d.

(** ** TrendRanker: [TrendAnalysisAgent._rank_trends] *)

(** One extracted topic mention, as [_extract_topics_from_articles]
    builds it. *)
Record source_article := mk_source_article
  { sa_title : string; sa_url : string; sa_published_at : string }.

Record topic_info := mk_topic_info
  { ti_topic : string;
    ti_hashtags : list string;
    ti_source_article : source_article;
    ti_source : string }.

(** A ranked trend: the copy of the first mention's dict with the keys
    ['relevance_score'] and ['mention_count'] added. *)
Record ranked_trend := mk_ranked_trend
  { rt_info : topic_info;
    rt_relevance_score : float;
    rt_mention_count : Z }.

(** [final_score = (relevance_score * 0.7) + (min(count / 5, 1.0) * 0.3)] *)
Definition final_score (relevance_score : float) (count : Z) : float :=
  (relevance_score * 0.7 + py_min (int_true_div count 5) 1.0 * 0.3)%float.

(** [max(0.0, min(1.0, relevance_score))] *)
Definition clamp_relevance (relevance_score : float) : float :=
  py_max 0.0 (py_min 1.0 relevance_score).

Definition relevance_prompt (topic : string) : string :=
  "Rate the relevance of this topic for LinkedIn's tech professional audience on a scale of 0-1:
Topic: " ++ topic ++ "

Consider:
- Professional relevance
- Technology focus
- Business impact
- Current interest level

Respond with just a number between 0 and 1.".

Section TrendRanker.

(** The state of the outside world (the language-model service). *)
Variable World : Type.

(** [str.lower()] *)
Variable lower : string -> string.

(** [await llm_service.generate_text(prompt=..., temperature=0.1)]:
  the reply, or [None] when the call raises. *)
Variable generate_text : string -> World -> option string * World.

(** [float(reply.strip())]; [None] is its [ValueError]. *)
Variable float_of_reply : string -> option float.

(** The first loop: count the mentions of each lower-cased topic, at most
  10 mentions overall; the first mention of a topic is its data. *)
Fixpoint count_topics (topics : list topic_info) (counter : Z)
    (topic_counts : dict Z) (topic_data : dict topic_info)
  : dict Z * dict topic_info :=
  match topics with
  | [] => (topic_counts, topic_data)
  | topic_info :: rest =>
      if counter >=? 10 then (topic_counts, topic_data)
      else
        let topic := lower (ti_topic topic_info) in
        let '(topic_counts, topic_data) :=
          match dict_get topic topic_counts with
          | None => (dict_set topic 0 topic_counts,
                     dict_set topic topic_info topic_data)
          | Some _ => (topic_counts, topic_data)
          end in
        let topic_counts :=
          match dict_get topic topic_counts with
          | Some c => dict_set topic (c + 1) topic_counts
          | None => topic_counts
          end in
        count_topics rest (counter + 1) topic_counts topic_data
  end.

(** What the counting loop keeps true of its two dicts: the counted
    topics are distinct, the counts are not negative, and the data kept
    for a topic is a mention of that topic. *)
Definition counted (topic_counts : dict Z) (topic_data : dict topic_info)
  : Prop :=
  NoDup (dict_keys topic_counts) /\
  (forall k c, In (k, c) topic_counts -> 0 <= c) /\
  (forall k info, dict_get k topic_data = Some info ->
                  lower (ti_topic info) = k).

(** The body of the second loop for one [(topic, count)] item: [None]
  when an exception is caught by the [except Exception] of the item
  (the topic is logged and left out). *)
Definition rank_topic (topic_data : dict topic_info) (topic : string)
    (count : Z) (w : World) : option ranked_trend * World :=
  let '(reply, w) := generate_text (relevance_prompt topic) w in
  match reply with
  | None => (None, w)
  | Some relevance_response =>
      let relevance_score :=
        match float_of_reply relevance_response with
        | Some r => clamp_relevance r
        | None => 0.5%float
        end in
      let final_score := final_score relevance_score count in
      match dict_get topic topic_data with
      | None => (None, w)
      | Some info => (Some (mk_ranked_trend info final_score count), w)
      end
  end.

Fixpoint rank_loop (topic_data : dict topic_info) (items : dict Z)
    (w : World) : list ranked_trend * World :=
  match items with
  | [] => ([], w)
  | (topic, count) :: rest =>
      let '(r, w) := rank_topic topic_data topic count w in
      let '(ranked, w) := rank_loop topic_data rest w in
      (match r with Some t => t :: ranked | None => ranked end, w)
  end.

(** [_rank_trends(topics, limit)] *)
Definition rank_trends (topics : list topic_info) (limit : Z) (w : World)
  : list ranked_trend * World :=
  let '(topic_counts, topic_data) := count_topics topics 0 [] [] in
  let '(ranked_trends, w) := rank_loop topic_data topic_counts w in
  (py_slice_to (sort_desc rt_relevance_score ranked_trends) limit, w).

End TrendRanker.

(** ** The data the workflow passes around *)

(** A trend as the workflow holds it (the dicts [_store_trends] returns).
    [None] is a missing key, read through [dict.get]. *)
Record trend := mk_trend
  { trend_id : option Z;
    trend_topic : option string;
    trend_hashtags : list string;
    trend_relevance_score : option float;
    trend_source : string }.

(** The ["quality_metrics"] dict of [_analyze_content_quality]. *)
Record quality_metrics := mk_quality_metrics
  { qm_readability_score : option float;
    qm_engagement_score : option float }.

(** The ["post"] dict.  [post_quality_metrics] is what
    [post.get("quality_metrics")] finds there. *)
Record post := mk_post
  { post_id : Z;
    post_content : string;
    post_hashtags : list string;
    post_readability_score : option float;
    post_status : string;
    post_quality_metrics : option quality_metrics }.

(** [result["data"]] of [ContentCreationAgent.execute]. *)
Record agent_content := mk_agent_content
  { ac_post : post;
    ac_quality_metrics : quality_metrics }.

(** The dict [ContentCreationAgent._store_content] returns: the keys
    [id], [content], [hashtags], [readability_score], [character_count],
    [status], [created_at]. *)
Definition store_content (id : Z) (content : string) (hashtags : list string)
    (quality_metrics : quality_metrics) : post :=
  {| post_id := id;
     post_content := content;
     post_hashtags := hashtags;
     post_readability_score := qm_readability_score quality_metrics;
     post_status := "draft";
     post_quality_metrics := None |}.

(** The dict [ContentCreationAgent._execute_logic] returns: the stored
    post under ["post"], the metrics under ["quality_metrics"]. *)
Definition execute_logic (id : Z) (content : string) (hashtags : list string)
    (quality_metrics : quality_metrics) : agent_content :=
  {| ac_post := store_content id content hashtags quality_metrics;
     ac_quality_metrics := quality_metrics |}.

(** A candidate of [state.generated_content]: the agent's data with the
    keys the workflow adds. *)
Record content := mk_content
  { c_data : agent_content;
    c_trend_info : trend;
    c_tone : string;
    c_composite_score : option float;
    c_approved : option bool }.

Record published_post := mk_published_post
  { pp_post_id : Z;
    pp_scheduled_at : datetime;
    pp_content_preview : string }.

Record LinkedInWorkflowState := mk_state
  { sources : list string;
    max_trends : Z;
    max_posts_per_day : Z;
    content_tones : list string;
    trends : list trend;
    generated_content : list content;
    published_posts : list published_post;
    workflow_id : string;
    started_at : string;
    current_step : string;
    errors : list string;
    trends_found : Z;
    content_generated : Z;
    posts_published : Z }.

Definition set_current_step (s : string) (st : LinkedInWorkflowState) :=
  mk_state (sources st) (max_trends st) (max_posts_per_day st)
    (content_tones st) (trends st) (generated_content st)
    (published_posts st) (workflow_id st) (started_at st) s (errors st)
    (trends_found st) (content_generated st) (posts_published st).

Definition set_trends (l : list trend) (st : LinkedInWorkflowState) :=
  mk_state (sources st) (max_trends st) (max_posts_per_day st)
    (content_tones st) l (generated_content st)
    (published_posts st) (workflow_id st) (started_at st) (current_step st)
    (errors st) (trends_found st) (content_generated st) (posts_published st).

Definition set_generated_content (l : list content)
    (st : LinkedInWorkflowState) :=
  mk_state (sources st) (max_trends st) (max_posts_per_day st)
    (content_tones st) (trends st) l
    (published_posts st) (workflow_id st) (started_at st) (current_step st)
    (errors st) (trends_found st) (content_generated st) (posts_published st).

Definition set_published_posts (l : list published_post)
    (st : LinkedInWorkflowState) :=
  mk_state (sources st) (max_trends st) (max_posts_per_day st)
    (content_tones st) (trends st) (generated_content st)
    l (workflow_id st) (started_at st) (current_step st)
    (errors st) (trends_found st) (content_generated st) (posts_published st).

Definition set_posts_published (n : Z) (st : LinkedInWorkflowState) :=
  mk_state (sources st) (max_trends st) (max_posts_per_day st)
    (content_tones st) (trends st) (generated_content st)
    (published_posts st) (workflow_id st) (started_at st) (current_step st)
    (errors st) (trends_found st) (content_generated st) n.

(** [state.errors.append(msg)] *)
Definition append_error (msg : string) (st : LinkedInWorkflowState) :=
  mk_state (sources st) (max_trends st) (max_posts_per_day st)
    (content_tones st) (trends st) (generated_content st)
    (published_posts st) (workflow_id st) (started_at st) (current_step st)
    (errors st ++ [msg])%list (trends_found st) (content_generated st)
    (posts_published st).

(** [LinkedInWorkflowState(workflow_id=..., started_at=...,
    current_step="starting")]: the other fields take the class defaults. *)
Definition initial_state (workflow_id started_at : string)
  : LinkedInWorkflowState :=
  {| sources := ["techcrunch"];
     max_trends := 5;
     max_posts_per_day := 3;
     content_tones := ["professional"; "casual"];
     trends := [];
     generated_content := [];
     published_posts := [];
     workflow_id := workflow_id;
     started_at := started_at;
     current_step := "starting";
     errors := [];
     trends_found := 0;
     content_generated := 0;
     posts_published := 0 |}.

(** What [await agent.execute(...)] gives the caller: the dict with
    ["success"] true and the data, the dict with ["success"] false and
    maybe an ["error"], or a raised exception with its [str]. *)
Inductive agent_result (A : Type) : Type :=
| AgentSuccess (data : A)
| AgentFailure (error : option string)
| AgentRaise (msg : string).

Arguments AgentSuccess {A} data.
Arguments AgentFailure {A} error.
Arguments AgentRaise {A} msg.

(** The outcome of the database block of [_schedule_posts_node] for one
    post: the session could not be opened, the post was found and
    committed, [first()] returned [None], or an exception was raised after
    [post_id] was read and before the post was recorded. *)
Inductive db_result : Type :=
| DbUnavailable   (* [next(get_db())] raised: [post_id] is not assigned *)
| PostCommitted
| PostMissing
| DbRaise.

(** The exceptions [_schedule_posts_node] catches around its whole body:
    the [OverflowError] of [datetime], and the [UnboundLocalError] of the
    inner handler, which formats [post_id] before any post has been
    read. *)
Inductive scheduling_exception : Type := OverflowError | UnboundLocalError.

(** ** ContentReviewer: the body of [_review_content_node] *)

(** [d.get(key, 0)] on a numeric value *)
Definition get_or_zero (v : option float) : float :=
  match v with Some x => x | None => 0%float end.

(** The weighted sum, as the code writes it. *)
Definition composite_score_of (readability_score engagement_score
    trend_relevance : float) : float :=
  (readability_score * 0.3 + engagement_score * 100 * 0.4
   + trend_relevance * 100 * 0.3)%float.

(** [content["post"].get("quality_metrics", {})] *)
Definition review_quality_metrics (c : content) : quality_metrics :=
  match post_quality_metrics (ac_post (c_data c)) with
  | Some qm => qm
  | None => mk_quality_metrics None None
  end.

Definition review_composite_score (c : content) : float :=
  let quality_metrics := review_quality_metrics c in
  let readability_score :=
    get_or_zero (qm_readability_score quality_metrics) in
  let engagement_score :=
    get_or_zero (qm_engagement_score quality_metrics) in
  let trend_relevance :=
    get_or_zero (trend_relevance_score (c_trend_info c)) in
  composite_score_of readability_score engagement_score trend_relevance.

(** One iteration of the loop over [state.generated_content]. *)
Definition review_one (c : content) : content :=
  let composite_score := review_composite_score c in
  mk_content (c_data c) (c_trend_info c) (c_tone c)
    (Some composite_score) (Some (40 <=? composite_score)%float).

(** [c.get("approved", False)] *)
Definition is_approved (c : content) : bool :=
  match c_approved c with Some b => b | None => false end.

(** [x.get("composite_score", 0)] *)
Definition composite_key (c : content) : float :=
  get_or_zero (c_composite_score c).

Definition review_content_list (l : list content) : list content :=
  sort_desc composite_key (map review_one l).

(** ** The conditional edge: [_should_publish_content] *)

Inductive decision : Type := publish | regenerate | skip.

(** [sum(1 for c in state.generated_content if c.get("approved", False))] *)
Definition approved_count (l : list content) : Z :=
  Z.of_nat (List.length (filter is_approved l)).

Definition should_publish_content (st : LinkedInWorkflowState) : decision :=
  match generated_content st with
  | [] => skip
  | _ :: _ =>
      let approved_count := approved_count (generated_content st) in
      if approved_count >=? 1 then publish
      else if Z.of_nat (List.length (generated_content st)) <? 5
           then regenerate
           else skip
  end.

(** The values of the dict [run_daily_automation] returns. *)
Inductive pyval : Type :=
| PyBool (b : bool)
| PyInt (n : Z)
| PyStr (s : string)
| PyList (l : list pyval)
| PyDict (d : list (string * pyval)).

(** An entry of [state.published_posts]. *)
Definition published_post_dict (isoformat : datetime -> string)
    (p : published_post) : pyval :=
  PyDict [("post_id", PyInt (pp_post_id p));
          ("scheduled_at", PyStr (isoformat (pp_scheduled_at p)));
          ("content_preview", PyStr (pp_content_preview p))].

(** [key in d] for a result dict; any other value has no keys. *)
Definition has_key (k : string) (v : pyval) : bool :=
  match v with
  | PyDict d => match dict_get k d with Some _ => true | None => false end
  | _ => false
  end.

(** [d[k]], [None] when [d] is not a dict or has no such key. *)
Definition get_key (k : string) (v : pyval) : option pyval :=
  match v with
  | PyDict d => dict_get k d
  | _ => None
  end.

(** ** The workflow nodes and the graph *)

Inductive node : Type :=
| analyze_trends | filter_trends | generate_content | review_content
| schedule_posts | monitor_engagement.

Section Workflow.

(** The state of the outside world: agents, database, clock. *)
Variable World : Type.

(** [await self.trend_agent.execute(sources=..., limit=...)] *)
Variable trend_agent_execute :
  list string -> Z -> World -> agent_result (list trend) * World.

(** [await self.content_agent.execute(trend_topic_id=..., tone=...,
  include_hashtags=True, target_length=1500)] *)
Variable content_agent_execute :
  option Z -> string -> World -> agent_result agent_content * World.

(** The database block of [_schedule_posts_node] for the post [post_id]
  and its time. *)
Variable db_schedule_post : Z -> datetime -> World -> db_result * World.

(** [datetime.utcnow()] *)
Variable utcnow : World -> datetime * World.

(** [t.strftime('%Y%m%d_%H%M%S')] and [t.isoformat()] *)
Variable strftime_id : datetime -> string.
Variable isoformat : datetime -> string.

(** [str(e)] of the exception the graph raises at its recursion limit
  and of the exceptions of [_schedule_posts_node]. *)
Variable recursion_error_message : string.
Variable str_of_exception : scheduling_exception -> string.

Definition analyze_trends_node (w : World) (st : LinkedInWorkflowState)
  : LinkedInWorkflowState * World :=
  let st := set_current_step "analyzing_trends" st in
  let '(result, w) := trend_agent_execute (sources st) (max_trends st) w in
  match result with
  | AgentSuccess data => (set_trends data st, w)
  | AgentFailure error =>
      (append_error
         ("Trend analysis failed: " ++
          match error with Some e => e | None => "Unknown error" end) st, w)
  | AgentRaise msg => (append_error ("Trend analysis error: " ++ msg) st, w)
  end.

(** [x.get('relevance_score', 0)] *)
Definition relevance_key (t : trend) : float :=
  get_or_zero (trend_relevance_score t).

Definition filter_trends_node (w : World) (st : LinkedInWorkflowState)
  : LinkedInWorkflowState * World :=
  let st := set_current_step "filtering_trends" st in
  match trends st with
  | [] => (st, w)
  | _ :: _ =>
      let filtered_trends :=
        py_slice_to (sort_desc relevance_key (trends st))
                    (max_posts_per_day st) in
      (set_trends filtered_trends st, w)
  end.

(** The inner loop of [_generate_content_node]: one call per tone; a
  successful result is appended with its ["trend_info"] and ["tone"],
  a failed or raising call appends nothing. *)
Fixpoint generate_for_tones (trend : trend) (tones : list string)
    (acc : list content) (w : World) : list content * World :=
  match tones with
  | [] => (acc, w)
  | tone :: rest =>
      let '(result, w) := content_agent_execute (trend_id trend) tone w in
      let acc :=
        match result with
        | AgentSuccess content_data =>
            (acc ++ [mk_content content_data trend tone None None])%list
        | AgentFailure _ => acc
        | AgentRaise _ => acc
        end in
      generate_for_tones trend rest acc w
  end.

Fixpoint generate_for_trends (trends : list trend) (tones : list string)
    (acc : list content) (w : World) : list content * World :=
  match trends with
  | [] => (acc, w)
  | trend :: rest =>
      let '(acc, w) := generate_for_tones trend tones acc w in
      generate_for_trends rest tones acc w
  end.

Definition generate_content_node (w : World) (st : LinkedInWorkflowState)
  : LinkedInWorkflowState * World :=
  let st := set_current_step "generating_content" st in
  let st := set_generated_content [] st in
  let '(generated, w) :=
    generate_for_trends (trends st) (content_tones st)
                        (generated_content st) w in
  (set_generated_content generated st, w).

(** A candidate made by one agent call of a pass over [trends] and
  [tones]: not yet reviewed. *)
Definition fresh_candidate (trends : list trend) (tones : list string)
    (c : content) : Prop :=
  In (c_trend_info c) trends /\ In (c_tone c) tones /\
  c_composite_score c = None /\ c_approved c = None /\
  exists w, fst (content_agent_execute (trend_id (c_trend_info c))
                                       (c_tone c) w)
            = AgentSuccess (c_data c).

Definition review_content_node (w : World) (st : LinkedInWorkflowState)
  : LinkedInWorkflowState * World :=
  let st := set_current_step "reviewing_content" st in
  (set_generated_content (review_content_list (generated_content st)) st,
   w).

(** The loop of [_schedule_posts_node] over
  [enumerate(posts_to_schedule)]; [scheduled_times] has one entry per
  post.  [bound] tells whether [post_id] has been assigned: the handler
  of the loop body formats it, and raises when it has not.  [None] is
  that exception, with the posts recorded so far left in the state. *)
Fixpoint schedule_loop_posts (posts : list content)
    (scheduled_times : list datetime) (bound : bool)
    (published : list published_post) (w : World)
  : option (list published_post) * World :=
  match posts, scheduled_times with
  | content :: posts', time :: times' =>
      let post_id := post_id (ac_post (c_data content)) in
      let '(r, w) := db_schedule_post post_id time w in
      match r with
      | DbUnavailable =>
          if bound
          then schedule_loop_posts posts' times' bound published w
          else (None, w)
      | PostCommitted =>
          schedule_loop_posts posts' times' true
            (published ++
             [mk_published_post post_id time
                (substring 0 100 (post_content (ac_post (c_data content)))
                 ++ "...")%string])%list w
      | PostMissing => schedule_loop_posts posts' times' true published w
      | DbRaise => schedule_loop_posts posts' times' true published w
      end
  | _, _ => (Some published, w)
  end.

Definition schedule_posts_node (w : World) (st : LinkedInWorkflowState)
  : LinkedInWorkflowState * World :=
  let st := set_current_step "scheduling_posts" st in
  let approved_content := filter is_approved (generated_content st) in
  let posts_to_schedule :=
    py_slice_to approved_content (max_posts_per_day st) in
  let '(base_time, w) := utcnow w in
  match calculate_optimal_post_times base_time
          (Z.of_nat (List.length posts_to_schedule)) with
  | None =>
      (append_error
         ("Post scheduling error: " ++ str_of_exception OverflowError)
         st, w)
  | Some scheduled_times =>
      let '(published, w) :=
        schedule_loop_posts posts_to_schedule scheduled_times false
                            (published_posts st) w in
      match published with
      | Some published =>
          let st := set_published_posts published st in
          (set_posts_published (Z.of_nat (List.length published)) st, w)
      | None =>
          (append_error
             ("Post scheduling error: "
              ++ str_of_exception UnboundLocalError) st, w)
      end
  end.

Definition monitor_engagement_node (w : World)
    (st : LinkedInWorkflowState) : LinkedInWorkflowState * World :=
  (set_current_step "monitoring_engagement" st, w).

Definition run_node (n : node) (w : World) (st : LinkedInWorkflowState)
  : LinkedInWorkflowState * World :=
  match n with
  | analyze_trends => analyze_trends_node w st
  | filter_trends => filter_trends_node w st
  | generate_content => generate_content_node w st
  | review_content => review_content_node w st
  | schedule_posts => schedule_posts_node w st
  | monitor_engagement => monitor_engagement_node w st
  end.

(** The edges of [_build_workflow]; [None] is [END]. *)
Definition next_node (n : node) (st : LinkedInWorkflowState)
  : option node :=
  match n with
  | analyze_trends => Some filter_trends
  | filter_trends => Some generate_content
  | generate_content => Some review_content
  | review_content =>
      match should_publish_content st with
      | publish => Some schedule_posts
      | regenerate => Some generate_content
      | skip => None
      end
  | schedule_posts => Some monitor_engagement
  | monitor_engagement => None
  end.

(** The compiled graph run from node [n]: one node per step, at most
  [limit] steps; [None] is the error the graph raises when the limit
  is reached before [END]. *)
Fixpoint run_graph (limit : nat) (n : node) (w : World)
    (st : LinkedInWorkflowState) : option LinkedInWorkflowState * World :=
  match limit with
  | O => (None, w)
  | S limit' =>
      let '(st, w) := run_node n w st in
      match next_node n st with
      | None => (Some st, w)
      | Some n' => run_graph limit' n' w st
      end
  end.

Definition recursion_limit : nat := 50.

(** A value the state of a run is read from: an instance of the class
  [LinkedInWorkflowState], as the nodes receive it, or the [dict] of the
  final channel values, which is what a graph compiled by LangGraph
  returns for a state class: it holds the fields as keys,
  [final_state["trends"]], and has no attribute named after them. *)
Inductive state_value : Type :=
| StateInstance (st : LinkedInWorkflowState)
| StateDict (st : LinkedInWorkflowState).

(** [getattr(obj, name, default)] for the name of a field of the state:
  the field of an instance, and the default on a [dict]. *)
Definition getattr {A : Type} (obj : state_value)
    (field : LinkedInWorkflowState -> A) (default : A) : A :=
  match obj with
  | StateInstance st => field st
  | StateDict _ => default
  end.

(** [self.workflow.ainvoke(initial_state, config=config)] with a
  [recursion_limit] of 50.  LangGraph counts supersteps: the entry point
  [__start__] takes the first of them, and the limit is checked before
  the graph looks for [END], so a run returns only when it executes
  fewer than [recursion_limit] nodes.  What it returns is the [dict] of
  the final values. *)
Definition ainvoke (st : LinkedInWorkflowState) (w : World)
  : option state_value * World :=
  let '(r, w) := run_graph (Nat.pred recursion_limit) analyze_trends w st in
  (option_map StateDict r, w).

(** No post is scheduled before [schedule_posts] runs. *)
Definition before_scheduling (n : node) : bool :=
  match n with
  | schedule_posts | monitor_engagement => false
  | _ => true
  end.

(** The states a run passes through: [reaches n st w] when a run that
  starts at [analyze_trends], with no post scheduled yet, is about to
  execute node [n] on state [st] in world [w]. *)
Inductive reaches : node -> LinkedInWorkflowState -> World -> Prop :=
  | reaches_start st w :
    published_posts st = [] -> reaches analyze_trends st w
  | reaches_step n st w st' w' n' :
    reaches n st w -> run_node n w st = (st', w') ->
    next_node n st' = Some n' -> reaches n' st' w'.

(** The dict returned when [ainvoke] returns [final_state]: every value
  is read with [getattr(final_state, name, default)]. *)
Definition success_result (final_state : state_value) : pyval :=
  PyDict
    [("success", PyBool true);
     ("workflow_id", PyStr (getattr final_state workflow_id "unknown"));
     ("summary",
      PyDict
        [("trends_found",
          PyInt (Z.of_nat (List.length (getattr final_state trends []))));
         ("content_generated",
          PyInt (Z.of_nat
                   (List.length
                      (getattr final_state generated_content []))));
         ("posts_scheduled",
          PyInt (Z.of_nat
                   (List.length (getattr final_state published_posts []))));
         ("errors", PyList (map PyStr (getattr final_state errors [])))]);
     ("scheduled_posts",
      PyList (map (published_post_dict isoformat)
                  (getattr final_state published_posts [])))].

(** The dict returned by the [except Exception] branch. *)
Definition failure_result (error_msg workflow_id : string) : pyval :=
  PyDict
    [("success", PyBool false);
     ("error", PyStr error_msg);
     ("workflow_id", PyStr workflow_id)].

(** [run_daily_automation()] *)
Definition run_daily_automation (w : World) : pyval * World :=
  let '(t1, w) := utcnow w in
  let '(t2, w) := utcnow w in
  let initial_state :=
    initial_state ("daily_" ++ strftime_id t1) (isoformat t2) in
  let '(r, w) := ainvoke initial_state w in
  match r with
  | Some final_state => (success_result final_state, w)
  | None =>
      (failure_result
         ("Workflow execution failed: " ++ recursion_error_message)
         (workflow_id initial_state), w)
  end.

End Workflow.


(** ** Specification-level definitions for binary64 arithmetic *)

(** The invariant of [k] one-bit right shifts of [m0]. *)
Definition shr_inv (m0 k : Z) (mrs : shr_record) : Prop :=
  0 <= k /\ 0 <= shr_m mrs /\
  exists rem,
    m0 = shr_m mrs * 2 ^ k + rem /\ 0 <= rem < 2 ^ k /\
    (shr_r mrs = true -> 2 ^ k <= 2 * rem) /\
    (shr_r mrs = false -> 2 * rem < 2 ^ k) /\
    (shr_r mrs = false -> shr_s mrs = false -> rem = 0) /\
    (shr_r mrs = true -> shr_s mrs = false -> 2 * rem = 2 ^ k).

Definition fexp64 (z : Z) : Z := Z.max (z - 53) (-1074).

(** [W] is a nearest multiple of the unit in the last place of [V], whose
    binade is [M]; both are counted in units of [2 ^ (- S)]. *)
Definition rounded (S M V W : Z) : Prop :=
  2 ^ (M + S - 1) <= V < 2 ^ (M + S) /\
  exists k, 0 <= k /\ W = k * 2 ^ (fexp64 M + S) /\
            2 * Z.abs (W - V) <= 2 ^ (fexp64 M + S).

(** [W] is the value of the non-negative [x] in units of [2 ^ (- S)]; an
    infinity stands for any value from [2 ^ 1024] on. *)
Definition describes (S : Z) (x : spec_float) (W : Z) : Prop :=
  match x with
  | S754_zero _ => W = 0
  | S754_finite false m e =>
      bounded prec emax m e = true /\ W = Zpos m * 2 ^ (e + S)
  | S754_infinity false => 2 ^ (1024 + S) <= W
  | _ => False
  end.

(** The non-negative values: a zero of either sign, a finite positive
    float, or plus infinity. *)
Definition nonneg_sf (x : spec_float) : Prop :=
  match x with
  | S754_zero _ => True
  | S754_finite false m e => bounded prec emax m e = true
  | S754_infinity false => True
  | _ => False
  end.

(** The comparison of two finite floats of the same sign, on the pairs
    (exponent, mantissa). *)
Definition lex_compare (e1 : Z) (m1 : positive) (e2 : Z) (m2 : positive)
  : comparison :=
  match e1 ?= e2 with
  | Lt => Lt
  | Gt => Gt
  | Eq => (m1 ?= m2)%positive
  end.

Definition nonneg (x : float) : Prop := (0 <=? x)%float = true.

(** A finite positive constant. *)
Definition positive_finite (c : float) : Prop :=
  exists m e, Prim2SF c = S754_finite false m e.

(** ** Specification-level definitions for the scheduler *)

(** 1 when the slot of index [i] is rolled to the next day. *)
Definition rolls (base_time : datetime) (i : Z) : Z :=
  if Datetime.hour base_time >=? optimal_hour i then 1 else 0.

(** The time of index [i], in microseconds: the optimal hour of the index,
    today or tomorrow, plus [i * 30] minutes. *)
Definition slot_us (base_time : datetime) (i : Z) : Z :=
  ((ordinal base_time + rolls base_time i) * 24 + optimal_hour i)
  * 3600000000 + i * 30 * 60000000.

(** The four times claimed for a run at 09:00 on day [ordinal]. *)
Definition claimed_four_times (base_time : datetime) : list datetime :=
  let d := ordinal base_time in
  [mk_datetime d 12 0 0 0; mk_datetime d 17 30 0 0;
   mk_datetime (d + 1) 9 0 0 0; mk_datetime (d + 1) 13 30 0 0].

(** The four times the code computes for a run at 09:00. *)
Definition computed_four_times (base_time : datetime) : list datetime :=
  let d := ordinal base_time in
  [mk_datetime (d + 1) 8 0 0 0; mk_datetime d 12 30 0 0;
   mk_datetime d 18 0 0 0; mk_datetime (d + 1) 9 30 0 0].

(** 3 November 2026, 09:00 UTC. *)
Definition nine_o_clock : datetime := mk_datetime 739923 9 0 0 0.

(** 3 November 2026, 07:00 UTC. *)
Definition seven_o_clock : datetime := mk_datetime 739923 7 0 0 0.

(** C4 as stated: [N] timestamps, pairwise distinct, each an optimal hour
    plus the jitter of its index, non-decreasing in index order. *)
Definition post_times_as_claimed (base_time : datetime) (N : Z) : Prop :=
  exists times,
    calculate_optimal_post_times base_time N = Some times /\
    Z.of_nat (List.length times) = N /\
    NoDup times /\
    (forall k t, nth_error times k = Some t ->
       to_microseconds t = slot_us base_time (Z.of_nat k)) /\
    (forall j k a b, (j <= k)%nat -> nth_error times j = Some a ->
       nth_error times k = Some b -> Datetime.leb a b = true).

(** ** Concrete collaborators, to run the definitions on *)

Module Stub.

(** One trend survives the filter. *)
Definition one_trend : trend :=
  mk_trend (Some 1) (Some "AI agents") ["#AI"] (Some 0.9%float)
           "techcrunch".

Definition trend_agent (sources : list string) (limit : Z) (w : unit)
  : agent_result (list trend) * unit :=
  (AgentSuccess [one_trend], w).

(** A generation service that always returns low-engagement content:
  readability 20, engagement 0.1. *)
Definition low_metrics : quality_metrics :=
  mk_quality_metrics (Some 20%float) (Some 0.1%float).

Definition content_agent (trend_topic_id : option Z) (tone : string)
    (w : unit) : agent_result agent_content * unit :=
  (AgentSuccess (execute_logic 7 "A post." ["#AI"] low_metrics), w).

(** A generation service that returns engaging, readable content:
  readability 60, engagement 0.8. *)
Definition good_metrics : quality_metrics :=
  mk_quality_metrics (Some 60%float) (Some 0.8%float).

Definition good_candidate : content :=
  mk_content (execute_logic 7 "A post." ["#AI"] good_metrics)
             one_trend "professional" None None.

Definition db (post_id : Z) (t : datetime) (w : unit) : db_result * unit :=
  (PostCommitted, w).

Definition clock (w : unit) : datetime * unit := (nine_o_clock, w).

Definition strftime_id (t : datetime) : string := "20261103_090000".
Definition isoformat (t : datetime) : string := "2026-11-03T09:00:00".

(** A trend analysis that fails: the run has no trend. *)
Definition failing_trend_agent (sources : list string) (limit : Z)
    (w : unit) : agent_result (list trend) * unit :=
  (AgentFailure (Some "No recent articles found"), w).

Definition str_of_exception (e : scheduling_exception) : string :=
  match e with
  | OverflowError => "date value out of range"
  | UnboundLocalError =>
      "cannot access local variable 'post_id' where it is not associated with a value"
  end.

Definition run_node_no_trend :=
  run_node failing_trend_agent content_agent db clock str_of_exception.

Definition run_node :=
  run_node trend_agent content_agent db clock str_of_exception.
Definition run_graph :=
  run_graph trend_agent content_agent db clock str_of_exception.

Definition run_daily_automation :=
  run_daily_automation trend_agent content_agent db clock strftime_id
    isoformat "Recursion limit of 50 reached" str_of_exception.

(** The run's first state, and its states before [generate_content]
  and before [review_content]. *)
Definition state0 : LinkedInWorkflowState :=
  initial_state "daily_20261103_090000" "2026-11-03T09:00:00".
Definition state1 : LinkedInWorkflowState :=
  fst (run_node analyze_trends tt state0).
Definition state2 : LinkedInWorkflowState :=
  fst (run_node filter_trends tt state1).
Definition state3 : LinkedInWorkflowState :=
  fst (run_node generate_content tt state2).
Definition state4 : LinkedInWorkflowState :=
  fst (run_node review_content tt state3).

(** The state of that run before [review_content]. *)
Definition no_trend_state3 : LinkedInWorkflowState :=
  fst (run_node_no_trend generate_content tt
    (fst (run_node_no_trend filter_trends tt
      (fst (run_node_no_trend analyze_trends tt state0))))).

(** [str.lower()] on ASCII letters. *)
Definition lower_ascii (c : ascii) : ascii :=
  let n := nat_of_ascii c in
  if ((65 <=? n) && (n <=? 90))%nat then ascii_of_nat (n + 32) else c.

Fixpoint lower (s : string) : string :=
  match s with
  | EmptyString => EmptyString
  | String c r => String (lower_ascii c) (lower r)
  end.

(** A language model that answers its calls, in order, with the
  relevances 0.9, 0.4 and 0.9; the world counts the calls. *)
Definition generate_text (prompt : string) (calls : nat)
  : option string * nat :=
  (Some (nth calls ["0.9"; " 0.4 "; "0.9"] "n/a"), S calls).

Definition float_of_reply (reply : string) : option float :=
  if String.eqb reply "0.9" then Some 0.9%float
  else if String.eqb reply " 0.4 " then Some 0.4%float
  else None.

Definition mention (topic : string) : topic_info :=
  mk_topic_info topic ["#tech"]
    (mk_source_article "A title" "https://example.org/a" "2026-11-03")
    "techcrunch".

(** Three topics mentioned 5, 2 and 1 times. *)
Definition mentions : list topic_info :=
  [mention "AI Agents"; mention "Cloud"; mention "ai agents";
   mention "Rust"; mention "AI AGENTS"; mention "cloud";
   mention "Ai Agents"; mention "ai agents"].

Definition ranking (limit : Z) : list ranked_trend :=
  fst (rank_trends lower generate_text float_of_reply mentions limit
         0%nat).

End Stub.

(** ** The claims as the specification states them *)

(** Descending order of the keys of a list. *)
Definition descending {A : Type} (key : A -> float) (a b : A) : Prop :=
  (key b <=? key a)%float = true.

(** The topic a ranked trend was counted under. *)
Definition trend_key (lower : string -> string) (t : ranked_trend) : string :=
  lower (ti_topic (rt_info t)).

(** C6 as stated: at most [limit] trends, in descending
    order of the final score, no two with the same lower-cased topic. *)
Definition ranking_as_claimed (lower : string -> string)
    (ranked : list ranked_trend) (limit : Z) : Prop :=
  Z.of_nat (List.length ranked) <= limit /\
  StronglySorted (descending rt_relevance_score) ranked /\
  NoDup (map (trend_key lower) ranked).

(** C7: [blendRelevance] as the specification writes it,
    [0.7*llmScore + 0.3*min(mentionCount/5, 1.0)], to be compared with
    [final_score]. *)
Definition blendRelevance (llmScore : float) (mentionCount : Z) : float :=
  (0.7 * llmScore + 0.3 * py_min (int_true_div mentionCount 5) 1.0)%float.

(** C2 as stated, on the state [st] the conditional edge reads: a state
    without any candidate falls under "below the ceiling". *)
Definition decision_as_claimed (st : LinkedInWorkflowState) : Prop :=
  ((exists c, In c (generated_content st) /\ is_approved c = true) ->
   next_node review_content st = Some schedule_posts) /\
  ((forall c, In c (generated_content st) -> is_approved c = false) ->
   (List.length (generated_content st) < 5)%nat ->
   next_node review_content st = Some generate_content) /\
  ((forall c, In c (generated_content st) -> is_approved c = false) ->
   (5 <= List.length (generated_content st))%nat ->
   next_node review_content st = None /\ published_posts st = []).

(** C8 as stated, on the returned dict: the success flag, the three counts
    and the error list. *)
Definition result_as_claimed (r : pyval) : Prop :=
  has_key "success" r = true /\
  exists summary,
    get_key "summary" r = Some summary /\
    has_key "trends_found" summary = true /\
    has_key "content_generated" summary = true /\
    has_key "posts_scheduled" summary = true /\
    has_key "errors" summary = true.

(** ** Definitions for the further properties of the workflow *)

(** [x] is a number: not a NaN ([not math.isnan(x)]). *)
Definition is_number (x : float) : Prop := is_nan x = false.

(** What a run of the graph leaves alone: the input parameters, the
    identification of the run and the two analytics counters that no node
    assigns; the error list only grows, and so does the list of scheduled
    posts. *)
Definition same_run (st st' : LinkedInWorkflowState) : Prop :=
  sources st' = sources st /\ max_trends st' = max_trends st /\
  max_posts_per_day st' = max_posts_per_day st /\
  content_tones st' = content_tones st /\
  workflow_id st' = workflow_id st /\ started_at st' = started_at st /\
  trends_found st' = trends_found st /\
  content_generated st' = content_generated st /\
  (exists es, errors st' = errors st ++ es)%list /\
  (exists ps, published_posts st' = published_posts st ++ ps)%list.

(** A relevance score in [[0, 1]]; a trend without the key counts as 0. *)
Definition relevance_in_range (t : trend) : Prop :=
  nonneg (get_or_zero (trend_relevance_score t)) /\
  (get_or_zero (trend_relevance_score t) <=? 1)%float = true.

(** A candidate as the content agent returns it, on a trend of relevance
    in [[0, 1]]: its ["post"] dict has no ["quality_metrics"] key. *)
Definition unapproved (c : content) : Prop :=
  post_quality_metrics (ac_post (c_data c)) = None /\
  relevance_in_range (c_trend_info c).

(** The invariant of a run in which nothing can be approved: the run is
    before [schedule_posts], no post is recorded, and every trend and
    every candidate of the state is as above. *)
Definition nothing_approved (n : node) (st : LinkedInWorkflowState)
  : Prop :=
  before_scheduling n = true /\ published_posts st = [] /\
  Forall relevance_in_range (trends st) /\
  Forall unapproved (generated_content st).

(** The message [_analyze_trends_node] records for a result of the trend
    agent that is not a success. *)
Definition analysis_errors (r : agent_result (list trend)) : list string :=
  match r with
  | AgentSuccess _ => []
  | AgentFailure error =>
      ["Trend analysis failed: " ++
       match error with Some e => e | None => "Unknown error" end]
  | AgentRaise msg => ["Trend analysis error: " ++ msg]
  end.

(** The dict [run_daily_automation] builds when every
    [getattr(final_state, name, default)] falls to its default. *)
Definition default_result : pyval :=
  PyDict
    [("success", PyBool true);
     ("workflow_id", PyStr "unknown");
     ("summary",
      PyDict [("trends_found", PyInt 0);
              ("content_generated", PyInt 0);
              ("posts_scheduled", PyInt 0);
              ("errors", PyList [])]);
     ("scheduled_posts", PyList [])].

(** ** Definitions for the further properties of the trend ranker *)

(** The mentions of the lower-cased topic [k] in a list of mentions, in
    order. *)
Definition mentions_of (lower : string -> string) (k : string)
    (topics : list topic_info) : list topic_info :=
  filter (fun info => String.eqb (lower (ti_topic info)) k) topics.

(** The two dicts of the counting loop describe the mentions [seen]:
    a topic is counted when it was mentioned, its count is the number of
    its mentions, and its data is the first of them. *)
Definition counts_mentions (lower : string -> string)
    (seen : list topic_info) (topic_counts : dict Z)
    (topic_data : dict topic_info) : Prop :=
  forall k,
    dict_get k topic_counts
    = match mentions_of lower k seen with
      | [] => None
      | l => Some (Z.of_nat (List.length l))
      end /\
    dict_get k topic_data = hd_error (mentions_of lower k seen).

(** * Text processing: [app/utils/text_processing.py] and the text helpers
      of [ContentCreationAgent]

    A Python [str] is a [string], one [ascii] per character.  What Python
    decides from the Unicode database is a parameter of the model:
    [is_space c] is [c.isspace()] (the characters [str.strip],
    [str.split] and the pattern [\s] treat as white space), [is_word c]
    tells whether the pattern [\w] matches [c], and [lower] is
    [str.lower]. *)

Definition newline : ascii := "010"%char.
Definition hash_sign : ascii := "#"%char.

(** The first character of [s] satisfies [p]. *)
Definition starts_with (p : ascii -> bool) (s : string) : bool :=
  match s with
  | String c _ => p c
  | EmptyString => false
  end.

(** [sub in s] *)
Fixpoint str_contains (sub s : string) : bool :=
  prefix sub s ||
  match s with
  | EmptyString => false
  | String _ r => str_contains sub r
  end.

(** [s.count(c)] for a one-character string [c] *)
Fixpoint str_count (c : ascii) (s : string) : Z :=
  match s with
  | EmptyString => 0
  | String d r => (if Ascii.eqb d c then 1 else 0) + str_count c r
  end.

(** [s[:stop]] *)
Definition str_slice_to (s : string) (stop : Z) : string :=
  if stop <? 0
  then substring 0 (Z.to_nat (Z.of_nat (String.length s) + stop)) s
  else substring 0 (Z.to_nat stop) s.

(** [len(s)] *)
Definition str_len (s : string) : Z := Z.of_nat (String.length s).

(** [list(dict.fromkeys(l))]: the distinct elements of [l], each at the
    place of its first occurrence. *)
Definition dict_fromkeys (l : list string) : list string :=
  dict_keys (fold_left (fun d k => dict_set k tt d) l []).

Section PyStr.

Variable is_space : ascii -> bool.
Variable is_word : ascii -> bool.

(** [s.lstrip()], [s.rstrip()] and [s.strip()] *)
Fixpoint str_lstrip (s : string) : string :=
  match s with
  | EmptyString => EmptyString
  | String c r => if is_space c then str_lstrip r else s
  end.

Fixpoint str_rstrip (s : string) : string :=
  match s with
  | EmptyString => EmptyString
  | String c r =>
      match str_rstrip r with
      | EmptyString => if is_space c then EmptyString
                       else String c EmptyString
      | r' => String c r'
      end
  end.

Definition str_strip (s : string) : string := str_rstrip (str_lstrip s).

(** [not s or not s.strip()] *)
Definition is_blank (s : string) : bool :=
  match str_strip s with
  | EmptyString => true
  | String _ _ => false
  end.

(** [s.split()]: the maximal runs of characters that are not white
    space. *)
Fixpoint str_split (s : string) : list string :=
  match s with
  | EmptyString => []
  | String c r =>
      if is_space c then str_split r
      else if starts_with (fun d => negb (is_space d)) r
           then match str_split r with
                | w :: ws => String c w :: ws
                | [] => [String c EmptyString]
                end
           else String c EmptyString :: str_split r
  end.

(** [re.sub(r'#\w+', '', s)]: a [#] followed by a word character is
    removed with the whole run of word characters after it.  [in_tag]
    tells that the characters read so far end inside such a match. *)
Fixpoint re_sub_hashtags_from (in_tag : bool) (s : string) : string :=
  match s with
  | EmptyString => EmptyString
  | String c r =>
      if in_tag && is_word c then re_sub_hashtags_from true r
      else if Ascii.eqb c hash_sign && starts_with is_word r
           then re_sub_hashtags_from true r
           else String c (re_sub_hashtags_from false r)
  end.

Definition re_sub_hashtags (s : string) : string :=
  re_sub_hashtags_from false s.

(** The longest prefix of word characters. *)
Fixpoint take_word (s : string) : string :=
  match s with
  | EmptyString => EmptyString
  | String c r => if is_word c then String c (take_word r)
                  else EmptyString
  end.

(** [re.findall(r'#(\w+)', s)]: the runs of word characters the pattern
    captures, in order. *)
Fixpoint re_findall_hashtags_from (in_tag : bool) (s : string)
  : list string :=
  match s with
  | EmptyString => []
  | String c r =>
      if in_tag && is_word c then re_findall_hashtags_from true r
      else if Ascii.eqb c hash_sign && starts_with is_word r
           then take_word r :: re_findall_hashtags_from true r
           else re_findall_hashtags_from false r
  end.

Definition re_findall_hashtags (s : string) : list string :=
  re_findall_hashtags_from false s.

(** [re.sub(r'\n{3,}', '\n\n', s)]: of every run of line breaks at most
    two are kept.  [run] counts the line breaks just read. *)
Fixpoint re_sub_newlines_from (run : nat) (s : string) : string :=
  match s with
  | EmptyString => EmptyString
  | String c r =>
      if Ascii.eqb c newline
      then if (run <? 2)%nat
           then String c (re_sub_newlines_from (S run) r)
           else re_sub_newlines_from run r
      else String c (re_sub_newlines_from 0 r)
  end.

Definition re_sub_newlines (s : string) : string :=
  re_sub_newlines_from 0 s.

(** [re.split(r'[.!?]+', s)]: the pieces between the runs of sentence
    marks, the empty pieces at both ends included. *)
Definition is_sentence_mark (c : ascii) : bool :=
  Ascii.eqb c "."%char || Ascii.eqb c "!"%char || Ascii.eqb c "?"%char.

Fixpoint re_split_sentences (s : string) : list string :=
  match s with
  | EmptyString => [EmptyString]
  | String c r =>
      if is_sentence_mark c
      then if starts_with is_sentence_mark r then re_split_sentences r
           else EmptyString :: re_split_sentences r
      else match re_split_sentences r with
           | p :: ps => String c p :: ps
           | [] => [String c EmptyString]
           end
  end.

(** A [#] followed by a word character occurs in [s]: the pattern
    [#\w+] has a match. *)
Fixpoint has_hashtag (s : string) : bool :=
  match s with
  | EmptyString => false
  | String c r =>
      (Ascii.eqb c hash_sign && starts_with is_word r) || has_hashtag r
  end.

(** ** [ContentCreationAgent._ensure_linkedin_compliance] *)

Definition ensure_linkedin_compliance (max_post_length : Z)
    (content : string) : string :=
  let content :=
    if str_len content >? max_post_length
    then str_slice_to content (max_post_length - 3) ++ "..."
    else content in
  let content := re_sub_hashtags content in
  let content := re_sub_newlines content in
  str_strip content.

(** ** [TextProcessor] *)

(** [max(0.0, min(100.0, score))] *)
Definition clamp_score (score : float) : float :=
  py_max 0.0 (py_min 100.0 score).

(** [sum(len(word) for word in words)] *)
Definition total_length (words : list string) : Z :=
  fold_right (fun w n => str_len w + n) 0 words.

(** [_simple_readability_score(text)] *)
Definition simple_readability_score (text : string) : float :=
  if is_blank text then 50.0%float
  else
    let sentences :=
      map str_strip
          (filter (fun s => negb (is_blank s)) (re_split_sentences text)) in
    let words := str_split text in
    match words, sentences with
    | [], _ => 50.0%float
    | _, [] => 50.0%float
    | _ :: _, _ :: _ =>
        let avg_words_per_sentence :=
          int_true_div (Z.of_nat (List.length words))
                       (Z.of_nat (List.length sentences)) in
        let avg_chars_per_word :=
          int_true_div (total_length words)
                       (Z.of_nat (List.length words)) in
        let score := 80.0%float in
        let score :=
          if (20 <? avg_words_per_sentence)%float
          then (score - (avg_words_per_sentence - 20) * 2)%float
          else if (avg_words_per_sentence <? 10)%float
               then (score - (10 - avg_words_per_sentence) * 1)%float
               else score in
        let score :=
          if (6 <? avg_chars_per_word)%float
          then (score - (avg_chars_per_word - 6) * 3)%float
          else score in
        clamp_score score
    end.

(** [calculate_readability(text)].  [textstat] is the Flesch reading ease
    of the [textstat] package when the package is installed; its result
    is [None] when the call raises. *)
Definition calculate_readability
    (textstat : option (string -> option float)) (text : string) : float :=
  if is_blank text then 50.0%float
  else
    match textstat with
    | Some flesch_reading_ease =>
        match flesch_reading_ease text with
        | Some score => clamp_score score
        | None => simple_readability_score text
        end
    | None => simple_readability_score text
    end.

(** [extract_hashtags(text)]: [list(set(re.findall(r'#(\w+)', text)))].
    The order of a [set] is not specified; the model keeps the first
    occurrences in order. *)
Definition extract_hashtags (text : string) : list string :=
  dict_fromkeys (re_findall_hashtags text).

(** The dict [validate_content] returns. *)
Record validation := mk_validation
  { is_valid : bool;
    issues : list string;
    suggestions : list string;
    character_count : Z;
    readability_score : float;
    hashtag_count : Z;
    has_engagement_elements : bool }.

Variable lower : string -> string.

Definition call_to_action_phrases : list string :=
  ["what do you think"; "share your thoughts"; "let me know";
   "comment below"; "thoughts?"].

(** [validate_content(text)] *)
Definition validate_content
    (textstat : option (string -> option float)) (text : string)
  : validation :=
  let issues := [] in
  let suggestions := [] in
  let '(issues, suggestions) :=
    if str_len text >? 3000
    then ((issues ++ ["Content exceeds LinkedIn's 3000 character limit"]),
          (suggestions ++
           ["Consider shortening the content or splitting into multiple posts"]))%list
    else (issues, suggestions) in
  let readability_score := calculate_readability textstat text in
  let '(issues, suggestions) :=
    if (readability_score <? 60)%float
    then ((issues ++ ["Content may be difficult to read"]),
          (suggestions ++
           ["Try using shorter sentences and simpler words"]))%list
    else (issues, suggestions) in
  let hashtags := extract_hashtags text in
  let '(issues, suggestions) :=
    if Z.of_nat (List.length hashtags) >? 5
    then ((issues ++ ["Too many hashtags may reduce engagement"]),
          (suggestions ++
           ["Limit hashtags to 3-5 most relevant ones"]))%list
    else (issues, suggestions) in
  let has_question := str_contains "?" text in
  let has_call_to_action :=
    existsb (fun phrase => str_contains phrase (lower text))
            call_to_action_phrases in
  let suggestions :=
    if negb has_question && negb has_call_to_action
    then (suggestions ++
          ["Consider adding a question or call-to-action to encourage engagement"])%list
    else suggestions in
  {| is_valid := (List.length issues =? 0)%nat;
     issues := issues;
     suggestions := suggestions;
     character_count := str_len text;
     readability_score := readability_score;
     hashtag_count := Z.of_nat (List.length hashtags);
     has_engagement_elements := has_question || has_call_to_action |}.

(** ** [ContentCreationAgent._predict_engagement] *)

Definition engagement_phrases : list string :=
  ["what do you think"; "thoughts"; "agree"; "disagree";
   "share your experience"; "let me know"; "comment below";
   "your thoughts?"].

Definition insight_words : list string :=
  ["tip"; "insight"; "learn"; "discover"; "revealed"; "secret";
   "strategy"].

Definition action_words : list string :=
  ["implement"; "build"; "create"; "develop"; "improve"; "optimize"].

(** [any(phrase in content.lower() for phrase in phrases)] *)
Definition any_in (phrases : list string) (content : string) : bool :=
  existsb (fun phrase => str_contains phrase (lower content)) phrases.

Definition predict_engagement (content : string) : float :=
  let score := 0.5%float in
  let score :=
    if str_contains "?" content then (score + 0.15)%float else score in
  let score :=
    if any_in engagement_phrases content then (score + 0.15)%float
    else score in
  let score :=
    if any_in insight_words content then (score + 0.1)%float else score in
  let char_count := str_len content in
  let score :=
    if (800 <=? char_count) && (char_count <=? 2000)
    then (score + 0.1)%float
    else if char_count <? 500 then (score - 0.1)%float else score in
  let score :=
    if str_count newline content >=? 2 then (score + 0.1)%float
    else score in
  let score :=
    if any_in action_words content then (score + 0.05)%float else score in
  py_min 1.0 (py_max 0.0 score).

End PyStr.

(** * The agents: [app/agents/base_agent.py],
      [app/agents/trend_analysis_agent.py] and
      [app/agents/content_creation_agent.py]

    An exception is the [inr] of a result, with its [str(e)].  The keyword
    arguments of an agent are a record: the callers of this repository
    pass values of these types. *)

(** The settings the agents read ([app/config/settings.py]), with the
    values the class [Settings] declares for them. *)
Record Settings := mk_settings
  { max_post_length : Z;
    min_readability_score : Z;
    max_hashtags : Z }.

Definition settings : Settings :=
  {| max_post_length := 3000;
     min_readability_score := 60;
     max_hashtags := 5 |}.

(** ** [BaseAgent.execute] *)

Module BaseAgent.

Section Agent.

Variable World Kwargs Result : Type.

(** [datetime.utcnow()] *)
Variable utcnow : World -> datetime * World.

(** [self._validate_input(kwargs)]: [Some msg] when it raises
  [ValueError(msg)]. *)
Variable validate_input : Kwargs -> option string.

(** [await self._execute_logic(kwargs)] *)
Variable execute_logic : Kwargs -> World -> (Result + string) * World.

(** [await self._log_activity(activity_type="execution", status=...,
  details=..., error_message=..., execution_time=...)]: the status, the
  input parameters and the result of the details, the error message, and
  the two clock readings the execution time is taken from.  It catches
  its own exceptions. *)
Variable log_activity :
  string -> Kwargs -> option Result -> option string ->
  datetime -> datetime -> World -> World.

(** The [except Exception] branch of [execute]. *)
Definition failed (kwargs : Kwargs) (start_time : datetime)
    (error_message : string) (w : World) : agent_result Result * World :=
  let '(end_time, w) := utcnow w in
  (AgentFailure (Some error_message),
   log_activity "error" kwargs None (Some error_message)
                start_time end_time w).

(** [await self.execute(kwargs)]: of the dict it returns the model
  keeps ["success"] with ["data"] or ["error"]. *)
Definition execute (kwargs : Kwargs) (w : World)
  : agent_result Result * World :=
  let '(start_time, w) := utcnow w in
  match validate_input kwargs with
  | Some error_message => failed kwargs start_time error_message w
  | None =>
      let '(r, w) := execute_logic kwargs w in
      match r with
      | inl result =>
          let '(end_time, w) := utcnow w in
          (AgentSuccess result,
           log_activity "success" kwargs (Some result) None
                        start_time end_time w)
      | inr error_message => failed kwargs start_time error_message w
      end
  end.

End Agent.

End BaseAgent.

(** ** [TrendAnalysisAgent] *)

Module TrendAnalysisAgent.

Record kwargs := mk_kwargs
  { kw_sources : list string;
    kw_limit : Z;
    kw_hours_back : Z }.

(** An article of [NewsService.fetch_techcrunch_articles]; the
    publication date is carried along unread. *)
Record article := mk_article
  { a_title : string;
    a_url : string;
    a_summary : string;
    a_published_at : string;
    a_source : string }.

(** The dict [_execute_logic] returns; the keys [topics_extracted] and
    [timestamp] are missing when no article was found. *)
Record analysis := mk_analysis
  { an_trends : list trend;
    an_articles_analyzed : Z;
    an_topics_extracted : option Z;
    an_timestamp : option datetime }.

(** [_validate_input(kwargs)] *)
Definition validate_input (kw : kwargs) : option string :=
  match kw_sources kw with
  | [] => Some "Sources must be a non-empty list"
  | _ :: _ =>
      if (kw_limit kw <? 1) || (kw_limit kw >? 50)
      then Some "Limit must be an integer between 1 and 50"
      else None
  end.

Section Logic.

Variable World : Type.

(** [str.lower()] *)
Variable lower : string -> string.

(** [await self.news_service.fetch_techcrunch_articles(hours_back)];
  [None] when it raises. *)
Variable fetch_techcrunch_articles :
  Z -> World -> option (list article) * World.

(** [await self.llm_service.extract_topics(content, max_topics=...)] and
  [await self.llm_service.generate_hashtags(topic, max_hashtags=...)];
  [None] when the call raises. *)
Variable extract_topics : string -> Z -> World -> option (list string) * World.
Variable generate_hashtags :
  string -> Z -> World -> option (list string) * World.

(** The language model of the ranker. *)
Variable generate_text : string -> World -> option string * World.
Variable float_of_reply : string -> option float.

(** [next(get_db())]; the body of the loop of [_store_trends] for one
  trend: the dict it appends, or the exception it raises; and
  [db.close()].  For [db_open] and [db_close], [Some msg] is the exception
  the call raises. *)
Variable db_open : World -> option string * World.
Variable db_store_trend : ranked_trend -> World -> (trend + string) * World.
Variable db_close : World -> option string * World.

Variable utcnow : World -> datetime * World.

(** [_fetch_recent_articles(sources, hours_back)]: a source other than
  TechCrunch is logged and skipped, and so is a fetch that raises. *)
Fixpoint fetch_recent_articles (sources : list string) (hours_back : Z)
    (articles : list article) (w : World) : list article * World :=
  match sources with
  | [] => (articles, w)
  | source :: rest =>
      if String.eqb (lower source) "techcrunch"
      then
        let '(r, w) := fetch_techcrunch_articles hours_back w in
        match r with
        | Some source_articles =>
            fetch_recent_articles rest hours_back
              (articles ++ source_articles)%list w
        | None => fetch_recent_articles rest hours_back articles w
        end
      else fetch_recent_articles rest hours_back articles w
  end.

(** The inner loop of [_extract_topics_from_articles]: one mention per
  extracted topic; an exception ends the loop, the mentions already
  appended stay. *)
Fixpoint topics_of_article (article : article) (extracted : list string)
    (topics : list topic_info) (w : World) : list topic_info * World :=
  match extracted with
  | [] => (topics, w)
  | topic :: rest =>
      let '(r, w) := generate_hashtags topic 3 w in
      match r with
      | Some hashtags =>
          topics_of_article article rest
            (topics ++
             [mk_topic_info topic hashtags
                (mk_source_article (a_title article) (a_url article)
                                   (a_published_at article))
                (a_source article)])%list w
      | None => (topics, w)
      end
  end.

(** [_extract_topics_from_articles(articles)] *)
Fixpoint extract_topics_from_articles (articles : list article)
    (topics : list topic_info) (w : World) : list topic_info * World :=
  match articles with
  | [] => (topics, w)
  | article :: rest =>
      let content := (a_title article ++ " " ++ a_summary article)%string in
      let '(r, w) := extract_topics content 3 w in
      let '(topics, w) :=
        match r with
        | Some extracted => topics_of_article article extracted topics w
        | None => (topics, w)
        end in
      extract_topics_from_articles rest topics w
  end.

(** The loop of [_store_trends]: the first exception is raised again. *)
Fixpoint store_loop (trends : list ranked_trend) (stored : list trend)
    (w : World) : (list trend + string) * World :=
  match trends with
  | [] => (inl stored, w)
  | trend_data :: rest =>
      let '(r, w) := db_store_trend trend_data w in
      match r with
      | inl t => store_loop rest (stored ++ [t])%list w
      | inr msg => (inr msg, w)
      end
  end.

(** [_store_trends(trends)] *)
Definition store_trends (trends : list ranked_trend) (w : World)
  : (list trend + string) * World :=
  let '(r, w) := db_open w in
  match r with
  | Some msg => (inr msg, w)
  | None =>
      let '(r, w) := store_loop trends [] w in
      match r with
      | inl stored_trends =>
          let '(r, w) := db_close w in
          match r with
          | Some msg => (inr msg, w)
          | None => (inl stored_trends, w)
          end
      | inr msg => (inr msg, w)
      end
  end.

(** [_execute_logic(kwargs)] *)
Definition execute_logic (kw : kwargs) (w : World)
  : (analysis + string) * World :=
  let '(articles, w) :=
    fetch_recent_articles (kw_sources kw) (kw_hours_back kw) [] w in
  match articles with
  | [] => (inl (mk_analysis [] 0 None None), w)
  | _ :: _ =>
      let '(topics, w) := extract_topics_from_articles articles [] w in
      let '(ranked_trends, w) :=
        rank_trends lower generate_text float_of_reply topics
                    (kw_limit kw) w in
      let '(r, w) := store_trends ranked_trends w in
      match r with
      | inl stored_trends =>
          let '(now, w) := utcnow w in
          (inl (mk_analysis stored_trends
                  (Z.of_nat (List.length articles))
                  (Some (Z.of_nat (List.length topics)))
                  (Some now)), w)
      | inr msg => (inr msg, w)
      end
  end.

Variable log_activity :
  string -> kwargs -> option analysis -> option string ->
  datetime -> datetime -> World -> World.

(** [TrendAnalysisAgent().execute(kwargs)] *)
Definition execute : kwargs -> World -> agent_result analysis * World :=
  BaseAgent.execute utcnow validate_input execute_logic log_activity.

(** The call of [_analyze_trends_node], which reads
  [result["data"]["trends"]]: [hours_back] takes its default of 24. *)
Definition trend_agent_execute (sources : list string) (limit : Z)
    (w : World) : agent_result (list trend) * World :=
  let '(result, w) := execute (mk_kwargs sources limit 24) w in
  (match result with
   | AgentSuccess data => AgentSuccess (an_trends data)
   | AgentFailure error => AgentFailure error
   | AgentRaise msg => AgentRaise msg
   end, w).

End Logic.

End TrendAnalysisAgent.

(** ** [ContentCreationAgent] *)

Module ContentCreationAgent.

Record kwargs := mk_kwargs
  { kw_trend_topic_id : option Z;
    kw_custom_topic : option string;
    kw_tone : string;
    kw_include_hashtags : bool;
    kw_target_length : Z }.

(** A row of [trend_topics]; [hashtags] is a nullable column. *)
Record trend_row := mk_trend_row
  { row_topic : string;
    row_hashtags : option (list string);
    row_relevance_score : float;
    row_source : string }.

(** The dict [_get_topic_info] returns. *)
Record topic_details := mk_topic_details
  { td_topic : option string;
    td_hashtags : list string;
    td_relevance_score : float;
    td_source : string;
    td_is_trending : bool;
    td_extracted_topics : option (list string) }.

(** The dict [_analyze_content_quality] returns. *)
Record content_quality := mk_content_quality
  { cq_character_count : Z;
    cq_word_count : Z;
    cq_readability_score : float;
    cq_engagement_score : float;
    cq_meets_length_requirements : bool;
    cq_meets_readability_requirements : bool;
    cq_validation : validation }.

(** An entry of the list [generate_multiple_variants] returns. *)
Record variant := mk_variant
  { var_variant : Z;
    var_tone : string;
    var_content : string;
    var_hashtags : list string;
    var_quality_metrics : content_quality }.

(** [if x:] on an optional integer and on an optional string *)
Definition truthy_id (id : option Z) : bool :=
  match id with
  | Some n => negb (n =? 0)
  | None => false
  end.

Definition truthy_str (s : option string) : bool :=
  match s with
  | Some EmptyString => false
  | Some (String _ _) => true
  | None => false
  end.

Definition tones : list string := ["professional"; "casual"; "technical"].

(** [_validate_input(kwargs)] *)
Definition validate_input (kw : kwargs) : option string :=
  if negb (truthy_id (kw_trend_topic_id kw))
     && negb (truthy_str (kw_custom_topic kw))
  then Some "Either trend_topic_id or custom_topic must be provided"
  else if existsb (String.eqb (kw_tone kw)) tones
       then None
       else Some "Tone must be one of: professional, casual, technical".

(** What the reviewer can read of the metrics. *)
Definition metrics_of (q : content_quality) : quality_metrics :=
  mk_quality_metrics (Some (cq_readability_score q))
                     (Some (cq_engagement_score q)).

(** The dict [_execute_logic] returns for a stored post. *)
Definition stored_result (id : Z) (content : string)
    (hashtags : list string) (q : content_quality) : agent_content :=
  execute_logic id content hashtags (metrics_of q).

Section Logic.

Variable World : Type.

Variable is_space : ascii -> bool.
Variable is_word : ascii -> bool.
Variable lower : string -> string.
Variable textstat : option (string -> option float).

(** [str(n)] in the message of a missing trend. *)
Variable str_of_int : Z -> string.

(** The lookup of [_get_topic_info]: the row, [None] when [first()]
  finds none, or the exception of the database. *)
Variable db_get_trend : Z -> World -> (option trend_row + string) * World.

(** [await self.llm_service.extract_topics(custom_topic, max_topics=3)]
  and [await self.llm_service.generate_hashtags(content,
  max_hashtags=...)]. *)
Variable extract_topics :
  option string -> Z -> World -> (list string + string) * World.
Variable llm_generate_hashtags :
  string -> Z -> World -> option (list string) * World.

(** The reply of the language model to the prompt [_generate_base_content]
  builds from the topic, the tone and the target length. *)
Variable llm_base_content :
  topic_details -> string -> Z -> World -> (string + string) * World.

(** [str(KeyError(tone))] *)
Variable key_error : string -> string.

(** [await self.llm_service.improve_readability(content)]; [None] when it
  raises. *)
Variable improve_readability : string -> World -> option string * World.

(** The [try] block of [_store_content], which inserts the post with its
  content, hashtags, readability score, character count and trend id: the
  id of the new row, or the exception.  The dict it returns is read from
  the refreshed row; the model takes the row to hold the values that were
  inserted, with the status ['draft']. *)
Variable db_store_post :
  string -> list string -> float -> Z -> option Z -> World ->
  (Z + string) * World.

Variable utcnow : World -> datetime * World.

(** [_get_topic_info(trend_topic_id, custom_topic)] *)
Definition get_topic_info (trend_topic_id : option Z)
    (custom_topic : option string) (w : World)
  : (topic_details + string) * World :=
  if truthy_id trend_topic_id
  then
    let id := match trend_topic_id with Some n => n | None => 0 end in
    let '(r, w) := db_get_trend id w in
    match r with
    | inl (Some trend) =>
        (inl (mk_topic_details (Some (row_topic trend))
                match row_hashtags trend with
                | Some (h :: r) => h :: r
                | _ => []
                end
                (row_relevance_score trend) (row_source trend) true None),
         w)
    | inl None =>
        (inr ("Trend topic with ID " ++ str_of_int id ++ " not found")%string,
         w)
    | inr msg => (inr msg, w)
    end
  else
    let '(r, w) := extract_topics custom_topic 3 w in
    match r with
    | inl topics =>
        (inl (mk_topic_details custom_topic [] 0.5%float "custom" false
                               (Some topics)), w)
    | inr msg => (inr msg, w)
    end.

(** [_generate_base_content(topic_info, tone, target_length)]: the
  instructions of the tone are looked up first,
  [tone_instructions[tone]]. *)
Definition generate_base_content (topic_info : topic_details)
    (tone : string) (target_length : Z) (w : World)
  : (string + string) * World :=
  if existsb (String.eqb tone) tones
  then
    let '(r, w) := llm_base_content topic_info tone target_length w in
    match r with
    | inl content => (inl (str_strip is_space content), w)
    | inr msg => (inr msg, w)
    end
  else (inr (key_error tone), w).

(** [_optimize_content(content)] *)
Definition optimize_content (content : string) (w : World)
  : string * World :=
  let '(r, w) := improve_readability content w in
  match r with
  | Some optimized =>
      (ensure_linkedin_compliance is_space is_word
         (max_post_length settings) optimized, w)
  | None =>
      (ensure_linkedin_compliance is_space is_word
         (max_post_length settings) content, w)
  end.

(** [_generate_hashtags(content, topic_info)] *)
Definition generate_hashtags (content : string)
    (topic_info : topic_details) (w : World) : list string * World :=
  let hashtags := td_hashtags topic_info in
  let '(r, w) :=
    llm_generate_hashtags content (max_hashtags settings) w in
  match r with
  | Some content_hashtags =>
      let all_hashtags :=
        dict_fromkeys (hashtags ++ content_hashtags)%list in
      (py_slice_to all_hashtags (max_hashtags settings), w)
  | None => ([], w)
  end.

(** [_analyze_content_quality(content)]: nothing in its [try] block
  raises on a [str], so the dict of the [except] branch is never
  returned. *)
Definition analyze_content_quality (content : string) : content_quality :=
  let char_count := str_len content in
  let word_count := Z.of_nat (List.length (str_split is_space content)) in
  let readability_score :=
    calculate_readability is_space textstat content in
  let engagement_score := predict_engagement lower content in
  let validation_results :=
    validate_content is_space is_word lower textstat content in
  {| cq_character_count := char_count;
     cq_word_count := word_count;
     cq_readability_score := readability_score;
     cq_engagement_score := engagement_score;
     cq_meets_length_requirements :=
       char_count <=? max_post_length settings;
     cq_meets_readability_requirements :=
       (float_of_int (min_readability_score settings)
        <=? readability_score)%float;
     cq_validation := validation_results |}.

(** [_store_content(content, hashtags, quality_metrics,
  trend_topic_id)] *)
Definition store_post (content : string) (hashtags : list string)
    (q : content_quality) (trend_topic_id : option Z) (w : World)
  : (Z + string) * World :=
  db_store_post content hashtags (cq_readability_score q)
                (cq_character_count q) trend_topic_id w.

(** [_execute_logic(kwargs)] *)
Definition execute_logic (kw : kwargs) (w : World)
  : (agent_content + string) * World :=
  let '(r, w) :=
    get_topic_info (kw_trend_topic_id kw) (kw_custom_topic kw) w in
  match r with
  | inr msg => (inr msg, w)
  | inl topic_info =>
      let '(r, w) :=
        generate_base_content topic_info (kw_tone kw)
                              (kw_target_length kw) w in
      match r with
      | inr msg => (inr msg, w)
      | inl content =>
          let '(optimized_content, w) := optimize_content content w in
          let '(hashtags, w) :=
            if kw_include_hashtags kw
            then generate_hashtags optimized_content topic_info w
            else ([], w) in
          let quality_metrics :=
            analyze_content_quality optimized_content in
          let '(r, w) :=
            store_post optimized_content hashtags quality_metrics
                       (kw_trend_topic_id kw) w in
          match r with
          | inl id =>
              (inl (stored_result id optimized_content hashtags
                                  quality_metrics), w)
          | inr msg => (inr msg, w)
          end
      end
  end.

Variable log_activity :
  string -> kwargs -> option agent_content -> option string ->
  datetime -> datetime -> World -> World.

(** [ContentCreationAgent().execute(kwargs)] *)
Definition execute : kwargs -> World -> agent_result agent_content * World :=
  BaseAgent.execute utcnow validate_input execute_logic log_activity.

(** The call of [_generate_content_node]. *)
Definition content_agent_execute (trend_topic_id : option Z)
    (tone : string) (w : World) : agent_result agent_content * World :=
  execute (mk_kwargs trend_topic_id None tone true 1500) w.

(** The body of the loop of [generate_multiple_variants] for the index
  [i]; [None] when it raises. *)
Definition generate_variant (topic_info : topic_details) (i : Z)
    (tone : string) (w : World) : option variant * World :=
  let '(r, w) := generate_base_content topic_info tone 1500 w in
  match r with
  | inr _ => (None, w)
  | inl content =>
      let '(optimized, w) := optimize_content content w in
      let '(hashtags, w) := generate_hashtags optimized topic_info w in
      let quality := analyze_content_quality optimized in
      (Some (mk_variant (i + 1) tone optimized hashtags quality), w)
  end.

Fixpoint variants_loop (topic_info : topic_details) (i : Z)
    (tones : list string) (variants : list variant) (w : World)
  : list variant * World :=
  match tones with
  | [] => (variants, w)
  | tone :: rest =>
      let '(r, w) := generate_variant topic_info i tone w in
      variants_loop topic_info (i + 1) rest
        (match r with
         | Some v => (variants ++ [v])%list
         | None => variants
         end) w
  end.

(** [generate_multiple_variants(topic_info, count)]: the loop runs over
  [range(min(count, len(tones)))]. *)
Definition generate_multiple_variants (topic_info : topic_details)
    (count : Z) (w : World) : list variant * World :=
  variants_loop topic_info 0
    (firstn (Z.to_nat (Z.min count (Z.of_nat (List.length tones)))) tones)
    [] w.

End Logic.

End ContentCreationAgent.

(** * The callers: [app/services/scheduler_service.py] and
      [app/api/automation_routes.py] *)

(** [bool(v)] *)
Definition truthy (v : pyval) : bool :=
  match v with
  | PyBool b => b
  | PyInt n => negb (n =? 0)
  | PyStr s => negb (String.eqb s "")
  | PyList l => match l with [] => false | _ :: _ => true end
  | PyDict d => match d with [] => false | _ :: _ => true end
  end.

Module SchedulerService.

(** The row [_log_workflow_execution] adds to [agent_activities]. *)
Record activity := mk_activity
  { act_agent_name : string;
    act_activity_type : string;
    act_status : string;
    act_details : pyval;
    act_error_message : option pyval }.

(** The three jobs of [start_automation], by their ids. *)
Definition job_ids : list string :=
  ["daily_linkedin_automation"; "hourly_trend_analysis";
   "engagement_monitoring"].

Definition scheduled_job (name schedule next_run : string) : pyval :=
  PyDict [("name", PyStr name); ("schedule", PyStr schedule);
          ("next_run", PyStr next_run)].

Definition started_result : pyval :=
  PyDict
    [("success", PyBool true);
     ("message", PyStr "LinkedIn automation started");
     ("scheduled_jobs",
      PyList
        [scheduled_job "Daily Automation" "Daily at 8:00 AM"
                       "Tomorrow 8:00 AM";
         scheduled_job "Trend Analysis" "Every 4 hours"
                       "Next scheduled time";
         scheduled_job "Engagement Monitoring" "Every hour"
                       "Top of next hour"])].

Definition refused_result (message : string) : pyval :=
  PyDict [("success", PyBool false); ("message", PyStr message)].

Definition error_result (error_msg : string) : pyval :=
  PyDict [("success", PyBool false); ("error", PyStr error_msg)].

Section Service.

(** The outside world: the database and the APScheduler instance. *)
Variable World : Type.

(** [self.workflow.run_daily_automation()] *)
Variable run_daily_automation : World -> pyval * World.

(** [next(get_db())]; [Some msg] when it raises. *)
Variable db_open : World -> option string * World.

(** [db.add(activity); db.commit(); db.close()]; an exception is caught
  and logged by the caller. *)
Variable db_add_activity : activity -> World -> World.

(** [self.scheduler.add_job(..., id=..., replace_existing=True)],
  [self.scheduler.start()] and [self.scheduler.shutdown()]; [Some msg]
  when the call raises. *)
Variable add_job : string -> World -> option string * World.
Variable scheduler_start : World -> option string * World.
Variable scheduler_shutdown : World -> option string * World.

(** [_log_workflow_execution(result)]: every exception is caught, the
  [KeyError] of [result["success"]] included. *)
Definition log_workflow_execution (result : pyval) (w : World) : World :=
  let '(r, w) := db_open w in
  match r with
  | Some _ => w
  | None =>
      match get_key "success" result with
      | None => w
      | Some success =>
          db_add_activity
            {| act_agent_name := "LinkedInWorkflow";
               act_activity_type := "daily_automation";
               act_status := if truthy success then "success" else "error";
               act_details :=
                 match get_key "summary" result with
                 | Some summary => summary
                 | None => PyDict []
                 end;
               act_error_message := get_key "error" result |} w
      end
  end.

(** [run_workflow_now()]: neither call of its [try] block raises. *)
Definition run_workflow_now (w : World) : pyval * World :=
  let '(result, w) := run_daily_automation w in
  let w := log_workflow_execution result w in
  (result, w).

(** The calls of [add_job] in turn; the first exception ends them. *)
Fixpoint add_jobs (ids : list string) (w : World) : option string * World :=
  match ids with
  | [] => (None, w)
  | id :: rest =>
      let '(r, w) := add_job id w in
      match r with
      | Some msg => (Some msg, w)
      | None => add_jobs rest w
      end
  end.

(** [start_automation()] on a service whose [is_running] flag is
  [is_running]: the dict returned, the flag and the world afterwards. *)
Definition start_automation (is_running : bool) (w : World)
  : pyval * bool * World :=
  if is_running
  then (refused_result "Automation already running", is_running, w)
  else
    let '(r, w) := add_jobs job_ids w in
    match r with
    | Some msg =>
        (error_result ("Failed to start automation: " ++ msg),
         is_running, w)
    | None =>
        let '(r, w) := scheduler_start w in
        match r with
        | Some msg =>
            (error_result ("Failed to start automation: " ++ msg),
             is_running, w)
        | None => (started_result, true, w)
        end
    end.

(** [stop_automation()] *)
Definition stop_automation (is_running : bool) (w : World)
  : pyval * bool * World :=
  if negb is_running
  then (refused_result "Automation not running", is_running, w)
  else
    let '(r, w) := scheduler_shutdown w in
    match r with
    | Some msg =>
        (error_result ("Failed to stop automation: " ++ msg),
         is_running, w)
    | None =>
        (PyDict [("success", PyBool true);
                 ("message", PyStr "LinkedIn automation stopped")],
         false, w)
    end.

End Service.

End SchedulerService.

(** ** The routes of the automation API *)

Module AutomationRoutes.

(** What a route body raises: FastAPI's [HTTPException], or any other
    exception with its [str]. *)
Inductive exception : Type :=
| HTTPException (status_code : Z) (detail : pyval)
| OtherException (msg : string).

(** [try: body except Exception as e: handler(e)] *)
Definition try_except {A : Type} (body : A + exception)
    (handler : exception -> A + exception) : A + exception :=
  match body with
  | inl a => inl a
  | inr e => handler e
  end.

(** [try: body except HTTPException: raise except Exception as e:
    handler(e)] *)
Definition try_except_http {A : Type} (body : A + exception)
    (handler : exception -> A + exception) : A + exception :=
  match body with
  | inl a => inl a
  | inr (HTTPException status_code detail) =>
      inr (HTTPException status_code detail)
  | inr e => handler e
  end.

(** [d.get(key, default)] *)
Definition get_or (key : string) (default : pyval) (d : pyval) : pyval :=
  match get_key key d with
  | Some v => v
  | None => default
  end.

(** An entry of ["top_trends_for_content"]. *)
Record top_trend := mk_top_trend
  { tt_topic : string;
    tt_relevance_score : float;
    tt_hashtags : list string }.

(** The ["data"] of the preview. *)
Record preview := mk_preview
  { pv_sources_to_analyze : list string;
    pv_trends_found : Z;
    pv_top_trends_for_content : list top_trend;
    pv_estimated_posts : Z }.

Section Routes.

Variable World : Type.

(** [str(e)] of an exception a handler formats. *)
Variable str_of_http_exception : Z -> pyval -> string.

Definition str_of (e : exception) : string :=
  match e with
  | HTTPException status_code detail =>
      str_of_http_exception status_code detail
  | OtherException msg => msg
  end.

(** [linkedin_scheduler.start_automation()] and [stop_automation()], on
  the service's flag. *)
Variable start_automation : bool -> World -> pyval * bool * World.
Variable stop_automation : bool -> World -> pyval * bool * World.

(** [result["success"]]; a missing key is a [KeyError]. *)
Variable key_error : string -> string.

Definition read_success (result : pyval) : bool + exception :=
  match get_key "success" result with
  | Some success => inl (truthy success)
  | None => inr (OtherException (key_error "success"))
  end.

(** The route [POST /automation/start] *)
Definition start_route (is_running : bool) (w : World)
  : (pyval + exception) * bool * World :=
  let '(result, is_running, w) := start_automation is_running w in
  (try_except
     (match read_success result with
      | inl true =>
          inl (PyDict
                 [("status", PyStr "success");
                  ("message",
                   PyStr "LinkedIn automation started successfully");
                  ("data", result)])
      | inl false =>
          inr (HTTPException 400
                 (get_or "message" (PyStr "Failed to start automation")
                         result))
      | inr e => inr e
      end)
     (fun e =>
        inr (HTTPException 500
               (PyStr ("Automation start failed: " ++ str_of e)))),
   is_running, w).

(** The route [POST /automation/stop] *)
Definition stop_route (is_running : bool) (w : World)
  : (pyval + exception) * bool * World :=
  let '(result, is_running, w) := stop_automation is_running w in
  (try_except
     (match read_success result with
      | inl true =>
          inl (PyDict
                 [("status", PyStr "success");
                  ("message",
                   PyStr "LinkedIn automation stopped successfully");
                  ("data", result)])
      | inl false =>
          inr (HTTPException 400
                 (get_or "message" (PyStr "Failed to stop automation")
                         result))
      | inr e => inr e
      end)
     (fun e =>
        inr (HTTPException 500
               (PyStr ("Automation stop failed: " ++ str_of e)))),
   is_running, w).

(** [TrendAnalysisAgent().execute(sources=..., limit=...)] *)
Variable trend_agent_execute :
  TrendAnalysisAgent.kwargs -> World ->
  agent_result TrendAnalysisAgent.analysis * World.

(** The entry of the preview for one trend: [trend["topic"]],
  [trend["relevance_score"]], [trend["hashtags"][:3]]. *)
Definition top_trend_of (t : trend) : top_trend + exception :=
  match trend_topic t with
  | None => inr (OtherException (key_error "topic"))
  | Some topic =>
      match trend_relevance_score t with
      | None => inr (OtherException (key_error "relevance_score"))
      | Some relevance_score =>
          inl (mk_top_trend topic relevance_score
                 (py_slice_to (trend_hashtags t) 3))
      end
  end.

Fixpoint top_trends_of (trends : list trend)
  : list top_trend + exception :=
  match trends with
  | [] => inl []
  | t :: rest =>
      match top_trend_of t with
      | inr e => inr e
      | inl entry =>
          match top_trends_of rest with
          | inr e => inr e
          | inl entries => inl (entry :: entries)
          end
      end
  end.

(** The route [GET /automation/preview-workflow]; [hours_back] takes its
  default of 24. *)
Definition preview_workflow_plan (sources : list string) (max_posts : Z)
    (w : World) : (preview + exception) * World :=
  let '(result, w) :=
    trend_agent_execute
      (TrendAnalysisAgent.mk_kwargs sources (max_posts * 2) 24) w in
  (try_except_http
     (match result with
      | AgentRaise msg => inr (OtherException msg)
      | AgentFailure _ =>
          inr (HTTPException 500
                 (PyStr "Failed to fetch trends for preview"))
      | AgentSuccess data =>
          let trends :=
            py_slice_to (TrendAnalysisAgent.an_trends data) max_posts in
          match top_trends_of trends with
          | inr e => inr e
          | inl entries =>
              inl (mk_preview sources
                     (Z.of_nat (List.length
                                  (TrendAnalysisAgent.an_trends data)))
                     entries
                     (Z.of_nat (List.length trends)))
          end
      end)
     (fun e =>
        inr (HTTPException 500
               (PyStr ("Preview generation failed: " ++ str_of e)))),
   w).

End Routes.

End AutomationRoutes.

(** * Concrete collaborators for the agents and the callers *)

Module Example.

(** A candidate the reviewer approved, and the state of a run that holds
    it before [schedule_posts]. *)
Definition approved_candidate : content :=
  mk_content (execute_logic 7 "A post." ["#AI"] Stub.good_metrics)
             Stub.one_trend "professional" (Some 77%float) (Some true).

Definition approved_state : LinkedInWorkflowState :=
  set_generated_content [approved_candidate; Stub.good_candidate]
    Stub.state2.

(** Five trends in no particular order, for the filter, which keeps
    three of them. *)
Definition five_trends : list trend :=
  [mk_trend (Some 1) (Some "Edge computing") ["#edge"] (Some 0.5%float)
            "techcrunch";
   mk_trend (Some 2) (Some "AI agents") ["#AI"] (Some 0.9%float)
            "techcrunch";
   mk_trend (Some 3) (Some "Quantum chips") [] (Some 0.5%float)
            "techcrunch";
   mk_trend (Some 4) (Some "Open models") ["#AI"] (Some 0.7%float)
            "techcrunch";
   mk_trend (Some 5) (Some "Smart glasses") [] (Some 0.2%float)
            "techcrunch"].

Definition five_trends_state : LinkedInWorkflowState :=
  set_trends five_trends Stub.state0.

(** A trend analysis that finds three trends, and a generation service
    whose content is readable and engaging: three trends in two tones
    make six candidates in one pass. *)
Definition three_trends : list trend :=
  [mk_trend (Some 1) (Some "AI agents") ["#AI"] (Some 0.9%float)
            "techcrunch";
   mk_trend (Some 2) (Some "Open models") ["#AI"] (Some 0.7%float)
            "techcrunch";
   mk_trend (Some 3) (Some "Edge computing") [] (Some 0.5%float)
            "techcrunch"].

Definition three_trends_agent (sources : list string) (limit : Z)
    (w : unit) : agent_result (list trend) * unit :=
  (AgentSuccess three_trends, w).

Definition good_content_agent (trend_topic_id : option Z) (tone : string)
    (w : unit) : agent_result agent_content * unit :=
  (AgentSuccess (execute_logic 7 "A post." ["#AI"] Stub.good_metrics), w).

Definition node_run :=
  run_node three_trends_agent good_content_agent Stub.db Stub.clock
           Stub.str_of_exception.

(** The state of that run after its four nodes, where it ends. *)
Definition six_candidates_state : LinkedInWorkflowState :=
  fst (node_run review_content tt
    (fst (node_run generate_content tt
      (fst (node_run filter_trends tt
        (fst (node_run analyze_trends tt Stub.state0))))))).

(** White space and word characters of ASCII text. *)
Definition is_space (c : ascii) : bool :=
  let n := nat_of_ascii c in
  (((9 <=? n) && (n <=? 13)) || ((28 <=? n) && (n <=? 32)))%nat.

Definition is_word (c : ascii) : bool :=
  let n := nat_of_ascii c in
  (((48 <=? n) && (n <=? 57)) || ((65 <=? n) && (n <=? 90))
   || ((97 <=? n) && (n <=? 122)) || (n =? 95))%nat.

(** A reply of the language model with hashtags and a long run of line
    breaks. *)
Definition raw_content : string :=
  "  Agents are here. #AI #agents

What do you think?  ".

(** The trend agent's collaborators: one article, one topic, and a
    database that stores what it is given. *)
Definition an_article : TrendAnalysisAgent.article :=
  TrendAnalysisAgent.mk_article "AI agents at work" "https://example.org/a"
    "Agents everywhere" "2026-11-03" "techcrunch".

Definition fetch_techcrunch_articles (hours_back : Z) (w : unit)
  : option (list TrendAnalysisAgent.article) * unit :=
  (Some [an_article], w).

Definition extract_topics (content : string) (max_topics : Z) (w : unit)
  : option (list string) * unit :=
  (Some ["AI Agents"], w).

Definition generate_hashtags (text : string) (max_hashtags : Z) (w : unit)
  : option (list string) * unit :=
  (Some ["ai"; "agents"; "ai"], w).

Definition generate_text (prompt : string) (w : unit)
  : option string * unit :=
  (Some "0.9", w).

Definition db_open (w : unit) : option string * unit := (None, w).

Definition db_store_trend (r : ranked_trend) (w : unit)
  : (trend + string) * unit :=
  (inl (mk_trend (Some 1) (Some (ti_topic (rt_info r)))
          (ti_hashtags (rt_info r)) (Some (rt_relevance_score r))
          (ti_source (rt_info r))), w).

Definition db_close (w : unit) : option string * unit := (None, w).

Definition log_trend_activity (status : string)
    (kw : TrendAnalysisAgent.kwargs)
    (result : option TrendAnalysisAgent.analysis) (error : option string)
    (t0 t1 : datetime) (w : unit) : unit := w.

Definition trend_agent :=
  TrendAnalysisAgent.execute Stub.lower fetch_techcrunch_articles
    extract_topics generate_hashtags generate_text Stub.float_of_reply
    db_open db_store_trend db_close Stub.clock log_trend_activity.

Definition trend_kwargs : TrendAnalysisAgent.kwargs :=
  TrendAnalysisAgent.mk_kwargs ["techcrunch"] 5 24.

(** The analysis that call returns. *)
Definition trend_analysis : TrendAnalysisAgent.analysis :=
  match fst (trend_agent trend_kwargs tt) with
  | AgentSuccess data => data
  | _ => TrendAnalysisAgent.mk_analysis [] 0 None None
  end.

(** The content agent's collaborators. *)
Definition db_get_trend (id : Z) (w : unit)
  : (option ContentCreationAgent.trend_row + string) * unit :=
  (inl (Some (ContentCreationAgent.mk_trend_row "AI Agents"
                (Some ["ai"; "agents"]) 0.9%float "techcrunch")), w).

Definition extract_custom_topics (topic : option string) (max_topics : Z)
    (w : unit) : (list string + string) * unit :=
  (inl [], w).

Definition llm_base_content
    (topic_info : ContentCreationAgent.topic_details) (tone : string)
    (target_length : Z) (w : unit) : (string + string) * unit :=
  (inl raw_content, w).

Definition improve_readability (content : string) (w : unit)
  : option string * unit :=
  (Some content, w).

Definition db_store_post (content : string) (hashtags : list string)
    (readability_score : float) (character_count : Z)
    (trend_topic_id : option Z) (w : unit) : (Z + string) * unit :=
  (inl 7, w).

Definition log_content_activity (status : string)
    (kw : ContentCreationAgent.kwargs) (result : option agent_content)
    (error : option string) (t0 t1 : datetime) (w : unit) : unit := w.

Definition str_of_int (n : Z) : string := "1".
Definition key_error (key : string) : string := key.

Definition content_agent :=
  ContentCreationAgent.execute is_space is_word Stub.lower None str_of_int
    db_get_trend extract_custom_topics generate_hashtags llm_base_content
    key_error improve_readability db_store_post Stub.clock
    log_content_activity.

Definition content_kwargs : ContentCreationAgent.kwargs :=
  ContentCreationAgent.mk_kwargs (Some 1) None "casual" true 1500.

(** A call without a topic. *)
Definition no_topic_kwargs : ContentCreationAgent.kwargs :=
  ContentCreationAgent.mk_kwargs None None "casual" true 1500.

(** The data that call returns. *)
Definition content_data : agent_content :=
  match fst (content_agent content_kwargs tt) with
  | AgentSuccess data => data
  | _ => execute_logic 0 "" [] Stub.low_metrics
  end.

(** A feed whose article yields three topics: the daily run of the two
    agents finds three trends and generates six candidates. *)
Definition extract_three_topics (content : string) (max_topics : Z)
    (w : unit) : option (list string) * unit :=
  (Some ["AI Agents"; "Open models"; "Edge computing"], w).

Definition three_topics_agent :=
  TrendAnalysisAgent.trend_agent_execute Stub.lower
    fetch_techcrunch_articles extract_three_topics generate_hashtags
    generate_text Stub.float_of_reply db_open db_store_trend db_close
    Stub.clock log_trend_activity.

Definition stored_content_agent :=
  ContentCreationAgent.content_agent_execute is_space is_word Stub.lower
    None str_of_int db_get_trend extract_custom_topics generate_hashtags
    llm_base_content key_error improve_readability db_store_post
    Stub.clock log_content_activity.

Definition agents_node_run :=
  run_node three_topics_agent stored_content_agent Stub.db Stub.clock
           Stub.str_of_exception.

(** The state of that run after its four nodes, where it ends. *)
Definition agents_final_state : LinkedInWorkflowState :=
  fst (agents_node_run review_content tt
    (fst (agents_node_run generate_content tt
      (fst (agents_node_run filter_trends tt
        (fst (agents_node_run analyze_trends tt Stub.state0))))))).

End Example.

(* ================================================================== *)
(** * Part II: theorems *)
(* ================================================================== *)

(** ** Facts about binary64 arithmetic *)

Lemma digits2_pos_bounds (p : positive) :
  2 ^ (Zpos (digits2_pos p) - 1) <= Zpos p < 2 ^ Zpos (digits2_pos p).
Proof.
  induction p as [p IH|p IH|]; cbn [digits2_pos].
  - rewrite Pos2Z.inj_succ. replace (Z.succ (Zpos (digits2_pos p)) - 1)
      with (Z.succ (Zpos (digits2_pos p) - 1)) by lia.
    rewrite !Z.pow_succ_r by lia. lia.
  - rewrite Pos2Z.inj_succ. replace (Z.succ (Zpos (digits2_pos p)) - 1)
      with (Z.succ (Zpos (digits2_pos p) - 1)) by lia.
    rewrite !Z.pow_succ_r by lia. lia.
  - cbn. lia.
Qed.

Lemma shr_inv_0 (m0 : Z) :
  0 <= m0 -> shr_inv m0 0 (Build_shr_record m0 false false).
Proof.
  intros H. unfold shr_inv; cbn. repeat split; try lia.
  exists 0. repeat split; try lia; try discriminate.
Qed.

Lemma shr_1_inv (m0 k : Z) (mrs : shr_record) :
  shr_inv m0 k mrs -> shr_inv m0 (k + 1) (shr_1 mrs).
Proof.
  destruct mrs as [m r s].
  intros (Hk & Hm & rem & E & Hrem & Hr1 & Hr0 & Hs0 & Hs1).
  cbn [shr_m shr_r shr_s] in *.
  assert (P : 2 ^ (k + 1) = 2 * 2 ^ k) by (rewrite Z.pow_add_r by lia; lia).
  assert (Pk : 0 < 2 ^ k) by (apply Z.pow_pos_nonneg; lia).
  unfold shr_inv. split; [lia|].
  destruct m as [|[p|p|]|p]; cbn [shr_1 shr_m shr_r shr_s]; try lia.
  - (* 0 *) split; [lia|]. exists rem. rewrite P.
    repeat split; try lia; try discriminate.
    intros _ Hs. apply orb_false_iff in Hs. destruct Hs as [-> ->].
    apply Hs0; reflexivity.
  - (* xI p *) split; [lia|]. exists (2 ^ k + rem). rewrite P.
    repeat split; try lia; try discriminate.
    intros _ Hs. apply orb_false_iff in Hs. destruct Hs as [-> ->].
    specialize (Hs0 eq_refl eq_refl). lia.
  - (* xO p *) split; [lia|]. exists rem. rewrite P.
    repeat split; try lia; try discriminate.
    intros _ Hs. apply orb_false_iff in Hs. destruct Hs as [-> ->].
    apply Hs0; reflexivity.
  - (* 1 *) split; [lia|]. exists (2 ^ k + rem). rewrite P.
    repeat split; try lia; try discriminate.
    intros _ Hs. apply orb_false_iff in Hs. destruct Hs as [-> ->].
    specialize (Hs0 eq_refl eq_refl). lia.
Qed.

Lemma iter_shr_1_inv (m0 : Z) (p : positive) :
  forall k mrs,
    shr_inv m0 k mrs -> shr_inv m0 (k + Zpos p) (iter_pos shr_1 p mrs).
Proof.
  induction p as [p IH|p IH|]; intros k mrs H; cbn [iter_pos].
  - replace (k + Zpos p~1) with (k + 1 + Zpos p + Zpos p) by lia.
    apply IH, IH, shr_1_inv, H.
  - replace (k + Zpos p~0) with (k + Zpos p + Zpos p) by lia.
    apply IH, IH, H.
  - apply shr_1_inv, H.
Qed.

Lemma fexp64_eq z : fexp prec emax z = fexp64 z.
Proof. reflexivity. Qed.

Lemma digits_le_of_lt (p : positive) (n : Z) :
  0 <= n -> Zpos p < 2 ^ n -> Zpos (digits2_pos p) <= n.
Proof.
  intros Hn H. destruct (digits2_pos_bounds p) as [L _].
  destruct (Z.le_gt_cases (Zpos (digits2_pos p)) n) as [|G]; [assumption|].
  exfalso. assert (2 ^ n <= 2 ^ (Zpos (digits2_pos p) - 1))
    by (apply Z.pow_le_mono_r; lia). lia.
Qed.

Lemma digits_ge_of_le (p : positive) (n : Z) :
  0 <= n -> 2 ^ n <= Zpos p -> n + 1 <= Zpos (digits2_pos p).
Proof.
  intros Hn H. destruct (digits2_pos_bounds p) as [_ U].
  destruct (Z.le_gt_cases (n + 1) (Zpos (digits2_pos p))) as [|G];
    [assumption|].
  exfalso. assert (2 ^ Zpos (digits2_pos p) <= 2 ^ n)
    by (apply Z.pow_le_mono_r; lia). lia.
Qed.

(** The first shift of [binary_round_aux]. *)
Lemma shr_fexp_inv (m : positive) (e : Z) :
  let E := fexp64 (Zpos (digits2_pos m) + e) in
  e <= E ->
  exists mrs,
    shr_fexp prec emax (Zpos m) e loc_Exact = (mrs, E) /\
    shr_inv (Zpos m) (E - e) mrs.
Proof.
  intros E HE. unfold shr_fexp. cbn [shr_record_of_loc Zdigits2].
  rewrite fexp64_eq. fold E. unfold shr.
  destruct (E - e) as [|p|p] eqn:En; try lia.
  - exists (Build_shr_record (Zpos m) false false). split.
    + f_equal. lia.
    + apply shr_inv_0. lia.
  - eexists. split.
    + f_equal. lia.
    + change (Zpos p) with (0 + Zpos p). apply iter_shr_1_inv, shr_inv_0. lia.
Qed.

Lemma round_nearest_even_near (m0 n : Z) (mrs : shr_record) :
  shr_inv m0 n mrs ->
  let k := round_nearest_even (shr_m mrs) (loc_of_shr_record mrs) in
  shr_m mrs <= k <= shr_m mrs + 1 /\
  2 * Z.abs (k * 2 ^ n - m0) <= 2 ^ n.
Proof.
  destruct mrs as [q r s].
  intros (Hn & Hq & rem & E & Hrem & Hr1 & Hr0 & Hs0 & Hs1).
  cbn [shr_m shr_r shr_s] in *.
  assert (P : 0 < 2 ^ n) by (apply Z.pow_pos_nonneg; lia).
  destruct r, s; cbn [loc_of_shr_record round_nearest_even];
    try destruct (Z.even q); split; try lia;
    try specialize (Hr1 eq_refl); try specialize (Hr0 eq_refl);
    try specialize (Hs0 eq_refl eq_refl);
    try specialize (Hs1 eq_refl eq_refl); nia.
Qed.

(** The second shift of [binary_round_aux], on the rounded mantissa. *)
Lemma shr_fexp_second (k E : Z) :
  -1074 <= E -> 0 <= k <= 2 ^ 53 ->
  shr_fexp prec emax k E loc_Exact
  = if k =? 2 ^ 53
    then (Build_shr_record (2 ^ 52) false false, E + 1)
    else (Build_shr_record k false false, E).
Proof.
  intros HE Hk. unfold shr_fexp. cbn [shr_record_of_loc].
  rewrite fexp64_eq. unfold fexp64.
  destruct (Z.eqb_spec k (2 ^ 53)) as [->|Hne].
  - reflexivity || (cbn [Zdigits2]; unfold shr).
    change (Zdigits2 (2 ^ 53)) with 54.
    replace (Z.max (54 + E - 53) (-1074) - E) with 1 by lia.
    reflexivity.
  - destruct k as [|p|p]; try lia.
    + cbn [Zdigits2]. unfold shr.
      destruct (Z.max (0 + E - 53) (-1074) - E) eqn:En; try lia; reflexivity.
    + cbn [Zdigits2]. unfold shr.
      assert (Zpos (digits2_pos p) <= 53)
        by (apply digits_le_of_lt; lia).
      destruct (Z.max (Zpos (digits2_pos p) + E - 53) (-1074) - E) eqn:En;
        try lia; reflexivity.
Qed.

(** What [binary_round_aux] computes on a positive mantissa that is fine
    enough ([e <= E]): the nearest multiple [k] of [2 ^ E]. *)
Lemma binary_round_aux_spec (m : positive) (e : Z) :
  let E := fexp64 (Zpos (digits2_pos m) + e) in
  e <= E ->
  exists k,
    0 <= k <= 2 ^ 53 /\
    2 * Z.abs (k * 2 ^ (E - e) - Zpos m) <= 2 ^ (E - e) /\
    (-1074 < E -> 2 ^ 52 <= k) /\
    binary_round_aux prec emax false (Zpos m) e loc_Exact
    = if k =? 0 then S754_zero false
      else if k =? 2 ^ 53
           then if E + 1 <=? 971
                then S754_finite false (Z.to_pos (2 ^ 52)) (E + 1)
                else S754_infinity false
           else if E <=? 971 then S754_finite false (Z.to_pos k) E
                else S754_infinity false.
Proof.
  intros E HE.
  destruct (shr_fexp_inv m HE) as (mrs & Es & Inv). fold E in Es, Inv.
  pose proof (round_nearest_even_near Inv) as [Hk Hnear].
  set (k := round_nearest_even (shr_m mrs) (loc_of_shr_record mrs)) in *.
  pose proof (digits2_pos_bounds m) as [Dl Du].
  set (d := Zpos (digits2_pos m)) in *.
  assert (HEmin : -1074 <= E) by (unfold E, fexp64; lia).
  destruct Inv as (Hn & Hq & rem & Em & Hrem & _).
  assert (P : 0 < 2 ^ (E - e)) by (apply Z.pow_pos_nonneg; lia).
  assert (Hq53 : shr_m mrs < 2 ^ 53).
  { assert (2 ^ d <= 2 ^ (E - e + 53)).
    { apply Z.pow_le_mono_r; [lia|]. unfold E, fexp64. lia. }
    rewrite Z.pow_add_r in H by lia. nia. }
  assert (Hnorm : -1074 < E -> 2 ^ 52 <= shr_m mrs).
  { intros HN. assert (En : E - e = d - 53) by (unfold E, fexp64 in *; lia).
    assert (2 ^ (d - 1) = 2 ^ 52 * 2 ^ (E - e)).
    { rewrite <- Z.pow_add_r by lia. f_equal. lia. }
    nia. }
  exists k. split; [lia|]. split; [exact Hnear|]. split; [lia|].
  unfold binary_round_aux. rewrite Es.
  fold k. rewrite shr_fexp_second by lia.
  destruct (Z.eqb_spec k (2 ^ 53)) as [K|K].
  - rewrite K. cbn [shr_m]. reflexivity.
  - cbn [shr_m]. destruct k as [|p|p]; try lia; reflexivity.
Qed.

Lemma rounded_mono (S M V W M' V' W' : Z) :
  1074 <= S -> 0 <= M + S - 1 -> 0 <= M' + S - 1 ->
  rounded S M V W -> rounded S M' V' W' -> V < V' -> W <= W'.
Proof.
  intros HS HM HM' [[Vl Vu] (k & Hk & EW & Near)]
         [[Vl' Vu'] (k' & Hk' & EW' & Near')] HV.
  assert (HMM : M <= M').
  { destruct (Z.le_gt_cases M M') as [|G]; [assumption|]. exfalso.
    assert (2 ^ (M' + S) <= 2 ^ (M + S - 1))
      by (apply Z.pow_le_mono_r; lia). lia. }
  set (E := fexp64 M) in *. set (E' := fexp64 M') in *.
  assert (HE : -1074 <= E) by (unfold E, fexp64; lia).
  assert (HE' : -1074 <= E') by (unfold E', fexp64; lia).
  assert (HEE : E <= E') by (unfold E, E', fexp64; lia).
  assert (P : 0 < 2 ^ (E + S)) by (apply Z.pow_pos_nonneg; lia).
  assert (P' : 0 < 2 ^ (E' + S)) by (apply Z.pow_pos_nonneg; lia).
  destruct (Z.eq_dec E E') as [Eq|Ne].
  - rewrite <- Eq in *. subst W W'.
    destruct (Z.le_gt_cases k k') as [|G]; [nia|]. exfalso. nia.
  - assert (Hn : E' = M' - 53 /\ M < M') by (unfold E, E', fexp64 in *; lia).
    destruct Hn as [En' HMlt].
    (* the upper bound of the first binade *)
    set (X := Z.max M E).
    assert (B : 2 ^ (X + S) = 2 ^ (X - E) * 2 ^ (E + S)).
    { rewrite <- Z.pow_add_r by lia. f_equal. lia. }
    assert (Bpos : 0 < 2 ^ (X - E)) by (apply Z.pow_pos_nonneg; lia).
    assert (VB : V < 2 ^ (X + S)).
    { assert (2 ^ (M + S) <= 2 ^ (X + S))
        by (apply Z.pow_le_mono_r; lia). lia. }
    assert (WB : W <= 2 ^ (X + S)).
    { subst W. rewrite B.
      assert (k <= 2 ^ (X - E)); [|nia].
      destruct (Z.le_gt_cases k (2 ^ (X - E))) as [|G]; [assumption|].
      exfalso. nia. }
    (* the lower bound of the second binade *)
    assert (B' : 2 ^ (M' + S - 1) = 2 ^ 52 * 2 ^ (E' + S)).
    { rewrite <- Z.pow_add_r by lia. f_equal. lia. }
    assert (WB' : 2 ^ (M' + S - 1) <= W').
    { subst W'. rewrite B'.
      assert (2 ^ 52 <= k'); [|nia].
      destruct (Z.le_gt_cases (2 ^ 52) k') as [|G]; [assumption|].
      exfalso. nia. }
    assert (2 ^ (X + S) <= 2 ^ (M' + S - 1))
      by (apply Z.pow_le_mono_r; lia).
    lia.
Qed.

Lemma bounded_inv (m : positive) (e : Z) :
  bounded prec emax m e = true ->
  -1074 <= e <= 971 /\ Zpos (digits2_pos m) <= 53 /\
  (-1074 < e -> Zpos (digits2_pos m) = 53) /\
  fexp64 (Zpos (digits2_pos m) + e) = e.
Proof.
  unfold bounded, canonical_mantissa. rewrite fexp64_eq.
  intros H. apply andb_true_iff in H. destruct H as [H1 H2].
  apply Z.eqb_eq in H1. apply Z.leb_le in H2.
  change (emax - prec) with 971 in H2.
  unfold fexp64 in *. lia.
Qed.

Lemma bounded_intro (m : positive) (e : Z) :
  -1074 <= e <= 971 -> Zpos (digits2_pos m) <= 53 ->
  (-1074 < e -> Zpos (digits2_pos m) = 53) ->
  bounded prec emax m e = true.
Proof.
  intros He Hd Hn. unfold bounded, canonical_mantissa.
  rewrite fexp64_eq. apply andb_true_iff. split.
  - apply Z.eqb_eq. unfold fexp64. lia.
  - apply Z.leb_le. change (emax - prec) with 971. lia.
Qed.

Lemma bounded_value (S : Z) (m : positive) (e : Z) :
  1074 <= S -> bounded prec emax m e = true ->
  Zpos m * 2 ^ (e + S) < 2 ^ (1024 + S) /\
  0 < Zpos m * 2 ^ (e + S) /\
  (-1074 < e -> 2 ^ (52 + e + S) <= Zpos m * 2 ^ (e + S)) /\
  Zpos m * 2 ^ (e + S) < 2 ^ (53 + e + S).
Proof.
  intros HS Hb. apply bounded_inv in Hb. destruct Hb as (He & Hd & Hn & _).
  pose proof (digits2_pos_bounds m) as [Dl Du].
  assert (P : 0 < 2 ^ (e + S)) by (apply Z.pow_pos_nonneg; lia).
  assert (U : Zpos m < 2 ^ 53).
  { assert (2 ^ Zpos (digits2_pos m) <= 2 ^ 53)
      by (apply Z.pow_le_mono_r; lia). lia. }
  assert (A : 2 ^ (53 + e + S) = 2 ^ 53 * 2 ^ (e + S))
    by (rewrite <- Z.pow_add_r by lia; f_equal; lia).
  assert (B : 2 ^ (53 + e + S) <= 2 ^ (1024 + S))
    by (apply Z.pow_le_mono_r; lia).
  repeat split; try nia.
  intros Hnorm. specialize (Hn Hnorm). rewrite Hn in Dl.
  assert (C : 2 ^ (52 + e + S) = 2 ^ 52 * 2 ^ (e + S))
    by (rewrite <- Z.pow_add_r by lia; f_equal; lia).
  change (53 - 1) with 52 in Dl. nia.
Qed.

(** The order of the described values is the order [SFleb] computes. *)
Lemma describes_le (S : Z) (x y : spec_float) (W W' : Z) :
  1074 <= S -> describes S x W -> describes S y W' -> W <= W' ->
  SFleb x y = true.
Proof.
  intros HS Hx Hy HW.
  destruct x as [sx|sx| |sx mx ex]; [|destruct sx| |destruct sx];
    cbn [describes] in Hx; try tauto;
    (destruct y as [sy|sy| |sy my ey]; [|destruct sy| |destruct sy];
     cbn [describes] in Hy; try tauto; try reflexivity).
  - (* infinity, zero *)
    assert (0 < 2 ^ (1024 + S)) by (apply Z.pow_pos_nonneg; lia). lia.
  - (* infinity, finite *)
    destruct Hy as [By ->]. pose proof (@bounded_value S my ey HS By). lia.
  - (* finite, zero *)
    destruct Hx as [Bx ->]. pose proof (@bounded_value S mx ex HS Bx). lia.
  - (* finite, finite *)
    destruct Hx as [Bx ->], Hy as [By ->].
    pose proof (@bounded_value S mx ex HS Bx) as (_ & _ & Nx & Ux).
    pose proof (@bounded_value S my ey HS By) as (_ & _ & Ny & Uy).
    pose proof (@bounded_inv mx ex Bx) as (Ex & _).
    pose proof (@bounded_inv my ey By) as (Ey & _).
    unfold SFleb, SFcompare.
    destruct (Z.compare_spec ex ey) as [Eq|Lt|Gt].
    + subst ey. assert (P : 0 < 2 ^ (ex + S)) by (apply Z.pow_pos_nonneg; lia).
      assert (Hm : (mx <= my)%positive) by nia.
      rewrite Pos.compare_cont_spec. cbn [Pos.switch_Eq].
      apply Pos.compare_le_iff in Hm.
      destruct (mx ?= my)%positive; try reflexivity. now elim Hm.
    + reflexivity.
    + exfalso. assert (Nn : -1074 < ex) by lia. specialize (Nx Nn).
      assert (2 ^ (53 + ey + S) <= 2 ^ (52 + ex + S))
        by (apply Z.pow_le_mono_r; lia). lia.
Qed.

(** Conversely, for two finite positive floats. *)
Lemma finite_compare (S : Z) (mx : positive) (ex : Z) (my : positive)
    (ey : Z) :
  1074 <= S ->
  bounded prec emax mx ex = true -> bounded prec emax my ey = true ->
  SFleb (S754_finite false mx ex) (S754_finite false my ey) = true ->
  (mx = my /\ ex = ey) \/
  Zpos mx * 2 ^ (ex + S) < Zpos my * 2 ^ (ey + S).
Proof.
  intros HS Bx By.
  pose proof (@bounded_value S mx ex HS Bx) as (_ & _ & Nx & Ux).
  pose proof (@bounded_value S my ey HS By) as (_ & _ & Ny & Uy).
  pose proof (@bounded_inv mx ex Bx) as (Ex & _). pose proof (@bounded_inv my ey By) as (Ey & _).
  unfold SFleb, SFcompare.
  destruct (Z.compare_spec ex ey) as [Eq|Lt|Gt]; try discriminate.
  - subst ey. rewrite Pos.compare_cont_spec. cbn [Pos.switch_Eq].
    assert (P : 0 < 2 ^ (ex + S)) by (apply Z.pow_pos_nonneg; lia).
    destruct (Pos.compare_spec mx my) as [E|L|G]; try discriminate; intros _.
    + left. auto.
    + right. nia.
  - intros _. right. assert (Nn : -1074 < ey) by lia. specialize (Ny Nn).
    assert (2 ^ (53 + ex + S) <= 2 ^ (52 + ey + S))
      by (apply Z.pow_le_mono_r; lia). lia.
Qed.

(** A finite positive float is its own rounding. *)
Lemma bounded_rounded (S : Z) (m : positive) (e : Z) :
  1074 <= S -> bounded prec emax m e = true ->
  rounded S (Zpos (digits2_pos m) + e) (Zpos m * 2 ^ (e + S))
          (Zpos m * 2 ^ (e + S)).
Proof.
  intros HS Hb. pose proof (@bounded_inv m e Hb) as (He & Hd & Hn & Hf).
  pose proof (digits2_pos_bounds m) as [Dl Du].
  set (d := Zpos (digits2_pos m)) in *.
  assert (Hd1 : 1 <= d) by (unfold d; lia).
  assert (P : 0 < 2 ^ (e + S)) by (apply Z.pow_pos_nonneg; lia).
  unfold rounded. rewrite Hf. split.
  - assert (A1 : 2 ^ (d + e + S - 1) = 2 ^ (d - 1) * 2 ^ (e + S))
      by (rewrite <- Z.pow_add_r by lia; f_equal; lia).
    assert (A2 : 2 ^ (d + e + S) = 2 ^ d * 2 ^ (e + S))
      by (rewrite <- Z.pow_add_r by lia; f_equal; lia).
    rewrite A1, A2. nia.
  - exists (Zpos m). repeat split; try lia.
Qed.

(** The result of [binary_round_aux] on a fine enough positive mantissa:
    it is described by a rounding of the input value. *)
Lemma binary_round_aux_rounded (S : Z) (m : positive) (e : Z) :
  1074 <= S -> 0 <= e + S ->
  e <= fexp64 (Zpos (digits2_pos m) + e) ->
  exists W,
    describes S (binary_round_aux prec emax false (Zpos m) e loc_Exact) W /\
    rounded S (Zpos (digits2_pos m) + e) (Zpos m * 2 ^ (e + S)) W.
Proof.
  intros HS HeS HE.
  destruct (@binary_round_aux_spec m e HE) as (k & Hk & Near & Norm & Res).
  pose proof (digits2_pos_bounds m) as [Dl Du].
  set (d := Zpos (digits2_pos m)) in *.
  assert (Hd1 : 1 <= d) by (unfold d; lia).
  set (E := fexp64 (d + e)) in *.
  assert (HEmin : -1074 <= E) by (unfold E, fexp64; lia).
  assert (P : 0 < 2 ^ (e + S)) by (apply Z.pow_pos_nonneg; lia).
  assert (Q : 0 < 2 ^ (E - e)) by (apply Z.pow_pos_nonneg; lia).
  assert (PE : 2 ^ (E + S) = 2 ^ (E - e) * 2 ^ (e + S))
    by (rewrite <- Z.pow_add_r by lia; f_equal; lia).
  exists (k * 2 ^ (E + S)). split.
  - rewrite Res.
    destruct (Z.eqb_spec k 0) as [->|K0]; [reflexivity|].
    destruct (Z.eqb_spec k (2 ^ 53)) as [K|K].
    + destruct (Z.leb_spec (E + 1) 971) as [L|G]; cbn [describes].
      * split; [apply bounded_intro; try reflexivity; lia|].
        rewrite K. change (Zpos (Z.to_pos (2 ^ 52))) with (2 ^ 52).
        replace (E + 1 + S) with (1 + (E + S)) by lia.
        rewrite (Z.pow_add_r 2 1 (E + S)) by lia. lia.
      * rewrite K. replace (1024 + S) with (53 + (971 + S)) by lia.
        rewrite (Z.pow_add_r 2 53 (971 + S)) by lia.
        assert (2 ^ (971 + S) <= 2 ^ (E + S))
          by (apply Z.pow_le_mono_r; lia).
        assert (0 < 2 ^ (971 + S)) by (apply Z.pow_pos_nonneg; lia). nia.
    + destruct (Z.leb_spec E 971) as [L|G]; cbn [describes].
      * assert (Kp : Zpos (Z.to_pos k) = k) by (apply Z2Pos.id; lia).
        split; [|now rewrite Kp].
        assert (Dk : Zpos (digits2_pos (Z.to_pos k)) <= 53)
          by (apply digits_le_of_lt; lia).
        apply bounded_intro; try lia.
        intros Hn. specialize (Norm Hn).
        assert (52 + 1 <= Zpos (digits2_pos (Z.to_pos k)))
          by (apply digits_ge_of_le; lia). lia.
      * assert (Hn : -1074 < E) by lia. specialize (Norm Hn).
        replace (1024 + S) with (52 + (972 + S)) by lia.
        rewrite (Z.pow_add_r 2 52 (972 + S)) by lia.
        assert (2 ^ (972 + S) <= 2 ^ (E + S))
          by (apply Z.pow_le_mono_r; lia).
        assert (0 < 2 ^ (972 + S)) by (apply Z.pow_pos_nonneg; lia). nia.
  - unfold rounded. fold E. split.
    + assert (A1 : 2 ^ (d + e + S - 1) = 2 ^ (d - 1) * 2 ^ (e + S))
      by (rewrite <- Z.pow_add_r by lia; f_equal; lia).
    assert (A2 : 2 ^ (d + e + S) = 2 ^ d * 2 ^ (e + S))
      by (rewrite <- Z.pow_add_r by lia; f_equal; lia).
    rewrite A1, A2. nia.
    + exists k. split; [lia|]. split; [reflexivity|].
      rewrite PE. nia.
Qed.

Lemma describes_nonneg_sf (S : Z) (x : spec_float) (W : Z) :
  describes S x W -> nonneg_sf x.
Proof.
  destruct x as [s|[|]| |[|] m e]; cbn; tauto.
Qed.

Lemma SFleb_refl (x : spec_float) : nonneg_sf x -> SFleb x x = true.
Proof.
  destruct x as [s|[|]| |[|] m e]; cbn [nonneg_sf]; try tauto;
    try reflexivity.
  intros _. unfold SFleb, SFcompare. rewrite Z.compare_refl.
  rewrite Pos.compare_cont_spec, Pos.compare_refl. reflexivity.
Qed.

Lemma SFleb_infinity (x : spec_float) :
  nonneg_sf x -> SFleb x (S754_infinity false) = true.
Proof.
  destruct x as [s|[|]| |[|] m e]; cbn [nonneg_sf]; try tauto;
    reflexivity.
Qed.

Lemma SFleb_zero (s : bool) (x : spec_float) :
  nonneg_sf x -> SFleb (S754_zero s) x = true.
Proof.
  destruct x as [sx|[|]| |[|] m e]; cbn [nonneg_sf]; try tauto;
    reflexivity.
Qed.

Lemma digits_mono (p q : positive) :
  (p <= q)%positive -> Zpos (digits2_pos p) <= Zpos (digits2_pos q).
Proof.
  intros H. pose proof (digits2_pos_bounds p) as [Lp _].
  pose proof (digits2_pos_bounds q) as [_ Uq].
  destruct (Z.le_gt_cases (Zpos (digits2_pos p)) (Zpos (digits2_pos q)))
    as [|G]; [assumption|]. exfalso.
  assert (2 ^ Zpos (digits2_pos q) <= 2 ^ (Zpos (digits2_pos p) - 1))
    by (apply Z.pow_le_mono_r; lia). lia.
Qed.

Lemma digits_mul (p q : positive) :
  Zpos (digits2_pos p) + Zpos (digits2_pos q) - 1
  <= Zpos (digits2_pos (p * q)).
Proof.
  pose proof (digits2_pos_bounds p) as [Lp _].
  pose proof (digits2_pos_bounds q) as [Lq _].
  pose proof (digits2_pos_bounds (p * q)) as [_ U].
  set (a := Zpos (digits2_pos p)) in *. set (b := Zpos (digits2_pos q)) in *.
  set (c := Zpos (digits2_pos (p * q))) in *.
  assert (Ha : 1 <= a) by (unfold a; lia).
  assert (Hb : 1 <= b) by (unfold b; lia).
  assert (Hc : 1 <= c) by (unfold c; lia).
  destruct (Z.le_gt_cases (a + b - 1) c) as [|G]; [assumption|]. exfalso.
  assert (E : 2 ^ (a - 1) * 2 ^ (b - 1) = 2 ^ (a + b - 2))
    by (rewrite <- Z.pow_add_r by lia; f_equal; lia).
  assert (2 ^ c <= 2 ^ (a + b - 2)) by (apply Z.pow_le_mono_r; lia).
  assert (0 < 2 ^ (a - 1)) by (apply Z.pow_pos_nonneg; lia).
  assert (0 < 2 ^ (b - 1)) by (apply Z.pow_pos_nonneg; lia).
  rewrite Pos2Z.inj_mul in U. nia.
Qed.

(** The product of two finite positive floats is a rounding of the
    product of their values. *)
Lemma SFmul_finite_rounded (mx : positive) (ex : Z) (mc : positive)
    (ec : Z) :
  bounded prec emax mx ex = true -> bounded prec emax mc ec = true ->
  exists W,
    describes 2148 (SFmul prec emax (S754_finite false mx ex)
                                    (S754_finite false mc ec)) W /\
    rounded 2148 (Zpos (digits2_pos (mx * mc)) + (ex + ec))
      ((Zpos mx * 2 ^ (ex + 1074)) * (Zpos mc * 2 ^ (ec + 1074))) W.
Proof.
  intros Bx Bc.
  pose proof (@bounded_inv mx ex Bx) as (Ex & Dx & Nx & _).
  pose proof (@bounded_inv mc ec Bc) as (Ec & Dc & Nc & _).
  pose proof (digits_mul mx mc) as Dm.
  assert (Hdx : 1 <= Zpos (digits2_pos mx)) by lia.
  assert (Hdc : 1 <= Zpos (digits2_pos mc)) by lia.
  cbn [SFmul xorb].
  destruct (@binary_round_aux_rounded 2148 (mx * mc) (ex + ec))
    as (W & HW & HR); try lia.
  { unfold fexp64. lia. }
  exists W. split; [exact HW|].
  replace (Zpos mx * 2 ^ (ex + 1074) * (Zpos mc * 2 ^ (ec + 1074)))
    with (Zpos (mx * mc) * 2 ^ (ex + ec + 2148)); [exact HR|].
  replace (ex + ec + 2148) with ((ex + 1074) + (ec + 1074)) by lia.
  rewrite Z.pow_add_r by lia. rewrite Pos2Z.inj_mul. ring.
Qed.

Lemma SFmul_nonneg (x : spec_float) (mc : positive) (ec : Z) :
  nonneg_sf x -> bounded prec emax mc ec = true ->
  nonneg_sf (SFmul prec emax x (S754_finite false mc ec)).
Proof.
  intros Hx Bc. destruct x as [s|[|]| |[|] m e]; cbn [nonneg_sf] in Hx;
    try tauto; try exact I.
  destruct (@SFmul_finite_rounded m e mc ec Hx Bc) as (W & HW & _).
  exact (@describes_nonneg_sf _ _ _ HW).
Qed.

(** Multiplication by a finite positive constant is monotone on the
    non-negative floats. *)
Lemma SFmul_mono (x y : spec_float) (mc : positive) (ec : Z) :
  nonneg_sf x -> nonneg_sf y -> bounded prec emax mc ec = true ->
  SFleb x y = true ->
  SFleb (SFmul prec emax x (S754_finite false mc ec))
        (SFmul prec emax y (S754_finite false mc ec)) = true.
Proof.
  intros Hx Hy Bc Hle.
  pose proof (@SFmul_nonneg x mc ec Hx Bc) as Nx.
  pose proof (@SFmul_nonneg y mc ec Hy Bc) as Ny.
  destruct x as [sx|[|]| |[|] mx ex]; cbn [nonneg_sf] in Hx; try tauto.
  - (* zero *) apply SFleb_zero. exact Ny.
  - (* infinity *)
    destruct y as [sy|[|]| |[|] my ey]; cbn [nonneg_sf] in Hy; try tauto;
      try discriminate Hle; try reflexivity.
  - (* finite *)
    destruct y as [sy|[|]| |[|] my ey]; cbn [nonneg_sf] in Hy; try tauto;
      try discriminate Hle.
    + (* infinity *) apply SFleb_infinity. exact Nx.
    + (* finite *)
      destruct (@finite_compare 1074 mx ex my ey) as [[-> ->]|Hlt];
        auto; try lia.
      * apply SFleb_refl. exact Nx.
      * destruct (@SFmul_finite_rounded mx ex mc ec Hx Bc) as (W & HW & HR).
        destruct (@SFmul_finite_rounded my ey mc ec Hy Bc) as (W' & HW' & HR').
        apply (@describes_le 2148 _ _ W W'); auto; try lia.
        pose proof (@bounded_inv mx ex Hx) as (Ex & _).
        pose proof (@bounded_inv my ey Hy) as (Ey & _).
        pose proof (@bounded_inv mc ec Bc) as (Ec & _).
        pose proof (@bounded_value 1074 mc ec ltac:(lia) Bc) as (_ & Pc & _).
        eapply rounded_mono; [| | |exact HR|exact HR'|]; try lia.
        nia.
Qed.

Lemma iter_xO (m d : positive) :
  Zpos (Pos.iter xO m d) = Zpos m * 2 ^ Zpos d.
Proof.
  induction d as [|d IH] using Pos.peano_ind.
  - cbn. lia.
  - rewrite Pos.iter_succ, Pos2Z.inj_xO, IH, Pos2Z.inj_succ.
    rewrite Z.pow_succ_r by lia. ring.
Qed.

Lemma shl_align_fst (m : positive) (e ez : Z) :
  ez <= e -> Zpos (fst (shl_align m e ez)) = Zpos m * 2 ^ (e - ez).
Proof.
  intros H. unfold shl_align.
  destruct (ez - e) as [|p|p] eqn:E; try lia.
  - replace (e - ez) with 0 by lia. cbn [fst]. lia.
  - cbn [fst]. rewrite iter_xO. f_equal. f_equal. lia.
Qed.

(** The sum of two finite positive floats is a rounding of the sum of
    their values. *)
Lemma SFadd_finite_rounded (S : Z) (mx : positive) (ex : Z) (my : positive)
    (ey : Z) :
  1074 <= S ->
  bounded prec emax mx ex = true -> bounded prec emax my ey = true ->
  exists W M,
    0 <= M + S - 1 /\
    describes S (SFadd prec emax (S754_finite false mx ex)
                                 (S754_finite false my ey)) W /\
    rounded S M (Zpos mx * 2 ^ (ex + S) + Zpos my * 2 ^ (ey + S)) W.
Proof.
  intros HS Bx By.
  pose proof (@bounded_inv mx ex Bx) as (Ex & Dx & Nx & Fx).
  pose proof (@bounded_inv my ey By) as (Ey & Dy & Ny & Fy).
  cbn [SFadd cond_Zopp].
  set (ez := Z.min ex ey).
  assert (Hzx : ez <= ex) by (unfold ez; lia).
  assert (Hzy : ez <= ey) by (unfold ez; lia).
  pose proof (@shl_align_fst mx ex ez Hzx) as Ax.
  pose proof (@shl_align_fst my ey ez Hzy) as Ay.
  set (a := fst (shl_align mx ex ez)) in *.
  set (b := fst (shl_align my ey ez)) in *.
  change (Zpos a + Zpos b) with (Zpos (a + b)).
  cbn [binary_normalize]. unfold binary_round.
  set (p := (a + b)%positive).
  assert (Hp : Zpos p = Zpos mx * 2 ^ (ex - ez) + Zpos my * 2 ^ (ey - ez))
    by (unfold p; rewrite Pos2Z.inj_add; lia).
  assert (Px : 0 < 2 ^ (ex - ez)) by (apply Z.pow_pos_nonneg; lia).
  assert (Py : 0 < 2 ^ (ey - ez)) by (apply Z.pow_pos_nonneg; lia).
  assert (Hfine : ez <= fexp64 (Zpos (digits2_pos p) + ez)).
  { assert (Hmx : (mx <= p)%positive) by (apply Pos2Z.pos_le_pos; nia).
    assert (Hmy : (my <= p)%positive) by (apply Pos2Z.pos_le_pos; nia).
    apply digits_mono in Hmx, Hmy. unfold ez, fexp64 in *. lia. }
  rewrite fexp64_eq.
  assert (Hsh : shl_align p ez (fexp64 (Zpos (digits2_pos p) + ez))
                = (p, ez)).
  { unfold shl_align.
    destruct (fexp64 (Zpos (digits2_pos p) + ez) - ez) eqn:E; try lia;
      reflexivity. }
  rewrite Hsh.
  destruct (@binary_round_aux_rounded S p ez) as (W & HW & HR);
    try lia.
  exists W, (Zpos (digits2_pos p) + ez).
  split; [lia|]. split; [exact HW|].
  replace (Zpos mx * 2 ^ (ex + S) + Zpos my * 2 ^ (ey + S))
    with (Zpos p * 2 ^ (ez + S)); [exact HR|].
  rewrite Hp.
  assert (Ax' : 2 ^ (ex + S) = 2 ^ (ex - ez) * 2 ^ (ez + S))
    by (rewrite <- Z.pow_add_r by lia; f_equal; lia).
  assert (Ay' : 2 ^ (ey + S) = 2 ^ (ey - ez) * 2 ^ (ez + S))
    by (rewrite <- Z.pow_add_r by lia; f_equal; lia).
  rewrite Ax', Ay'. ring.
Qed.

Lemma SFadd_comm (x y : spec_float) :
  SFadd prec emax x y = SFadd prec emax y x.
Proof.
  destruct x as [sx|sx| |sx mx ex], y as [sy|sy| |sy my ey];
    try reflexivity;
    try (destruct sx, sy; reflexivity).
  cbn [SFadd]. rewrite (Z.min_comm ey ex). f_equal. apply Z.add_comm.
Qed.

Lemma SFadd_nonneg (x y : spec_float) :
  nonneg_sf x -> nonneg_sf y -> nonneg_sf (SFadd prec emax x y).
Proof.
  intros Hx Hy.
  destruct x as [sx|[|]| |[|] mx ex]; cbn [nonneg_sf] in Hx; try tauto;
    (destruct y as [sy|[|]| |[|] my ey]; cbn [nonneg_sf] in Hy; try tauto);
    try exact I; try assumption.
  - destruct sx, sy; exact I.
  - destruct (@SFadd_finite_rounded 1074 mx ex my ey) as (W & M & _ & HW & _);
      auto; try lia.
    exact (@describes_nonneg_sf _ _ _ HW).
Qed.

(** Addition is monotone in its first argument on the non-negative
    floats. *)
Lemma SFadd_mono_l (x x' y : spec_float) :
  nonneg_sf x -> nonneg_sf x' -> nonneg_sf y ->
  SFleb x x' = true ->
  SFleb (SFadd prec emax x y) (SFadd prec emax x' y) = true.
Proof.
  intros Hx Hx' Hy Hle.
  pose proof (@SFadd_nonneg x y Hx Hy) as Nx.
  pose proof (@SFadd_nonneg x' y Hx' Hy) as Nx'.
  destruct y as [sy|[|]| |[|] my ey]; cbn [nonneg_sf] in Hy; try tauto.
  - (* y is a zero *)
    destruct x as [sx|[|]| |[|] mx ex]; cbn [nonneg_sf] in Hx; try tauto;
      (destruct x' as [sx'|[|]| |[|] mx' ex']; cbn [nonneg_sf] in Hx';
       try tauto); try discriminate Hle; try exact Hle;
      try reflexivity.
    + destruct sx, sy, sx'; reflexivity.
    + destruct sx, sy; reflexivity.
    + destruct sx, sy; reflexivity.
  - (* y is plus infinity *)
    destruct x as [sx|[|]| |[|] mx ex]; cbn [nonneg_sf] in Hx; try tauto;
      (destruct x' as [sx'|[|]| |[|] mx' ex']; cbn [nonneg_sf] in Hx';
       try tauto); reflexivity.
  - (* y is finite *)
    pose proof (@bounded_value 1074 my ey ltac:(lia) Hy) as (_ & Py & _).
    pose proof (@bounded_inv my ey Hy) as (Ey & _).
    destruct x as [sx|[|]| |[|] mx ex]; cbn [nonneg_sf] in Hx; try tauto;
      (destruct x' as [sx'|[|]| |[|] mx' ex']; cbn [nonneg_sf] in Hx';
       try tauto); try discriminate Hle; try reflexivity;
      try (apply SFleb_refl; exact Hy);
      try (apply SFleb_infinity; exact Nx).
    + (* zero, finite *)
      destruct (@SFadd_finite_rounded 1074 mx' ex' my ey)
        as (W' & M' & HM' & HW' & HR'); auto; try lia.
      pose proof (@bounded_value 1074 mx' ex' ltac:(lia) Hx') as (_ & Px & _).
      pose proof (@bounded_rounded 1074 my ey ltac:(lia) Hy) as HR.
      apply (@describes_le 1074 _ _ (Zpos my * 2 ^ (ey + 1074)) W');
        auto; try lia.
      * cbn [SFadd describes]. auto.
      * eapply rounded_mono; [| | |exact HR|exact HR'|]; try lia.
    + (* finite, finite *)
      destruct (@finite_compare 1074 mx ex mx' ex') as [[-> ->]|Hlt];
        auto; try lia.
      * apply SFleb_refl. exact Nx.
      * destruct (@SFadd_finite_rounded 1074 mx ex my ey)
          as (W & M & HM & HW & HR); auto; try lia.
        destruct (@SFadd_finite_rounded 1074 mx' ex' my ey)
          as (W' & M' & HM' & HW' & HR'); auto; try lia.
        apply (@describes_le 1074 _ _ W W'); auto; try lia.
        eapply rounded_mono; [| | |exact HR|exact HR'|]; try lia.
Qed.

Lemma SFadd_mono_r (x y y' : spec_float) :
  nonneg_sf x -> nonneg_sf y -> nonneg_sf y' ->
  SFleb y y' = true ->
  SFleb (SFadd prec emax x y) (SFadd prec emax x y') = true.
Proof.
  intros Hx Hy Hy' Hle. rewrite (SFadd_comm x y), (SFadd_comm x y').
  now apply SFadd_mono_l.
Qed.

Lemma compare_cont_Eq (p q : positive) :
  Pos.compare_cont Eq p q = (p ?= q)%positive.
Proof. rewrite Pos.compare_cont_spec. now destruct (p ?= q)%positive. Qed.

Lemma lex_compare_le_trans e1 m1 e2 m2 e3 m3 :
  lex_compare e1 m1 e2 m2 <> Gt -> lex_compare e2 m2 e3 m3 <> Gt ->
  lex_compare e1 m1 e3 m3 <> Gt.
Proof.
  unfold lex_compare.
  destruct (Z.compare_spec e1 e2), (Z.compare_spec e2 e3),
    (Z.compare_spec e1 e3); try lia; try congruence.
  destruct (Pos.compare_spec m1 m2), (Pos.compare_spec m2 m3),
    (Pos.compare_spec m1 m3); try lia; congruence.
Qed.

Lemma lex_compare_ge_trans e1 m1 e2 m2 e3 m3 :
  lex_compare e1 m1 e2 m2 <> Lt -> lex_compare e2 m2 e3 m3 <> Lt ->
  lex_compare e1 m1 e3 m3 <> Lt.
Proof.
  unfold lex_compare.
  destruct (Z.compare_spec e1 e2), (Z.compare_spec e2 e3),
    (Z.compare_spec e1 e3); try lia; try congruence.
  destruct (Pos.compare_spec m1 m2), (Pos.compare_spec m2 m3),
    (Pos.compare_spec m1 m3); try lia; congruence.
Qed.

Lemma SFleb_finite_pos e1 m1 e2 m2 :
  SFleb (S754_finite false m1 e1) (S754_finite false m2 e2) = true
  <-> lex_compare e1 m1 e2 m2 <> Gt.
Proof.
  unfold SFleb, SFcompare, lex_compare. rewrite compare_cont_Eq.
  destruct (e1 ?= e2); [destruct (m1 ?= m2)%positive| |];
    split; congruence.
Qed.

Lemma SFleb_finite_neg e1 m1 e2 m2 :
  SFleb (S754_finite true m1 e1) (S754_finite true m2 e2) = true
  <-> lex_compare e1 m1 e2 m2 <> Lt.
Proof.
  unfold SFleb, SFcompare, lex_compare. rewrite compare_cont_Eq.
  destruct (e1 ?= e2); [destruct (m1 ?= m2)%positive| |]; cbn;
    split; congruence.
Qed.

Lemma SFleb_trans (x y z : spec_float) :
  SFleb x y = true -> SFleb y z = true -> SFleb x z = true.
Proof.
  destruct x as [sx|[|]| |[|] mx ex], y as [sy|[|]| |[|] my ey],
    z as [sz|[|]| |[|] mz ez]; try reflexivity; try discriminate;
    try (intros _ H; exact H); try (intros H _; exact H).
  - rewrite !SFleb_finite_neg. apply lex_compare_ge_trans.
  - rewrite !SFleb_finite_pos. apply lex_compare_le_trans.
Qed.

(** Two floats neither of which is a NaN are comparable. *)
Lemma SFltb_false_SFleb (x y : spec_float) :
  x <> S754_nan -> y <> S754_nan ->
  SFltb x y = false -> SFleb y x = true.
Proof.
  intros Hx Hy H.
  destruct x as [sx|[|]| |[|] mx ex], y as [sy|[|]| |[|] my ey];
    try congruence; unfold SFltb, SFleb, SFcompare in *;
    try reflexivity; try discriminate H;
    revert H; rewrite (compare_cont_Eq mx my), (compare_cont_Eq my mx);
    rewrite (Z.compare_antisym ex ey), (Pos.compare_antisym mx my);
    destruct (ex ?= ey); destruct (mx ?= my)%positive; cbn; congruence.
Qed.

(** ** Non-negative mantissas never round to a NaN *)
Lemma shr_1_nonneg (mrs : shr_record) :
  0 <= shr_m mrs -> 0 <= shr_m (shr_1 mrs).
Proof.
  destruct mrs as [[|[p|p|]|p] r s]; cbn; lia.
Qed.

Lemma iter_shr_1_nonneg (p : positive) :
  forall mrs, 0 <= shr_m mrs -> 0 <= shr_m (iter_pos shr_1 p mrs).
Proof.
  induction p as [p IH|p IH|]; intros mrs H; cbn [iter_pos].
  - apply IH, IH, shr_1_nonneg, H.
  - apply IH, IH, H.
  - apply shr_1_nonneg, H.
Qed.

Lemma shr_fexp_nonneg (m e : Z) (l : location) :
  0 <= m -> 0 <= shr_m (fst (shr_fexp prec emax m e l)).
Proof.
  intros H. unfold shr_fexp, shr.
  assert (H0 : 0 <= shr_m (shr_record_of_loc m l))
    by (destruct l as [|[| |]]; exact H).
  destruct (fexp prec emax (Zdigits2 m + e) - e); cbn [fst]; auto.
  now apply iter_shr_1_nonneg.
Qed.

Lemma round_nearest_even_nonneg (m : Z) (l : location) :
  0 <= m -> 0 <= round_nearest_even m l.
Proof.
  intros H. destruct l as [|[| |]]; cbn [round_nearest_even];
    try destruct (Z.even m); lia.
Qed.

Lemma binary_round_aux_sign (s : bool) (m e : Z) (l : location) :
  0 <= m ->
  match binary_round_aux prec emax s m e l with
  | S754_zero s' | S754_infinity s' | S754_finite s' _ _ => s' = s
  | S754_nan => False
  end.
Proof.
  intros H. unfold binary_round_aux.
  pose proof (shr_fexp_nonneg e l H) as H1.
  destruct (shr_fexp prec emax m e l) as [mrs' e'] eqn:E1. cbn [fst] in H1.
  pose proof (@round_nearest_even_nonneg (shr_m mrs')
                (loc_of_shr_record mrs') H1) as H2.
  pose proof (shr_fexp_nonneg e' loc_Exact H2) as H3.
  destruct (shr_fexp prec emax _ e' loc_Exact) as [mrs'' e''] eqn:E2.
  cbn [fst] in H3.
  destruct (shr_m mrs'') as [|p|p]; try lia; try reflexivity.
  destruct (e'' <=? emax - prec); reflexivity.
Qed.

(** ** Integers converted to floats *)
Lemma digits_iter_xO (m d : positive) :
  Zpos (digits2_pos (Pos.iter xO m d)) = Zpos (digits2_pos m) + Zpos d.
Proof.
  induction d as [|d IH] using Pos.peano_ind.
  - cbn. lia.
  - rewrite Pos.iter_succ. cbn [digits2_pos].
    rewrite Pos2Z.inj_succ, IH, Pos2Z.inj_succ. lia.
Qed.

Lemma binary_round_nonneg (p : positive) (e : Z) :
  -1074 <= e ->
  nonneg_sf (binary_round prec emax false p e).
Proof.
  intros He. unfold binary_round. rewrite fexp64_eq.
  set (E := fexp64 (Zpos (digits2_pos p) + e)).
  assert (HE : -1074 <= E) by (unfold E, fexp64; lia).
  unfold shl_align.
  destruct (E - e) as [|d|d] eqn:Ed.
  - destruct (@binary_round_aux_rounded 1074 p e) as (W & HW & _);
      try lia; try (fold E; lia).
    exact (@describes_nonneg_sf _ _ _ HW).
  - destruct (@binary_round_aux_rounded 1074 p e) as (W & HW & _);
      try lia; try (fold E; lia).
    exact (@describes_nonneg_sf _ _ _ HW).
  - destruct (@binary_round_aux_rounded 1074 (Pos.iter xO p d) E)
      as (W & HW & _); try lia.
    { rewrite digits_iter_xO.
      replace (Zpos (digits2_pos p) + Zpos d + E)
        with (Zpos (digits2_pos p) + e) by lia.
      fold E. lia. }
    cbn [fst snd]. exact (@describes_nonneg_sf _ _ _ HW).
Qed.

Lemma nonneg_sf_valid (x : spec_float) :
  nonneg_sf x -> valid_binary x = true.
Proof.
  destruct x as [s|[|]| |[|] m e]; cbn; tauto.
Qed.

Lemma nonneg_sf_not_nan (x : spec_float) : nonneg_sf x -> x <> S754_nan.
Proof. destruct x; cbn; try tauto; discriminate. Qed.

Lemma binary_normalize_nonneg (n : Z) :
  0 <= n -> nonneg_sf (binary_normalize prec emax n 0 false).
Proof.
  intros H. destruct n as [|p|p]; try lia; cbn [binary_normalize].
  - exact I.
  - apply binary_round_nonneg. lia.
Qed.

Lemma nonneg_iff (x : float) : nonneg x <-> nonneg_sf (Prim2SF x).
Proof.
  unfold nonneg. rewrite leb_spec.
  change (Prim2SF 0) with (S754_zero false).
  pose proof (Prim2SF_valid x) as V.
  destruct (Prim2SF x) as [s|[|]| |[|] m e]; cbn in *;
    split; intros H; try tauto; try discriminate; try reflexivity; auto.
Qed.

Lemma float_leb_trans (x y z : float) :
  (x <=? y)%float = true -> (y <=? z)%float = true ->
  (x <=? z)%float = true.
Proof. rewrite !leb_spec. apply SFleb_trans. Qed.

Lemma float_leb_refl (x : float) : nonneg x -> (x <=? x)%float = true.
Proof. rewrite nonneg_iff, leb_spec. apply SFleb_refl. Qed.

Lemma nonneg_le (x y : float) :
  nonneg x -> (x <=? y)%float = true -> nonneg y.
Proof. unfold nonneg. apply float_leb_trans. Qed.

Lemma float_ltb_leb (x y : float) :
  (x <? y)%float = true -> (x <=? y)%float = true.
Proof.
  rewrite ltb_spec, leb_spec. unfold SFltb, SFleb.
  destruct (SFcompare _ _) as [[| |]|]; congruence.
Qed.

Lemma float_not_ltb (x y : float) :
  nonneg x -> nonneg y -> (x <? y)%float = false ->
  (y <=? x)%float = true.
Proof.
  rewrite !nonneg_iff, ltb_spec, leb_spec. intros Hx Hy.
  apply SFltb_false_SFleb; now apply nonneg_sf_not_nan.
Qed.

Lemma positive_finite_bounded (c : float) (m : positive) (e : Z) :
  Prim2SF c = S754_finite false m e -> bounded prec emax m e = true.
Proof. intros E. pose proof (Prim2SF_valid c) as V. now rewrite E in V. Qed.

Lemma float_mul_nonneg (x c : float) :
  nonneg x -> positive_finite c -> nonneg (x * c)%float.
Proof.
  rewrite !nonneg_iff, mul_spec. intros Hx (m & e & Ec). rewrite Ec.
  apply SFmul_nonneg; auto. now apply positive_finite_bounded with c.
Qed.

Lemma float_mul_mono (x y c : float) :
  nonneg x -> (x <=? y)%float = true -> positive_finite c ->
  (x * c <=? y * c)%float = true.
Proof.
  intros Hx Hle Hc. pose proof (nonneg_le Hx Hle) as Hy.
  revert Hx Hy Hle. rewrite !nonneg_iff, !leb_spec, !mul_spec.
  destruct Hc as (m & e & Ec). rewrite Ec. intros Hx Hy Hle.
  apply SFmul_mono; auto. now apply positive_finite_bounded with c.
Qed.

Lemma float_add_nonneg (x y : float) :
  nonneg x -> nonneg y -> nonneg (x + y)%float.
Proof. rewrite !nonneg_iff, add_spec. apply SFadd_nonneg. Qed.

Lemma float_add_mono_l (x x' y : float) :
  nonneg x -> (x <=? x')%float = true -> nonneg y ->
  (x + y <=? x' + y)%float = true.
Proof.
  intros Hx Hle Hy. pose proof (nonneg_le Hx Hle) as Hx'.
  revert Hx Hx' Hy Hle. rewrite !nonneg_iff, !leb_spec, !add_spec.
  intros. now apply SFadd_mono_l.
Qed.

Lemma float_add_mono_r (x y y' : float) :
  nonneg x -> nonneg y -> (y <=? y')%float = true ->
  (x + y <=? x + y')%float = true.
Proof.
  intros Hx Hy Hle. pose proof (nonneg_le Hy Hle) as Hy'.
  revert Hx Hy Hy' Hle. rewrite !nonneg_iff, !leb_spec, !add_spec.
  intros. now apply SFadd_mono_r.
Qed.

Lemma SFmul_comm (x y : spec_float) :
  SFmul prec emax x y = SFmul prec emax y x.
Proof.
  destruct x as [sx|sx| |sx mx ex], y as [sy|sy| |sy my ey];
    cbn [SFmul]; try rewrite (xorb_comm sx sy); try reflexivity.
  now rewrite (Pos.mul_comm mx my), (Z.add_comm ex ey).
Qed.

Lemma float_mul_comm (x y : float) : (x * y = y * x)%float.
Proof. apply Prim2SF_inj. rewrite !mul_spec. apply SFmul_comm. Qed.

(** ** Facts about [datetime] arithmetic *)

Module DatetimeFacts.


Lemma timedelta_new_some days seconds microseconds minutes hours :
  Z.abs (days * us_per_day
         + (seconds + 60 * minutes + 3600 * hours) * 1000000
         + microseconds) <= 999999999 * us_per_day ->
  exists d,
    timedelta_new days seconds microseconds minutes hours = Some d /\
    timedelta_norm d /\
    timedelta_us d =
      days * us_per_day
      + (seconds + 60 * minutes + 3600 * hours) * 1000000 + microseconds.
Proof.
  unfold timedelta_new, timedelta_norm, timedelta_us, us_per_day.
  intros H.
  set (s := seconds + 60 * minutes + 3600 * hours + microseconds / 1000000).
  destruct (Z.leb_spec (Z.abs (days + s / 86400)) 999999999) as [Hle|Hgt].
  - eexists; split; [reflexivity|]. cbn [td_days td_seconds td_microseconds].
    subst s. repeat split; Z.div_mod_to_equations; lia.
  - exfalso. subst s. Z.div_mod_to_equations. lia.
Qed.

Lemma add_some (t : datetime) (other : timedelta) :
  wf t -> timedelta_norm other ->
  Z.abs (td_days other) <= 999999999 ->
  let total := to_microseconds t + timedelta_us other in
  us_per_day <= total < (MAXORDINAL + 1) * us_per_day ->
  exists t',
    Datetime.add t other = Some t' /\ wf t' /\ to_microseconds t' = total.
Proof.
  intros Hwf Hn Habs total Hr.
  unfold wf, MAXORDINAL in Hwf. unfold timedelta_norm in Hn.
  unfold total, to_microseconds, timedelta_us, us_per_day, MAXORDINAL in Hr.
  unfold Datetime.add.
  destruct (timedelta_new_some (ordinal t) (second t) (microsecond t)
              (minute t) (hour t)) as (d0 & E0 & N0 & U0).
  { unfold us_per_day. lia. }
  rewrite E0. cbn [bind]. unfold timedelta_add.
  unfold timedelta_norm, timedelta_us, us_per_day in N0, U0.
  destruct (timedelta_new_some (td_days d0 + td_days other)
              (td_seconds d0 + td_seconds other)
              (td_microseconds d0 + td_microseconds other) 0 0)
    as (d & E & N & U).
  { unfold us_per_day. lia. }
  rewrite E. cbn [bind].
  unfold timedelta_norm, timedelta_us, us_per_day in N, U.
  assert (Hd : 0 < td_days d <= 3652059) by lia.
  unfold MAXORDINAL.
  destruct (Z.ltb_spec 0 (td_days d)); [|lia].
  destruct (Z.leb_spec (td_days d) 3652059); [|lia].
  cbn [andb]. eexists; split; [reflexivity|].
  unfold wf, total, to_microseconds, timedelta_us, us_per_day, MAXORDINAL.
  cbn [ordinal hour minute second microsecond].
  split; [|Z.div_mod_to_equations; lia].
  repeat split; Z.div_mod_to_equations; lia.
Qed.

(** Two well-formed datetimes with the same microsecond count are the
  same value. *)
Lemma to_microseconds_inj (a b : datetime) :
  wf a -> wf b -> to_microseconds a = to_microseconds b -> a = b.
Proof.
  destruct a as [o1 h1 m1 s1 u1], b as [o2 h2 m2 s2 u2].
  unfold wf, to_microseconds; cbn [ordinal hour minute second microsecond].
  intros Ha Hb E.
  assert (o1 = o2 /\ h1 = h2 /\ m1 = m2 /\ s1 = s2 /\ u1 = u2) by lia.
  intuition congruence.
Qed.

End DatetimeFacts.

Import DatetimeFacts.

(** ** PostScheduler *)


Lemma optimal_hour_cases (i : Z) :
  (i mod 3 = 0 /\ optimal_hour i = 8) \/
  (i mod 3 = 1 /\ optimal_hour i = 12) \/
  (i mod 3 = 2 /\ optimal_hour i = 17).
Proof.
  unfold optimal_hour, optimal_hours. cbn [List.length Z.of_nat Pos.of_succ_nat Pos.succ].
  assert (H : 0 <= i mod 3 < 3) by (apply Z.mod_pos_bound; lia).
  assert (C : i mod 3 = 0 \/ i mod 3 = 1 \/ i mod 3 = 2) by lia.
  destruct C as [C|[C|C]]; rewrite C; cbn; auto.
Qed.

Lemma optimal_hour_in (i : Z) : In (optimal_hour i) optimal_hours.
Proof.
  destruct (optimal_hour_cases i) as [[_ E]|[[_ E]|[_ E]]]; rewrite E;
    unfold optimal_hours; cbn; auto.
Qed.

Lemma schedule_time_some (base_time : datetime) (i : Z) :
  wf base_time -> 0 <= i ->
  ordinal base_time + 2 + i / 48 <= MAXORDINAL ->
  exists t,
    schedule_time base_time i = Some t /\ wf t /\
    to_microseconds t = slot_us base_time i.
Proof.
  intros Hwf Hi Hr.
  assert (Hh : optimal_hour i = 8 \/ optimal_hour i = 12 \/ optimal_hour i = 17)
    by (destruct (optimal_hour_cases i) as [[_ E]|[[_ E]|[_ E]]]; auto).
  unfold schedule_time, slot_us, rolls.
  set (h := optimal_hour i) in *.
  assert (Hwf' : wf (replace_hour base_time h)).
  { unfold wf, replace_hour in *; cbn [ordinal hour minute second microsecond].
    lia. }
  assert (Hus : to_microseconds (replace_hour base_time h)
                = (ordinal base_time * 24 + h) * 3600000000).
  { unfold to_microseconds, replace_hour;
      cbn [ordinal hour minute second microsecond]. lia. }
  unfold MAXORDINAL in Hr.
  assert (H48 : 48 * (i / 48) <= i < 48 * (i / 48) + 48)
    by (Z.div_mod_to_equations; lia).
  assert (Ho : 1 <= ordinal base_time) by (unfold wf in Hwf; lia).
  destruct (timedelta_new_some 0 0 0 (i * 30) 0) as (j & Ej & Nj & Uj).
  { unfold us_per_day. lia. }
  assert (Hjd : Z.abs (td_days j) <= 999999999).
  { unfold timedelta_norm, timedelta_us, us_per_day in *. lia. }
  destruct (Z.geb_spec (Datetime.hour base_time) h) as [Hge|Hlt].
  - cbn [timedelta_new]. 
    destruct (@add_some (replace_hour base_time h) (mk_timedelta 1 0 0))
      as (t1 & E1 & W1 & U1); auto.
    { unfold timedelta_norm; cbn; lia. }
    { cbn; lia. }
    { rewrite Hus. unfold timedelta_us, us_per_day, MAXORDINAL, wf in *.
      cbn [td_days td_seconds td_microseconds]. lia. }
    change (timedelta_new 1 0 0 0 0) with (Some (mk_timedelta 1 0 0)).
    cbn [bind]. rewrite E1. cbn [bind]. rewrite Ej. cbn [bind].
    destruct (@add_some t1 j) as (t & E & W & U); auto.
    { rewrite U1, Hus, Uj.
      unfold timedelta_us, us_per_day, MAXORDINAL, wf in *.
      cbn [td_days td_seconds td_microseconds]. lia. }
    exists t. repeat split; try apply W; auto.
    rewrite U, U1, Hus, Uj. unfold timedelta_us, us_per_day.
    cbn [td_days td_seconds td_microseconds]. lia.
  - cbn [bind]. rewrite Ej. cbn [bind].
    destruct (@add_some (replace_hour base_time h) j) as (t & E & W & U); auto.
    { rewrite Hus, Uj. unfold timedelta_us, us_per_day, MAXORDINAL, wf in *.
      lia. }
    exists t. repeat split; try apply W; auto.
    rewrite U, Hus, Uj. unfold us_per_day. lia.
Qed.

Lemma schedule_loop_some (base_time : datetime) (n : nat) (i : Z) :
  wf base_time -> 0 <= i ->
  ordinal base_time + 2 + (i + Z.of_nat n) / 48 <= MAXORDINAL ->
  exists times,
    schedule_loop base_time i n = Some times /\
    List.length times = n /\
    forall k, (k < n)%nat ->
      exists t, nth_error times k = Some t /\ wf t /\
                to_microseconds t = slot_us base_time (i + Z.of_nat k).
Proof.
  intros Hwf. revert i.
  induction n as [|n IH]; intros i Hi Hr.
  - exists []. repeat split; auto. intros k Hk; lia.
  - assert (Hi' : i / 48 <= (i + Z.of_nat (S n)) / 48)
      by (apply Z.div_le_mono; lia).
    destruct (@schedule_time_some base_time i) as (t & Et & Wt & Ut);
      auto; try lia.
    destruct (IH (i + 1)) as (rest & Er & Lr & Hrest); try lia.
    { replace (i + 1 + Z.of_nat n) with (i + Z.of_nat (S n)) by lia. exact Hr. }
    exists (t :: rest). cbn [schedule_loop]. rewrite Et. cbn [bind].
    rewrite Er. cbn [bind].
    split; [reflexivity|split; [cbn [List.length]; congruence|]].
    intros [|k] Hk.
    + exists t. cbn [nth_error Z.of_nat]. rewrite Z.add_0_r. auto.
    + destruct (Hrest k) as (t' & E' & W' & U'); try lia.
      exists t'. cbn [nth_error]. split; [exact E'|split; [exact W'|]].
      rewrite U'. f_equal. lia.
Qed.


(** C3, as stated, fails: at 09:00 the first slot is hour 8 of the next
    day, not hour 12 of the same day. *)
Lemma four_posts_at_nine_not_as_claimed :
  calculate_optimal_post_times nine_o_clock 4
  <> Some (claimed_four_times nine_o_clock).
Proof. vm_compute. discriminate. Qed.

(** C3 (amended): for a run at 09:00 (any minute) and 4 posts the times are
    08:00 of the next day, 12:30 and 18:00 of the same day and 09:30 of the
    next day: the hours cycle 8, 12, 17, 8 from index 0, a slot whose hour
    has passed moves to the next day, and index [i] adds [30 * i] minutes;
    the four times are pairwise distinct, and the first one is later than
    the second and the third. *)
Theorem four_posts_at_nine (base_time : datetime) :
  wf base_time -> Datetime.hour base_time = 9 ->
  ordinal base_time + 2 <= MAXORDINAL ->
  calculate_optimal_post_times base_time 4
  = Some (computed_four_times base_time) /\
  NoDup (computed_four_times base_time) /\
  (forall a b c d, computed_four_times base_time = [a; b; c; d] ->
     Datetime.ltb b a = true /\ Datetime.ltb c a = true).
Proof.
  intros Hwf H9 Hr. split; [|split].
  - destruct (@schedule_loop_some base_time 4 0) as (times & E & L & Hk);
      auto; try lia.
    { cbn. lia. }
    unfold calculate_optimal_post_times.
    change (Z.to_nat 4) with 4%nat. rewrite E. f_equal.
    destruct times as [|a [|b [|c [|d [|]]]]]; try discriminate L.
    unfold computed_four_times.
    assert (Ho : 1 <= ordinal base_time <= MAXORDINAL - 2)
      by (unfold wf in Hwf; lia).
    unfold MAXORDINAL in Ho.
    assert (K : forall k t e, nth_error [a; b; c; d] k = Some t ->
                (k < 4)%nat -> wf e ->
                to_microseconds e = slot_us base_time (0 + Z.of_nat k) ->
                t = e).
    { intros k t e Hn Hlt We Ue.
      destruct (Hk k Hlt) as (t' & E' & W' & U').
      assert (t' = t) by congruence. subst t'.
      apply to_microseconds_inj; auto. congruence. }
    assert (S0 : slot_us base_time 0
                 = ((ordinal base_time + 1) * 24 + 8) * 3600000000)
      by (unfold slot_us, rolls; rewrite H9;
          change (optimal_hour 0) with 8; change (9 >=? 8) with true; lia).
    assert (S1 : slot_us base_time 1
                 = (ordinal base_time * 24 + 12) * 3600000000 + 1800000000)
      by (unfold slot_us, rolls; rewrite H9;
          change (optimal_hour 1) with 12; change (9 >=? 12) with false; lia).
    assert (S2 : slot_us base_time 2
                 = (ordinal base_time * 24 + 17) * 3600000000 + 3600000000)
      by (unfold slot_us, rolls; rewrite H9;
          change (optimal_hour 2) with 17; change (9 >=? 17) with false; lia).
    assert (S3 : slot_us base_time 3
                 = ((ordinal base_time + 1) * 24 + 8) * 3600000000
                   + 5400000000)
      by (unfold slot_us, rolls; rewrite H9;
          change (optimal_hour 3) with 8; change (9 >=? 8) with true; lia).
    assert (Ea : a = mk_datetime (ordinal base_time + 1) 8 0 0 0).
    { apply (K 0%nat); [reflexivity|lia| |].
      - unfold wf, MAXORDINAL;
          cbn [ordinal hour minute second microsecond]; lia.
      - change (0 + Z.of_nat 0) with 0. rewrite S0.
        unfold to_microseconds;
          cbn [ordinal hour minute second microsecond]; lia. }
    assert (Eb : b = mk_datetime (ordinal base_time) 12 30 0 0).
    { apply (K 1%nat); [reflexivity|lia| |].
      - unfold wf, MAXORDINAL;
          cbn [ordinal hour minute second microsecond]; lia.
      - change (0 + Z.of_nat 1) with 1. rewrite S1.
        unfold to_microseconds;
          cbn [ordinal hour minute second microsecond]; lia. }
    assert (Ec : c = mk_datetime (ordinal base_time) 18 0 0 0).
    { apply (K 2%nat); [reflexivity|lia| |].
      - unfold wf, MAXORDINAL;
          cbn [ordinal hour minute second microsecond]; lia.
      - change (0 + Z.of_nat 2) with 2. rewrite S2.
        unfold to_microseconds;
          cbn [ordinal hour minute second microsecond]; lia. }
    assert (Ed : d = mk_datetime (ordinal base_time + 1) 9 30 0 0).
    { apply (K 3%nat); [reflexivity|lia| |].
      - unfold wf, MAXORDINAL;
          cbn [ordinal hour minute second microsecond]; lia.
      - change (0 + Z.of_nat 3) with 3. rewrite S3.
        unfold to_microseconds;
          cbn [ordinal hour minute second microsecond]; lia. }
    congruence.
  - unfold computed_four_times.
    repeat constructor; cbn [In]; intros H;
      repeat (destruct H as [H|H]; [inversion H; lia|]); auto.
  - unfold computed_four_times. intros a b c d E. inversion E; subst.
    unfold Datetime.ltb, to_microseconds;
      cbn [ordinal hour minute second microsecond].
    split; apply Z.ltb_lt; lia.
Qed.

Lemma four_posts_at_nine_witness :
  calculate_optimal_post_times nine_o_clock 4
  = Some (computed_four_times nine_o_clock) /\
  NoDup (computed_four_times nine_o_clock) /\
  (forall a b c d, computed_four_times nine_o_clock = [a; b; c; d] ->
     Datetime.ltb b a = true /\ Datetime.ltb c a = true).
Proof.
  apply (@four_posts_at_nine nine_o_clock).
  - unfold wf, nine_o_clock, MAXORDINAL; cbn; lia.
  - reflexivity.
  - unfold nine_o_clock, MAXORDINAL; cbn; lia.
Defined.


(** C4, as stated, fails: at 09:00 two posts get 08:00 of the next day and
    then 12:30 of the same day, which is earlier. *)
Lemma two_posts_at_nine_decrease :
  ~ post_times_as_claimed nine_o_clock 2.
Proof.
  intros (times & E & _ & _ & _ & Hmono).
  vm_compute in E. injection E as <-.
  specialize (Hmono 0%nat 1%nat _ _ (Nat.le_succ_diag_r 0) eq_refl eq_refl).
  vm_compute in Hmono. discriminate.
Qed.

(** The jitter does not keep the times apart either: at 07:00 the posts of
    index 1 and index 9 both get 12:30 of the same day. *)
Lemma ten_posts_at_seven_collide :
  exists times a,
    calculate_optimal_post_times seven_o_clock 10 = Some times /\
    nth_error times 1 = Some a /\ nth_error times 9 = Some a.
Proof. eexists; eexists; vm_compute; repeat split. Qed.

(** C4 (amended): for every [N >= 0] and every reference time (as long as
    the last slot stays within [datetime]'s range of years) the computation
    returns exactly [N] timestamps, and the timestamp of index [i] is the
    optimal hour [optimal_hours[i mod 3]] of the same day, or of the next
    day when that hour is not after the reference hour, plus [i * 30]
    minutes. *)
Theorem post_times_slots (base_time : datetime) (N : Z) :
  wf base_time -> 0 <= N ->
  ordinal base_time + 2 + N / 48 <= MAXORDINAL ->
  exists times,
    calculate_optimal_post_times base_time N = Some times /\
    Z.of_nat (List.length times) = N /\
    forall i, 0 <= i < N ->
      exists t, nth_error times (Z.to_nat i) = Some t /\ wf t /\
                In (optimal_hour i) optimal_hours /\
                to_microseconds t = slot_us base_time i.
Proof.
  intros Hwf HN Hr.
  destruct (@schedule_loop_some base_time (Z.to_nat N) 0)
    as (times & E & L & Hk); auto; try lia.
  { rewrite Z2Nat.id by lia. exact Hr. }
  exists times. split; [exact E|]. split; [lia|].
  intros i Hi. destruct (Hk (Z.to_nat i)) as (t & Et & Wt & Ut); [lia|].
  exists t. repeat split; auto; try apply Wt.
  - apply optimal_hour_in.
  - rewrite Ut. f_equal. lia.
Qed.

Lemma post_times_slots_witness :
  exists times,
    calculate_optimal_post_times nine_o_clock 4 = Some times /\
    Z.of_nat (List.length times) = 4 /\
    forall i, 0 <= i < 4 ->
      exists t, nth_error times (Z.to_nat i) = Some t /\ wf t /\
                In (optimal_hour i) optimal_hours /\
                to_microseconds t = slot_us nine_o_clock i.
Proof.
  apply (@post_times_slots nine_o_clock 4).
  - unfold wf, nine_o_clock, MAXORDINAL; cbn; lia.
  - lia.
  - unfold nine_o_clock, MAXORDINAL; cbn; lia.
Defined.

(** ** The workflow *)

Section WorkflowFacts.

Variable World : Type.
Variable trend_agent_execute :
  list string -> Z -> World -> agent_result (list trend) * World.
Variable content_agent_execute :
  option Z -> string -> World -> agent_result agent_content * World.
Variable db_schedule_post : Z -> datetime -> World -> db_result * World.
Variable utcnow : World -> datetime * World.
Variable strftime_id : datetime -> string.
Variable isoformat : datetime -> string.
Variable recursion_error_message : string.
Variable str_of_exception : scheduling_exception -> string.

Local Abbreviation tones_loop :=
  (generate_for_tones content_agent_execute).
Local Abbreviation trends_loop :=
  (generate_for_trends content_agent_execute).
Local Abbreviation generate_node :=
  (generate_content_node content_agent_execute).
Local Abbreviation is_fresh :=
  (fresh_candidate content_agent_execute).
Local Abbreviation node_run :=
  (run_node trend_agent_execute content_agent_execute db_schedule_post
            utcnow str_of_exception).
Local Abbreviation graph_run :=
  (run_graph trend_agent_execute content_agent_execute db_schedule_post
             utcnow str_of_exception).
Local Abbreviation run_reaches :=
  (reaches trend_agent_execute content_agent_execute db_schedule_post
           utcnow str_of_exception).
Local Abbreviation invoke :=
  (ainvoke trend_agent_execute content_agent_execute db_schedule_post
           utcnow str_of_exception).
Local Abbreviation daily_run :=
  (run_daily_automation trend_agent_execute content_agent_execute
     db_schedule_post utcnow strftime_id isoformat
     recursion_error_message str_of_exception).

(** *** [generate_content] *)

Lemma generate_for_tones_app trend tones acc w :
  tones_loop trend tones acc w
  = ((acc ++ fst (tones_loop trend tones [] w))%list,
     snd (tones_loop trend tones [] w)).
Proof.
  revert acc w.
  assert (G : forall tones acc0 acc w,
             tones_loop trend tones (acc0 ++ acc)%list w
             = ((acc0 ++ fst (tones_loop trend tones acc w))%list,
                snd (tones_loop trend tones acc w))).
  { induction tones0 as [|tone rest IH]; intros acc0 acc w;
      cbn [generate_for_tones fst snd]; [reflexivity|].
    destruct (content_agent_execute (trend_id trend) tone w) as [[d|e|m] w1];
      try apply IH.
    rewrite <- app_assoc. apply IH. }
  intros acc w. rewrite <- (app_nil_r acc) at 1. apply G.
Qed.

Lemma generate_for_trends_app trends tones acc w :
  trends_loop trends tones acc w
  = ((acc ++ fst (trends_loop trends tones [] w))%list,
     snd (trends_loop trends tones [] w)).
Proof.
  revert acc w. induction trends as [|t rest IH]; intros acc w;
    cbn [generate_for_trends fst snd].
  - now rewrite app_nil_r.
  - rewrite (generate_for_tones_app t tones acc w).
    rewrite (generate_for_tones_app t tones [] w). cbn [app].
    rewrite IH.
    rewrite (IH (fst (tones_loop t tones [] w))).
    cbn [fst snd]. now rewrite app_assoc.
Qed.

Lemma generate_for_tones_fresh trend tones w :
  let l := fst (tones_loop trend tones [] w) in
  (forall c, In c l ->
     c_trend_info c = trend /\ In (c_tone c) tones /\
     c_composite_score c = None /\ c_approved c = None /\
     exists w', fst (content_agent_execute (trend_id trend) (c_tone c) w')
                = AgentSuccess (c_data c)) /\
  (List.length l <= List.length tones)%nat.
Proof.
  revert w. induction tones as [|tone rest IH]; intros w;
    cbn [generate_for_tones fst].
  - split; [intros c []|cbn; lia].
  - destruct (content_agent_execute (trend_id trend) tone w)
      as [r w1] eqn:E.
    assert (Hrest : forall c,
               In c (fst (tones_loop trend rest [] w1)) ->
               c_trend_info c = trend /\ In (c_tone c) (tone :: rest) /\
               c_composite_score c = None /\ c_approved c = None /\
               exists w', fst (content_agent_execute (trend_id trend)
                                 (c_tone c) w') = AgentSuccess (c_data c)).
    { intros c Hc. destruct (IH w1) as [H _].
      destruct (H c Hc) as (A & B & C & D & F).
      repeat split; auto. now right. }
    destruct (IH w1) as [_ Hlen].
    destruct r as [d|e|m]; cbn [app]; try (split; [exact Hrest|cbn; lia]).
    rewrite generate_for_tones_app. cbn [fst]. split.
    + intros c [<-|Hc]; [|now apply Hrest].
      cbn [c_trend_info c_tone c_composite_score c_approved c_data].
      repeat split; auto; [now left|].
      exists w. now rewrite E.
    + cbn [app List.length]. lia.
Qed.

Lemma generate_for_trends_fresh trends tones w :
  let l := fst (trends_loop trends tones [] w) in
  (forall c, In c l -> is_fresh trends tones c) /\
  (List.length l <= List.length trends * List.length tones)%nat.
Proof.
  revert w. induction trends as [|t rest IH]; intros w;
    cbn [generate_for_trends fst].
  - split; [intros c []|cbn; lia].
  - rewrite (surjective_pairing (tones_loop t tones [] w)).
    rewrite generate_for_trends_app. cbn [fst].
    destruct (generate_for_tones_fresh t tones w) as [Ht Lt].
    destruct (IH (snd (tones_loop t tones [] w))) as [Hr Lr].
    split.
    + intros c Hc. apply in_app_or in Hc. destruct Hc as [Hc|Hc].
      * destruct (Ht c Hc) as (A & B & C & D & F).
        unfold fresh_candidate. rewrite A.
        repeat split; auto. now left.
      * destruct (Hr c Hc) as (A & B & C & D & F).
        unfold fresh_candidate. repeat split; auto. now right.
    + rewrite length_app. cbn [List.length]. lia.
Qed.

(** C10: [generate_content] empties [generated_content] before it
  appends: the list it leaves does not depend on the list it found, it
  is the list of this pass alone, each candidate made by one agent call
  for one trend and one tone of the state, at most one per pair; the
  trends are unchanged. *)
Theorem generate_content_node_fresh (w : World)
    (st : LinkedInWorkflowState) :
  let st' := fst (generate_node w st) in
  (forall previous,
     generated_content
       (fst (generate_node w (set_generated_content previous st)))
     = generated_content st') /\
  generated_content st'
  = fst (trends_loop (trends st) (content_tones st) [] w) /\
  (forall c, In c (generated_content st') ->
     is_fresh (trends st) (content_tones st) c) /\
  (List.length (generated_content st')
   <= List.length (trends st) * List.length (content_tones st))%nat /\
  trends st' = trends st.
Proof.
  assert (E : forall st0,
             generated_content (fst (generate_node w st0))
             = fst (trends_loop (trends st0) (content_tones st0)
                                        [] w)).
  { intros st0. unfold generate_content_node.
    cbn [set_current_step set_generated_content trends content_tones
         generated_content].
    destruct (trends_loop (trends st0) (content_tones st0) [] w);
      reflexivity. }
  cbv zeta. split; [|split; [|split; [|split]]].
  - intros previous. now rewrite !E.
  - apply E.
  - intros c H. rewrite E in H. now apply generate_for_trends_fresh in H.
  - rewrite E. apply generate_for_trends_fresh.
  - unfold generate_content_node.
    cbn [set_current_step set_generated_content trends content_tones
         generated_content].
    destruct (trends_loop (trends st) (content_tones st) [] w);
      reflexivity.
Qed.

(** *** The conditional edge after [review_content] *)

Lemma reaches_no_posts n st w :
  run_reaches n st w -> before_scheduling n = true -> published_posts st = [].
Proof.
  induction 1 as [st w H0|n st w st' w' n' Hr IH Hrun Hnext]; intros Hb.
  - exact H0.
  - assert (Hn : before_scheduling n = true).
    { destruct n; try reflexivity; cbn in Hnext.
      - injection Hnext as <-. discriminate Hb.
      - discriminate Hnext. }
    specialize (IH Hn).
    assert (Hp : published_posts st' = published_posts st).
    { destruct n; try discriminate Hn; cbn in Hrun.
      - unfold analyze_trends_node in Hrun.
        destruct (trend_agent_execute _ _ w) as [[data|e|m] w1];
          injection Hrun as <- <-; reflexivity.
      - unfold filter_trends_node in Hrun.
        cbn [set_current_step trends] in Hrun.
        destruct (trends st); injection Hrun as <- <-; reflexivity.
      - unfold generate_content_node in Hrun.
        destruct (generate_for_trends _ _ _ _ _) in Hrun.
        injection Hrun as <- <-; reflexivity.
      - unfold review_content_node in Hrun.
        injection Hrun as <- <-; reflexivity. }
    congruence.
Qed.

Lemma approved_count_pos l :
  (exists c, In c l /\ c_approved c = Some true) ->
  1 <= approved_count l.
Proof.
  intros (c & Hin & Ha). unfold approved_count.
  assert (Hf : In c (filter is_approved l)).
  { apply filter_In. split; auto. unfold is_approved. now rewrite Ha. }
  destruct (filter is_approved l); [destruct Hf|cbn [List.length]; lia].
Qed.

Lemma approved_count_zero l :
  (forall c, In c l -> c_approved c <> Some true) ->
  approved_count l = 0.
Proof.
  intros H. unfold approved_count.
  destruct (filter is_approved l) as [|c r] eqn:E; [reflexivity|].
  assert (Hf : In c (filter is_approved l)) by (rewrite E; now left).
  apply filter_In in Hf. destruct Hf as [Hin Ha].
  exfalso. apply (H c Hin). unfold is_approved in Ha.
  destruct (c_approved c) as [[|]|]; congruence.
Qed.

(** C2 (amended): on the state [review_content] leaves, the next stage is
  [END] when there is no candidate at all; otherwise
  [schedule_posts] when a candidate is approved; otherwise
  [generate_content] when the list holds fewer than 5 candidates;
  otherwise [END].  When the next stage is [END] the run returns that
  state, in which no post is scheduled. *)
Theorem review_decision (st0 : LinkedInWorkflowState) (w0 : World) :
  run_reaches review_content st0 w0 ->
  let st := fst (node_run review_content w0 st0) in
  (generated_content st = [] -> next_node review_content st = None) /\
  (generated_content st <> [] ->
   (exists c, In c (generated_content st) /\ c_approved c = Some true) ->
   next_node review_content st = Some schedule_posts) /\
  (generated_content st <> [] ->
   (forall c, In c (generated_content st) -> c_approved c <> Some true) ->
   (List.length (generated_content st) < 5)%nat ->
   next_node review_content st = Some generate_content) /\
  ((forall c, In c (generated_content st) -> c_approved c <> Some true) ->
   (5 <= List.length (generated_content st))%nat ->
   next_node review_content st = None) /\
  (next_node review_content st = None ->
   published_posts st = [] /\
   forall limit,
     fst (graph_run (S limit) review_content w0 st0) = Some st).
Proof.
  intros Hr st.
  assert (Hp : published_posts st = []).
  { apply reaches_no_posts in Hr; [|reflexivity]. exact Hr. }
  assert (Hlast : next_node review_content st = None ->
            published_posts st = [] /\
            forall limit,
              fst (graph_run (S limit) review_content w0 st0) = Some st).
  { intros Hend. split; [exact Hp|]. intros limit.
    cbn [run_graph run_node].
    unfold review_content_node.
    change (set_generated_content _ _) with st. now rewrite Hend. }
  cbn [next_node]. unfold should_publish_content.
  split; [|split; [|split; [|split]]].
  - intros ->. reflexivity.
  - intros Hne Hex. apply approved_count_pos in Hex.
    destruct (generated_content st) as [|c r] eqn:E; [congruence|].
    destruct (Z.geb_spec (approved_count (c :: r)) 1); [reflexivity|lia].
  - intros Hne Hall Hlen. apply approved_count_zero in Hall.
    destruct (generated_content st) as [|c r] eqn:E; [congruence|].
    rewrite Hall. cbn [Z.geb Z.compare].
    destruct (Z.ltb_spec (Z.of_nat (List.length (c :: r))) 5);
      [reflexivity|lia].
  - intros Hall Hlen. apply approved_count_zero in Hall.
    destruct (generated_content st) as [|c r] eqn:E; [reflexivity|].
    rewrite Hall. cbn [Z.geb Z.compare].
    destruct (Z.ltb_spec (Z.of_nat (List.length (c :: r))) 5);
      [lia|reflexivity].
  - exact Hlast.
Qed.

End WorkflowFacts.

(** C2, as stated, fails: a run without any candidate (here: the trend
    analysis failed) ends at the decision, it does not regenerate. *)
Lemma no_candidate_not_as_claimed :
  reaches Stub.failing_trend_agent Stub.content_agent Stub.db Stub.clock
          Stub.str_of_exception review_content Stub.no_trend_state3 tt /\
  ~ decision_as_claimed
      (fst (Stub.run_node_no_trend review_content tt Stub.no_trend_state3)).
Proof.
  split.
  - eapply reaches_step with (n := generate_content);
      [eapply reaches_step with (n := filter_trends);
       [eapply reaches_step with (n := analyze_trends);
        [apply reaches_start with (st := Stub.state0); reflexivity|..]|..]|..];
      reflexivity.
  - intros (_ & H & _).
    assert (E : next_node review_content
                  (fst (Stub.run_node_no_trend review_content tt
                          Stub.no_trend_state3)) = Some generate_content).
    { apply H; vm_compute; [intros c []|lia]. }
    vm_compute in E. discriminate E.
Qed.

Lemma review_decision_witness :
  let st := fst (Stub.run_node review_content tt Stub.state3) in
  (generated_content st = [] -> next_node review_content st = None) /\
  (generated_content st <> [] ->
   (exists c, In c (generated_content st) /\ c_approved c = Some true) ->
   next_node review_content st = Some schedule_posts) /\
  (generated_content st <> [] ->
   (forall c, In c (generated_content st) -> c_approved c <> Some true) ->
   (List.length (generated_content st) < 5)%nat ->
   next_node review_content st = Some generate_content) /\
  ((forall c, In c (generated_content st) -> c_approved c <> Some true) ->
   (5 <= List.length (generated_content st))%nat ->
   next_node review_content st = None) /\
  (next_node review_content st = None ->
   published_posts st = [] /\
   forall limit,
     fst (Stub.run_graph (S limit) review_content tt Stub.state3) = Some st).
Proof.
  apply (@review_decision unit Stub.trend_agent Stub.content_agent Stub.db
           Stub.clock Stub.str_of_exception Stub.state3 tt).
  eapply reaches_step with (n := generate_content) (st := Stub.state2);
    [eapply reaches_step with (n := filter_trends) (st := Stub.state1);
     [eapply reaches_step with (n := analyze_trends) (st := Stub.state0);
      [apply reaches_start; reflexivity|..]|..]|..];
    reflexivity.
Defined.

(** ** The result of [run_daily_automation] *)

Section RunFacts.

Variable World : Type.
Variable trend_agent_execute :
  list string -> Z -> World -> agent_result (list trend) * World.
Variable content_agent_execute :
  option Z -> string -> World -> agent_result agent_content * World.
Variable db_schedule_post : Z -> datetime -> World -> db_result * World.
Variable utcnow : World -> datetime * World.
Variable strftime_id : datetime -> string.
Variable isoformat : datetime -> string.
Variable recursion_error_message : string.
Variable str_of_exception : scheduling_exception -> string.

Local Abbreviation daily_run :=
  (run_daily_automation trend_agent_execute content_agent_execute
     db_schedule_post utcnow strftime_id isoformat
     recursion_error_message str_of_exception).

Local Abbreviation invoke :=
  (ainvoke trend_agent_execute content_agent_execute db_schedule_post
           utcnow str_of_exception).

(** C8 (amended): [run_daily_automation] always returns a dict, and the
  dict always has a ["success"] flag and a ["workflow_id"].  When the
  graph run ends, the flag is true and the dict has a ["summary"] with
  the entries ["trends_found"], ["content_generated"],
  ["posts_scheduled"] and ["errors"], and the list ["scheduled_posts"].
  When the graph run raises, the flag is false and the dict holds the
  error message and the id of the run only: no ["summary"], no counts,
  no error list. *)
Theorem run_daily_automation_result (w : World) :
  let t1 := fst (utcnow w) in
  let w1 := snd (utcnow w) in
  let t2 := fst (utcnow w1) in
  let w2 := snd (utcnow w1) in
  let run_id := "daily_" ++ strftime_id t1 in
  let r := fst (daily_run w) in
  match fst (invoke (initial_state run_id (isoformat t2)) w2) with
  | Some final_state =>
      get_key "success" r = Some (PyBool true) /\
      has_key "workflow_id" r = true /\
      result_as_claimed r /\
      has_key "scheduled_posts" r = true /\
      has_key "error" r = false
  | None =>
      r = failure_result
            ("Workflow execution failed: " ++ recursion_error_message)
            run_id /\
      get_key "success" r = Some (PyBool false) /\
      get_key "error" r
      = Some (PyStr ("Workflow execution failed: "
                     ++ recursion_error_message)) /\
      get_key "workflow_id" r = Some (PyStr run_id) /\
      has_key "summary" r = false /\
      has_key "scheduled_posts" r = false
  end.
Proof.
  cbv zeta. unfold run_daily_automation.
  destruct (utcnow w) as [t1 w1]. cbn [fst snd].
  destruct (utcnow w1) as [t2 w2]. cbn [fst snd].
  destruct (invoke _ w2) as [[final|] w3]; cbn [fst].
  - unfold result_as_claimed, success_result.
    repeat split. eexists. repeat split.
  - repeat split.
Qed.

End RunFacts.

(** ** A run whose candidates are never approved *)

(** One pass of the loop: with one trend and the two default tones,
    [generate_content] makes two candidates, [review_content] approves
    none, and the edge leads back to [generate_content]. *)
Lemma low_engagement_pass (st : LinkedInWorkflowState) :
  trends st = [Stub.one_trend] ->
  content_tones st = ["professional"; "casual"] ->
  let st' := fst (Stub.run_node review_content tt
                    (fst (Stub.run_node generate_content tt st))) in
  trends st' = [Stub.one_trend] /\
  content_tones st' = ["professional"; "casual"] /\
  List.length (generated_content st') = 2%nat /\
  approved_count (generated_content st') = 0 /\
  next_node review_content st' = Some generate_content.
Proof.
  intros Ht Hc. destruct st; cbn in Ht, Hc; subst.
  repeat split.
Qed.

Lemma low_engagement_loop (limit : nat) :
  forall st,
    trends st = [Stub.one_trend] ->
    content_tones st = ["professional"; "casual"] ->
    fst (Stub.run_graph limit generate_content tt st) = None.
Proof.
  induction limit as [limit IH] using (well_founded_induction lt_wf).
  intros st Ht Hc.
  destruct (low_engagement_pass st Ht Hc) as (Ht' & Hc' & _ & _ & Hn).
  destruct limit as [|[|limit]]; [reflexivity| |];
    unfold Stub.run_graph in *; cbn [run_graph];
    fold Stub.run_node;
    destruct (Stub.run_node generate_content tt st) as [st1 []];
    cbn [next_node fst] in *.
  - reflexivity.
  - destruct (Stub.run_node review_content tt st1) as [st2 []].
    cbn [fst] in *. rewrite Hn. apply IH; auto.
Qed.

(** C1 at the failing input: one trend, the two default tones, a
    generation service that always returns low-engagement content (its
    score by the claimed formula is below 40 as well).  Whatever the step
    limit, the graph never reaches [END]: every pass holds two candidates,
    fewer than the ceiling of 5, so the edge always regenerates.  The run
    is stopped by the recursion limit of 50 and reports a failure, not the
    skip outcome. *)
Theorem low_engagement_run_never_skips :
  (composite_score_of 20 0.1 0.9 <? 40)%float = true /\
  (forall limit,
     fst (Stub.run_graph limit analyze_trends tt Stub.state0) = None) /\
  fst (Stub.run_daily_automation tt)
  = PyDict [("success", PyBool false);
            ("error",
             PyStr "Workflow execution failed: Recursion limit of 50 reached");
            ("workflow_id", PyStr "daily_20261103_090000")].
Proof.
  split; [reflexivity|split; [|vm_compute; reflexivity]].
  intros [|[|limit]]; try reflexivity.
  change (Stub.run_graph (S (S limit)) analyze_trends tt Stub.state0)
    with (Stub.run_graph limit generate_content tt Stub.state2).
  apply low_engagement_loop; reflexivity.
Qed.


(** C8, as stated, fails: the dict of that run has no counts and no error
    list. *)
Lemma failed_run_not_as_claimed :
  ~ result_as_claimed (fst (Stub.run_daily_automation tt)).
Proof.
  intros (_ & summary & E & _). vm_compute in E. discriminate E.
Qed.

(** ** ContentReviewer *)

(** What [_review_content_node] writes on a candidate. *)
Lemma review_one_spec (c : content) :
  c_composite_score (review_one c) = Some (review_composite_score c) /\
  c_approved (review_one c) = Some (40 <=? review_composite_score c)%float /\
  c_data (review_one c) = c_data c /\
  c_trend_info (review_one c) = c_trend_info c /\
  c_tone (review_one c) = c_tone c.
Proof. repeat split. Qed.

(** The threshold: a score of exactly 40 is approved, 39.999 is not. *)
Lemma approval_boundary :
  (40 <=? 40)%float = true /\ (40 <=? 39.999)%float = false.
Proof. split; reflexivity. Qed.

(** For a candidate made by [ContentCreationAgent] the reviewer reads no
    metrics at all: the ["post"] dict has no ["quality_metrics"] key, so
    readability and engagement count as 0 whatever the candidate's own
    metrics are. *)
Lemma review_ignores_agent_metrics (id : Z) (text : string)
    (hashtags : list string) (metrics : quality_metrics) (t : trend)
    (tone : string) (score : option float) (approved : option bool) :
  let c := mk_content (execute_logic id text hashtags metrics) t tone
                      score approved in
  review_composite_score c
  = composite_score_of 0 0 (get_or_zero (trend_relevance_score t)).
Proof. reflexivity. Qed.

(** C5 at the failing input: a candidate of the agent with readability 60
    and engagement 0.8 on a trend of relevance 0.9.  Its own scores give
    a composite score of 77, which is approved; the reviewer writes 27 and
    rejects it. *)
Theorem review_good_candidate :
  composite_score_of 60 0.8 0.9 = 77%float /\
  (40 <=? composite_score_of 60 0.8 0.9)%float = true /\
  qm_readability_score (ac_quality_metrics (c_data Stub.good_candidate))
  = Some 60%float /\
  qm_engagement_score (ac_quality_metrics (c_data Stub.good_candidate))
  = Some 0.8%float /\
  trend_relevance_score (c_trend_info Stub.good_candidate)
  = Some 0.9%float /\
  c_composite_score (review_one Stub.good_candidate) = Some 27%float /\
  c_approved (review_one Stub.good_candidate) = Some false.
Proof. repeat split. Qed.

(** ** ScoringUtils: the two weighted sums *)

Lemma positive_finite_consts :
  positive_finite 0.3 /\ positive_finite 0.4 /\ positive_finite 0.7 /\
  positive_finite 100 /\ positive_finite 5.
Proof. repeat split; eexists; eexists; reflexivity. Qed.

Lemma SFdiv_core_nonneg (m1 : positive) (e1 : Z) (m2 : positive) (e2 : Z) :
  0 <= fst (fst (SFdiv_core_binary prec emax (Zpos m1) e1 (Zpos m2) e2)).
Proof.
  unfold SFdiv_core_binary.
  set (s := _ - _ - _).
  set (m' := match s with Z0 => _ | Zpos _ => _ | Zneg _ => _ end).
  assert (Hm : 0 <= m').
  { unfold m'. destruct s; try lia. apply Z.shiftl_nonneg. lia. }
  pose proof (Z_div_mod m' (Zpos m2) ltac:(lia)) as H.
  destruct (Z.div_eucl m' (Zpos m2)) as [q r]. cbn [fst]. nia.
Qed.

Lemma float_div_nonneg (x c : float) :
  nonneg x -> positive_finite c -> nonneg (x / c)%float.
Proof.
  rewrite !nonneg_iff. intros Hx (mc & ec & Ec).
  pose proof (Prim2SF_valid (x / c)) as V. revert V.
  rewrite div_spec, Ec. unfold SF64div.
  destruct (Prim2SF x) as [s|[|]| |[|] mx ex]; cbn [nonneg_sf] in Hx;
    try tauto; try (intros _; exact I).
  cbn [SFdiv xorb].
  pose proof (SFdiv_core_nonneg mx ex mc ec) as Hq.
  destruct (SFdiv_core_binary prec emax (Zpos mx) ex (Zpos mc) ec)
    as [[mz ez] lz]. cbn [fst] in Hq.
  pose proof (binary_round_aux_sign false ez lz Hq) as Hs.
  destruct (binary_round_aux prec emax false mz ez lz) as [s|s| |s m e];
    try tauto; subst s; cbn; auto.
Qed.

Lemma float_of_int_nonneg (n : Z) : 0 <= n -> nonneg (float_of_int n).
Proof.
  intros H. apply nonneg_iff. unfold float_of_int.
  pose proof (binary_normalize_nonneg H) as N.
  rewrite Prim2SF_SF2Prim; [exact N|]. now apply nonneg_sf_valid.
Qed.

(** [min(count / 5, 1.0)] lies between 0 and 1 for every count
    [count >= 0]. *)
Lemma mention_share_range (count : Z) :
  0 <= count ->
  nonneg (py_min (int_true_div count 5) 1) /\
  (py_min (int_true_div count 5) 1 <=? 1)%float = true.
Proof.
  intros H. unfold py_min, int_true_div.
  assert (Hd : nonneg (float_of_int count / float_of_int 5)%float).
  { apply float_div_nonneg; [now apply float_of_int_nonneg|].
    apply positive_finite_consts. }
  destruct (1 <? float_of_int count / float_of_int 5)%float eqn:E.
  - split; reflexivity.
  - split; [exact Hd|]. apply float_not_ltb; auto. reflexivity.
Qed.

(** The final score of a relevance in [[0, 1]] and a non-negative count
    lies in [[0, 1]]. *)
Lemma final_score_bounds (r : float) (m : Z) :
  nonneg r -> (r <=? 1)%float = true -> 0 <= m ->
  nonneg (final_score r m) /\ (final_score r m <=? 1)%float = true.
Proof.
  intros H0 H1 Hm.
  destruct positive_finite_consts as (C3 & C4 & C7 & C100 & C5).
  destruct (mention_share_range Hm) as [T0 T1].
  unfold final_score.
  set (t := py_min (int_true_div m 5) 1) in *.
  split.
  - apply float_add_nonneg; now apply float_mul_nonneg.
  - assert (A : (r * 0.7 <=? 0.7)%float = true)
      by (change 0.7%float with (1 * 0.7)%float at 2;
          now apply float_mul_mono).
    assert (B : (t * 0.3 <=? 0.3)%float = true)
      by (change 0.3%float with (1 * 0.3)%float at 2;
          now apply float_mul_mono).
    apply float_leb_trans with (0.7 + t * 0.3)%float.
    + apply float_add_mono_l; auto; now apply float_mul_nonneg.
    + change 1%float with (0.7 + 0.3)%float.
      apply float_add_mono_r; auto; try reflexivity.
      now apply float_mul_nonneg.
Qed.

(** C7: for every relevance [r] in [[0, 1]] and every mention count
    [m >= 0] the final score of [_rank_trends] is
    [0.7*r + 0.3*min(m/5, 1.0)], and it lies in [[0, 1]]. *)
Theorem final_score_blend (r : float) (m : Z) :
  (0 <=? r)%float = true -> (r <=? 1)%float = true -> 0 <= m ->
  final_score r m = blendRelevance r m /\
  (0 <=? final_score r m)%float = true /\
  (final_score r m <=? 1)%float = true.
Proof.
  intros H0 H1 Hm. split.
  - unfold final_score, blendRelevance.
    now rewrite (float_mul_comm r 0.7),
      (float_mul_comm (py_min (int_true_div m 5) 1) 0.3).
  - now apply final_score_bounds.
Qed.

Lemma final_score_blend_witness :
  final_score 0.9 5 = blendRelevance 0.9 5 /\
  (0 <=? final_score 0.9 5)%float = true /\
  (final_score 0.9 5 <=? 1)%float = true.
Proof.
  apply (@final_score_blend 0.9%float 5); [reflexivity|reflexivity|lia].
Defined.

(** C9: the composite score is monotonically non-decreasing in each of
    its three inputs, the other two held fixed, on the non-negative
    floats (which contain the ranges [[0, 100]] and [[0, 1]] of the
    inputs). *)
Theorem composite_score_monotone (r r' e e' t t' : float) :
  (0 <=? r)%float = true -> (0 <=? e)%float = true ->
  (0 <=? t)%float = true ->
  (r <=? r')%float = true -> (e <=? e')%float = true ->
  (t <=? t')%float = true ->
  (composite_score_of r e t <=? composite_score_of r' e t)%float = true /\
  (composite_score_of r e t <=? composite_score_of r e' t)%float = true /\
  (composite_score_of r e t <=? composite_score_of r e t')%float = true.
Proof.
  intros Hr He Ht Lr Le Lt.
  destruct positive_finite_consts as (C3 & C4 & C7 & C100 & C5).
  unfold composite_score_of.
  assert (Nr : nonneg (r * 0.3)%float) by now apply float_mul_nonneg.
  assert (Ne : nonneg (e * 100 * 0.4)%float)
    by (apply float_mul_nonneg; auto; now apply float_mul_nonneg).
  assert (Nt : nonneg (t * 100 * 0.3)%float)
    by (apply float_mul_nonneg; auto; now apply float_mul_nonneg).
  split; [|split].
  - apply float_add_mono_l; auto.
    + now apply float_add_nonneg.
    + apply float_add_mono_l; auto. now apply float_mul_mono.
  - apply float_add_mono_l; auto.
    + now apply float_add_nonneg.
    + apply float_add_mono_r; auto.
      apply float_mul_mono; auto.
      * now apply float_mul_nonneg.
      * now apply float_mul_mono.
  - apply float_add_mono_r; auto.
    + now apply float_add_nonneg.
    + apply float_mul_mono; auto.
      * now apply float_mul_nonneg.
      * now apply float_mul_mono.
Qed.

Lemma composite_score_monotone_witness :
  (composite_score_of 50 0.5 0.5 <=? composite_score_of 60 0.5 0.5)%float
  = true /\
  (composite_score_of 50 0.5 0.5 <=? composite_score_of 50 0.6 0.5)%float
  = true /\
  (composite_score_of 50 0.5 0.5 <=? composite_score_of 50 0.5 0.9)%float
  = true.
Proof.
  apply (@composite_score_monotone 50 60 0.5 0.6 0.5 0.9)%float;
    reflexivity.
Defined.

(** ** TrendRanker *)

(** The relevance the ranker keeps lies in [[0, 1]], whatever the reply:
    a NaN or an infinity is clamped as well. *)
Lemma clamp_relevance_range (x : float) :
  nonneg (clamp_relevance x) /\ (clamp_relevance x <=? 1)%float = true.
Proof.
  unfold clamp_relevance, py_max, py_min.
  destruct (x <? 1)%float eqn:E1.
  - destruct (0 <? x)%float eqn:E0.
    + split; now apply float_ltb_leb.
    + split; reflexivity.
  - split; reflexivity.
Qed.

Section SortFacts.

Variable A : Type.
Variable key : A -> float.

Local Abbreviation descending := (descending key).

Lemma insert_desc_perm (x : A) (l : list A) :
  Permutation (insert_desc key x l) (x :: l).
Proof.
  induction l as [|y r IH]; cbn [insert_desc]; [reflexivity|].
  destruct (key x <? key y)%float; [|reflexivity].
  rewrite IH. apply perm_swap.
Qed.

Lemma sort_desc_perm (l : list A) : Permutation (sort_desc key l) l.
Proof.
  induction l as [|x r IH]; cbn [sort_desc fold_right]; [reflexivity|].
  fold (sort_desc key r). rewrite insert_desc_perm. now constructor.
Qed.

Lemma insert_desc_sorted (x : A) (l : list A) :
  nonneg (key x) -> Forall (fun a => nonneg (key a)) l ->
  StronglySorted descending l ->
  StronglySorted descending (insert_desc key x l).
Proof.
  intros Hx Hl Hs. induction Hs as [|y r Hs IH Hy]; cbn [insert_desc].
  - repeat constructor.
  - inversion Hl as [|? ? Ny Nr]; subst.
    destruct (key x <? key y)%float eqn:E.
    + constructor; [now apply IH|].
      apply Forall_forall. intros a Ha.
      apply (Permutation_in _ (insert_desc_perm x r)) in Ha.
      destruct Ha as [<-|Ha].
      * unfold descending. now apply float_ltb_leb.
      * rewrite Forall_forall in Hy. now apply Hy.
    + assert (Hxy : descending x y)
        by (unfold descending; now apply float_not_ltb).
      constructor; [now constructor|].
      constructor; [exact Hxy|].
      apply Forall_forall. intros a Ha. rewrite Forall_forall in Hy.
      unfold descending in *. apply float_leb_trans with (key y); auto.
Qed.

Lemma sort_desc_sorted (l : list A) :
  Forall (fun a => nonneg (key a)) l ->
  StronglySorted descending (sort_desc key l).
Proof.
  induction 1 as [|x r Hx Hr IH]; cbn [sort_desc fold_right].
  - constructor.
  - fold (sort_desc key r). apply insert_desc_sorted; auto.
    apply Forall_forall. intros a Ha.
    apply (Permutation_in _ (sort_desc_perm r)) in Ha.
    rewrite Forall_forall in Hr. now apply Hr.
Qed.

Lemma firstn_incl (n : nat) (l : list A) (a : A) :
  In a (firstn n l) -> In a l.
Proof.
  intros H. rewrite <- (firstn_skipn n l). apply in_or_app. now left.
Qed.

Lemma firstn_NoDup (n : nat) (l : list A) : NoDup l -> NoDup (firstn n l).
Proof.
  intros H. rewrite <- (firstn_skipn n l) in H.
  now apply NoDup_app_remove_r in H.
Qed.

Lemma firstn_sorted (R : A -> A -> Prop) (n : nat) (l : list A) :
  StronglySorted R l -> StronglySorted R (firstn n l).
Proof.
  intros H. revert n. induction H as [|x r Hs IH Hx]; intros [|n];
    cbn [firstn]; try constructor; auto.
  apply Forall_forall. intros a Ha. rewrite Forall_forall in Hx.
  apply Hx. eapply firstn_incl. exact Ha.
Qed.

End SortFacts.

(** Dicts in insertion order. *)

Lemma dict_get_none (V : Type) (k : string) (d : dict V) :
  dict_get k d = None -> ~ In k (dict_keys d).
Proof.
  induction d as [|[k' v] r IH]; cbn [dict_get dict_keys map fst In].
  - tauto.
  - destruct (String.eqb_spec k k') as [->|Hne]; [discriminate|].
    intros H [E|Hin]; [congruence|]. now apply IH.
Qed.

Lemma dict_get_set (V : Type) (k' k : string) (v : V) (d : dict V) :
  dict_get k' (dict_set k v d)
  = if String.eqb k' k then Some v else dict_get k' d.
Proof.
  induction d as [|[k0 v0] r IH]; cbn [dict_get dict_set].
  - reflexivity.
  - destruct (String.eqb_spec k k0) as [->|Hne]; cbn [dict_get].
    + destruct (String.eqb_spec k' k0); reflexivity.
    + rewrite IH. destruct (String.eqb_spec k' k0) as [->|];
        [|reflexivity].
      destruct (String.eqb_spec k0 k); [congruence|reflexivity].
Qed.

Lemma dict_keys_set (V : Type) (k : string) (v : V) (d : dict V) :
  dict_keys (dict_set k v d)
  = match dict_get k d with
    | Some _ => dict_keys d
    | None => (dict_keys d ++ [k])%list
    end.
Proof.
  induction d as [|[k0 v0] r IH]; cbn [dict_get dict_set dict_keys map fst].
  - reflexivity.
  - destruct (String.eqb_spec k k0) as [->|Hne];
      cbn [dict_keys map fst]; [reflexivity|].
    unfold dict_keys in IH. rewrite IH.
    destruct (dict_get k r); reflexivity.
Qed.

Lemma dict_set_in (V : Type) (k : string) (v : V) (d : dict V)
    (k' : string) (v' : V) :
  In (k', v') (dict_set k v d) -> (k' = k /\ v' = v) \/ In (k', v') d.
Proof.
  induction d as [|[k0 v0] r IH]; cbn [dict_set In].
  - intros [E|[]]. left. now inversion E.
  - destruct (String.eqb_spec k k0) as [->|Hne]; cbn [In].
    + intros [E|H]; [left; now inversion E|right; now right].
    + intros [E|H]; [right; now left|].
      destruct (IH H) as [?|?]; [now left|right; now right].
Qed.

Lemma dict_get_in (V : Type) (k : string) (v : V) (d : dict V) :
  dict_get k d = Some v -> In (k, v) d.
Proof.
  induction d as [|[k0 v0] r IH]; cbn [dict_get In]; [discriminate|].
  destruct (String.eqb_spec k k0) as [->|Hne].
  - intros E. left. congruence.
  - intros E. right. now apply IH.
Qed.

Section TrendRankerFacts.

Variable World : Type.
Variable lower : string -> string.
Variable generate_text : string -> World -> option string * World.
Variable float_of_reply : string -> option float.

Local Abbreviation counting := (count_topics lower).
Local Abbreviation ranking_loop := (rank_loop generate_text float_of_reply).
Local Abbreviation ranking_step := (rank_topic generate_text float_of_reply).
Local Abbreviation ranking := (rank_trends lower generate_text float_of_reply).

Local Abbreviation counted := (counted lower).

Lemma count_topics_counted (topics : list topic_info) :
  forall counter topic_counts topic_data,
    counted topic_counts topic_data ->
    counted (fst (counting topics counter topic_counts topic_data))
            (snd (counting topics counter topic_counts topic_data)).
Proof.
  induction topics as [|info rest IH]; intros counter tc td H;
    cbn [count_topics fst snd]; [exact H|].
  destruct (counter >=? 10); [exact H|].
  set (topic := lower (ti_topic info)).
  destruct H as (Hnd & Hpos & Hdata).
  destruct (dict_get topic tc) as [c|] eqn:G.
  - rewrite G. apply IH. split; [|split]; auto.
    + rewrite dict_keys_set, G. exact Hnd.
    + intros k c' Hin. apply dict_set_in in Hin.
      destruct Hin as [[_ ->]|Hin]; [|eauto].
      apply dict_get_in in G. apply Hpos in G. lia.
  - rewrite dict_get_set, String.eqb_refl.
    apply IH. split; [|split].
    + rewrite dict_keys_set, dict_get_set, String.eqb_refl.
      rewrite dict_keys_set, G.
      apply NoDup_app; auto.
      * repeat constructor. intros [].
      * intros k Hk [<-|[]]. now apply dict_get_none in G.
    + intros k c' Hin. apply dict_set_in in Hin.
      destruct Hin as [[_ ->]|Hin]; [lia|].
      apply dict_set_in in Hin. destruct Hin as [[_ ->]|Hin]; [lia|eauto].
    + intros k info'. rewrite dict_get_set.
      destruct (String.eqb_spec k topic) as [->|Hne]; [|now apply Hdata].
      intros E. injection E as <-. reflexivity.
Qed.

Lemma rank_topic_spec (topic_data : dict topic_info) (topic : string)
    (count : Z) (w : World) (t : ranked_trend) :
  (forall k info, dict_get k topic_data = Some info ->
                  lower (ti_topic info) = k) ->
  0 <= count ->
  fst (ranking_step topic_data topic count w) = Some t ->
  trend_key lower t = topic /\ nonneg (rt_relevance_score t) /\
  (rt_relevance_score t <=? 1)%float = true /\ rt_mention_count t = count.
Proof.
  intros Hdata Hc. unfold rank_topic.
  destruct (generate_text (relevance_prompt topic) w) as [[reply|] w1];
    cbn [fst]; [|discriminate].
  set (r := match float_of_reply reply with
            | Some r => clamp_relevance r
            | None => 0.5%float
            end).
  assert (Hr : nonneg r /\ (r <=? 1)%float = true).
  { unfold r. destruct (float_of_reply reply) as [x|].
    - apply clamp_relevance_range.
    - split; reflexivity. }
  destruct (dict_get topic topic_data) as [info|] eqn:G; cbn [fst];
    [|discriminate].
  intros E. injection E as <-.
  cbn [rt_relevance_score rt_mention_count].
  destruct Hr as [Hr0 Hr1].
  destruct (final_score_bounds Hr0 Hr1 Hc) as [F0 F1].
  unfold trend_key. cbn [rt_info]. repeat split; auto.
Qed.

Lemma rank_loop_spec (topic_data : dict topic_info) (items : dict Z) :
  (forall k info, dict_get k topic_data = Some info ->
                  lower (ti_topic info) = k) ->
  (forall k c, In (k, c) items -> 0 <= c) ->
  NoDup (dict_keys items) ->
  forall w,
    let ranked := fst (ranking_loop topic_data items w) in
    NoDup (map (trend_key lower) ranked) /\
    forall t, In t ranked ->
      In (trend_key lower t) (dict_keys items) /\
      nonneg (rt_relevance_score t).
Proof.
  intros Hdata. induction items as [|[topic count] rest IH];
    intros Hpos Hnd w; cbn [rank_loop fst].
  - split; [constructor|intros t []].
  - cbn [dict_keys map fst] in Hnd. inversion Hnd as [|? ? Hnotin Hnd']; subst.
    pose proof (@rank_topic_spec topic_data topic count w) as Hstep.
    destruct (ranking_step topic_data topic count w) as [r w1].
    cbn [fst] in Hstep.
    destruct (IH (fun k c H => Hpos k c (or_intror H)) Hnd' w1)
      as [IHnd IHin].
    destruct (ranking_loop topic_data rest w1) as [ranked w2].
    cbn [fst] in *.
    destruct r as [t|].
    + destruct (Hstep t Hdata (Hpos topic count (or_introl eq_refl))
                  eq_refl) as (Hk & Hn & _).
      split.
      * cbn [map]. constructor; [|exact IHnd].
        rewrite Hk. intros Hin. apply in_map_iff in Hin.
        destruct Hin as (t' & Ek & Hin').
        apply IHin in Hin'. destruct Hin' as [Hin' _].
        rewrite Ek in Hin'. contradiction.
      * intros t' [<-|Hin].
        -- split; [left; now rewrite Hk|exact Hn].
        -- destruct (IHin t' Hin) as [A B]. split; [now right|exact B].
    + split; [exact IHnd|].
      intros t' Hin. destruct (IHin t' Hin) as [A B].
      split; [now right|exact B].
Qed.

(** C6: for every list of mentions and every limit the ranker can be
  called with, it returns at most [limit] trends, in descending order of
  the final score, no two of which have the same lower-cased topic.  The
  one call of [_rank_trends] is behind [_validate_input], which admits
  [1 <= limit <= 50]; the property holds for every [limit >= 0]. *)
Theorem rank_trends_ranked (topics : list topic_info) (limit : Z)
    (w : World) :
  0 <= limit ->
  ranking_as_claimed lower (fst (ranking topics limit w)) limit.
Proof.
  intros Hl. unfold rank_trends.
  pose proof (@count_topics_counted topics 0 [] []) as Hc.
  destruct (counting topics 0 [] []) as [topic_counts topic_data].
  cbn [fst snd] in Hc.
  destruct Hc as (Hnd & Hpos & Hdata).
  { split; [constructor|split]; [intros k c []|intros k info H; discriminate H]. }
  destruct (@rank_loop_spec topic_data topic_counts Hdata Hpos Hnd w)
    as [Rnd Rin].
  destruct (ranking_loop topic_data topic_counts w) as [ranked w1].
  cbn [fst] in *. unfold py_slice_to.
  destruct (Z.ltb_spec limit 0) as [|_]; [lia|].
  pose proof (sort_desc_perm rt_relevance_score ranked) as P.
  split; [|split].
  - pose proof (firstn_le_length (Z.to_nat limit)
                  (sort_desc rt_relevance_score ranked)). lia.
  - apply firstn_sorted. apply sort_desc_sorted.
    apply Forall_forall. intros t Ht. now apply Rin.
  - rewrite <- firstn_map. apply firstn_NoDup.
    apply (Permutation_NoDup (l := map (trend_key lower) ranked));
      [|exact Rnd].
    apply Permutation_map. now symmetry.
Qed.

End TrendRankerFacts.

Lemma rank_trends_ranked_witness :
  ranking_as_claimed Stub.lower (Stub.ranking 2) 2.
Proof.
  apply (@rank_trends_ranked nat Stub.lower Stub.generate_text
           Stub.float_of_reply Stub.mentions 2 0%nat).
  lia.
Defined.

(** ** Numbers and the stable sort *)

Lemma is_number_not_nan (x : float) :
  is_number x <-> Prim2SF x <> S754_nan.
Proof.
  unfold is_number, is_nan. rewrite eqb_spec. unfold SFeqb, SFcompare.
  destruct (Prim2SF x) as [s|[|]| |[|] m e]; cbn;
    try (split; [discriminate|reflexivity]);
    try (split; [intros _; discriminate|reflexivity]);
    try (split; [discriminate|congruence]).
  all: rewrite Z.compare_refl, Pos.compare_cont_refl; cbn;
    split; [discriminate|reflexivity].
Qed.

Lemma float_not_ltb_number (x y : float) :
  is_number x -> is_number y -> (x <? y)%float = false ->
  (y <=? x)%float = true.
Proof.
  rewrite !is_number_not_nan, ltb_spec, leb_spec.
  apply SFltb_false_SFleb.
Qed.

Lemma nonneg_is_number (x : float) : nonneg x -> is_number x.
Proof.
  rewrite nonneg_iff, is_number_not_nan. apply nonneg_sf_not_nan.
Qed.

Section SortNumbers.

Variable A : Type.
Variable key : A -> float.

Local Abbreviation in_order := (descending key).

Lemma insert_desc_numbers (x : A) (l : list A) :
  is_number (key x) -> Forall (fun a => is_number (key a)) l ->
  StronglySorted in_order l ->
  StronglySorted in_order (insert_desc key x l).
Proof.
  intros Hx Hl Hs. induction Hs as [|y r Hs IH Hy]; cbn [insert_desc].
  - repeat constructor.
  - inversion Hl as [|? ? Ny Nr]; subst.
    destruct (key x <? key y)%float eqn:E.
    + constructor; [now apply IH|].
      apply Forall_forall. intros a Ha.
      apply (Permutation_in _ (insert_desc_perm key x r)) in Ha.
      destruct Ha as [<-|Ha].
      * unfold descending. now apply float_ltb_leb.
      * rewrite Forall_forall in Hy. now apply Hy.
    + assert (Hxy : in_order x y)
        by (unfold descending; now apply float_not_ltb_number).
      constructor; [now constructor|].
      constructor; [exact Hxy|].
      apply Forall_forall. intros a Ha. rewrite Forall_forall in Hy.
      unfold descending in *. apply float_leb_trans with (key y); auto.
Qed.

Lemma sort_desc_numbers (l : list A) :
  Forall (fun a => is_number (key a)) l ->
  StronglySorted in_order (sort_desc key l).
Proof.
  induction 1 as [|x r Hx Hr IH]; cbn [sort_desc fold_right].
  - constructor.
  - fold (sort_desc key r). apply insert_desc_numbers; auto.
    apply Forall_forall. intros a Ha.
    apply (Permutation_in _ (sort_desc_perm key r)) in Ha.
    rewrite Forall_forall in Hr. now apply Hr.
Qed.

(** In a sorted list every element of a prefix is in order with every
    element of the rest. *)
Lemma sorted_app_order (R : A -> A -> Prop) (l1 l2 : list A) :
  StronglySorted R (l1 ++ l2) ->
  forall a b, In a l1 -> In b l2 -> R a b.
Proof.
  induction l1 as [|x r IH]; cbn [app]; intros H a b Ha Hb; [destruct Ha|].
  inversion H as [|? ? Hs Hx]; subst.
  destruct Ha as [<-|Ha].
  - rewrite Forall_forall in Hx. apply Hx. apply in_or_app. now right.
  - now apply IH.
Qed.

Lemma sorted_nth_order (R : A -> A -> Prop) (l : list A) :
  StronglySorted R l ->
  forall i j a b, (i < j)%nat -> nth_error l i = Some a ->
                  nth_error l j = Some b -> R a b.
Proof.
  induction 1 as [|x r Hs IH Hx]; intros i j a b Hij Ha Hb.
  - destruct i; discriminate Ha.
  - destruct j as [|j]; [lia|]. cbn [nth_error] in Hb.
    destruct i as [|i]; cbn [nth_error] in Ha.
    + injection Ha as <-. rewrite Forall_forall in Hx. apply Hx.
      eapply nth_error_In. exact Hb.
    + apply (IH i j); auto. lia.
Qed.

End SortNumbers.

(** ** [_filter_trends_node] *)

(** X1: the filter keeps the [max_posts_per_day] most relevant trends: the
    kept trends are in descending order of relevance, none of the dropped
    trends is more relevant than a kept one, and no trend is invented or
    lost otherwise. The error list is left alone. *)
Theorem filter_trends_node_top (World : Type) (w : World)
    (st : LinkedInWorkflowState) :
  0 <= max_posts_per_day st ->
  Forall (fun t => is_number (relevance_key t)) (trends st) ->
  let st' := fst (filter_trends_node w st) in
  exists dropped,
    Permutation (trends st' ++ dropped) (trends st) /\
    Z.of_nat (List.length (trends st'))
    = Z.min (max_posts_per_day st) (Z.of_nat (List.length (trends st))) /\
    StronglySorted (descending relevance_key) (trends st') /\
    (forall kept d, In kept (trends st') -> In d dropped ->
       (relevance_key d <=? relevance_key kept)%float = true) /\
    errors st' = errors st /\ snd (filter_trends_node w st) = w.
Proof.
  intros Hmax Hnum st'. subst st'. unfold filter_trends_node.
  cbn [trends set_current_step max_posts_per_day].
  destruct (trends st) as [|t0 r] eqn:Et.
  - exists []. cbn [fst snd trends set_current_step errors app List.length].
    rewrite Et, Z.min_r by (cbn; lia).
    split; [apply perm_nil|]. split; [reflexivity|].
    split; [constructor|]. split; [intros kept d []|]. split; reflexivity.
  - rewrite <- Et in *. clear Et t0 r.
    set (sorted := sort_desc relevance_key (trends st)).
    assert (Hs : StronglySorted (descending relevance_key) sorted)
      by now apply sort_desc_numbers.
    assert (Hp : Permutation sorted (trends st)) by apply sort_desc_perm.
    unfold py_slice_to. destruct (Z.ltb_spec (max_posts_per_day st) 0); [lia|].
    set (k := Z.to_nat (max_posts_per_day st)).
    exists (skipn k sorted). cbn [fst snd trends set_trends errors set_current_step].
    rewrite firstn_skipn. repeat split; auto.
    + rewrite length_firstn. rewrite <- (Permutation_length Hp). lia.
    + now apply firstn_sorted.
    + intros kept d Hk Hd.
      apply (@sorted_app_order _ (descending relevance_key)
               (firstn k sorted) (skipn k sorted)); auto.
      now rewrite firstn_skipn.
Qed.

Lemma filter_trends_node_top_witness :
  let st := Example.five_trends_state in
  let st' := fst (filter_trends_node tt st) in
  max_posts_per_day st = 3 /\
  map trend_id (trends st)
  = [Some 1; Some 2; Some 3; Some 4; Some 5] /\
  map trend_id (trends st') = [Some 2; Some 4; Some 1] /\
  exists dropped,
    Permutation (trends st' ++ dropped) (trends st) /\
    Z.of_nat (List.length (trends st'))
    = Z.min (max_posts_per_day st) (Z.of_nat (List.length (trends st))) /\
    StronglySorted (descending relevance_key) (trends st') /\
    (forall kept d, In kept (trends st') -> In d dropped ->
       (relevance_key d <=? relevance_key kept)%float = true) /\
    errors st' = errors st /\
    snd (filter_trends_node tt st) = tt.
Proof.
  cbv zeta. split; [reflexivity|]. split; [reflexivity|].
  split; [reflexivity|].
  apply (@filter_trends_node_top unit tt Example.five_trends_state).
  - vm_compute. discriminate.
  - repeat constructor.
Defined.

(** ** [_review_content_node] *)

Lemma review_one_key (c : content) :
  composite_key (review_one c) = review_composite_score c.
Proof. reflexivity. Qed.

Lemma review_one_approved (c : content) :
  is_approved (review_one c) = (40 <=? review_composite_score c)%float.
Proof. reflexivity. Qed.

(** X2: the review keeps every candidate, annotated, and orders the list by
    descending composite score; so the approved candidates come first. *)
Theorem review_content_node_order (World : Type) (w : World)
    (st : LinkedInWorkflowState) :
  Forall (fun c => is_number (review_composite_score c))
         (generated_content st) ->
  let l := generated_content (fst (review_content_node w st)) in
  Permutation l (map review_one (generated_content st)) /\
  StronglySorted (descending composite_key) l /\
  forall i j a b, (i <= j)%nat -> nth_error l i = Some a ->
    nth_error l j = Some b -> is_approved b = true -> is_approved a = true.
Proof.
  intros Hnum l. subst l. unfold review_content_node, review_content_list.
  cbn [fst generated_content set_generated_content set_current_step].
  set (reviewed := map review_one (generated_content st)).
  assert (Hp : Permutation (sort_desc composite_key reviewed) reviewed)
    by apply sort_desc_perm.
  assert (Hs : StronglySorted (descending composite_key)
                 (sort_desc composite_key reviewed)).
  { apply sort_desc_numbers. unfold reviewed. apply Forall_forall.
    intros c Hc. apply in_map_iff in Hc. destruct Hc as (c0 & <- & Hc0).
    rewrite review_one_key. rewrite Forall_forall in Hnum. now apply Hnum. }
  split; [exact Hp|]. split; [exact Hs|].
  intros i j a b Hij Ha Hb Hap.
  destruct (Nat.eq_dec i j) as [->|Hne]; [congruence|].
  assert (Hab : descending composite_key a b)
    by (apply (sorted_nth_order Hs) with i j; auto; lia).
  assert (Ina : In a reviewed)
    by (apply (Permutation_in _ Hp); eapply nth_error_In; eauto).
  assert (Inb : In b reviewed)
    by (apply (Permutation_in _ Hp); eapply nth_error_In; eauto).
  unfold reviewed in Ina, Inb. apply in_map_iff in Ina, Inb.
  destruct Ina as (a0 & <- & _), Inb as (b0 & <- & _).
  rewrite review_one_approved in *. unfold descending in Hab.
  rewrite !review_one_key in Hab.
  now apply float_leb_trans with (review_composite_score b0).
Qed.

Lemma review_content_node_order_witness :
  let l := generated_content (fst (review_content_node tt Stub.state3)) in
  Permutation l (map review_one (generated_content Stub.state3)) /\
  StronglySorted (descending composite_key) l /\
  forall i j a b, (i <= j)%nat -> nth_error l i = Some a ->
    nth_error l j = Some b -> is_approved b = true -> is_approved a = true.
Proof.
  apply (@review_content_node_order unit tt Stub.state3).
  repeat constructor.
Defined.

(** ** [_schedule_posts_node] *)

(** The loop of [_calculate_optimal_post_times] computes the time of each
    index with the body of the loop. *)
Lemma schedule_loop_nth (base_time : datetime) (n : nat) :
  forall i times, schedule_loop base_time i n = Some times ->
  List.length times = n /\
  forall k t, nth_error times k = Some t ->
    schedule_time base_time (i + Z.of_nat k) = Some t.
Proof.
  induction n as [|n IH]; intros i times; cbn [schedule_loop].
  - intros E. injection E as <-. split; [reflexivity|].
    intros [|k] t E; discriminate E.
  - destruct (schedule_time base_time i) as [t0|] eqn:E0; cbn [bind];
      [|discriminate].
    destruct (schedule_loop base_time (i + 1) n) as [rest|] eqn:Er;
      cbn [bind]; [|discriminate].
    intros E. injection E as <-. destruct (IH _ _ Er) as [L H].
    split; [cbn [List.length]; congruence|].
    intros [|k] t; cbn [nth_error].
    + intros E. injection E as <-. now rewrite Z.add_0_r.
    + intros E. apply H in E. rewrite <- E. f_equal. lia.
Qed.

Section SchedulingFacts.

Variable World : Type.
Variable db_schedule_post : Z -> datetime -> World -> db_result * World.
Variable utcnow : World -> datetime * World.
Variable str_of_exception : scheduling_exception -> string.

Local Abbreviation posts_loop := (schedule_loop_posts db_schedule_post).
Local Abbreviation scheduling :=
  (schedule_posts_node db_schedule_post utcnow str_of_exception).

(** What [_schedule_posts_node] records for the candidate [c] at the
    time [t]. *)
Local Abbreviation recorded c t :=
  (mk_published_post (post_id (ac_post (c_data c))) t
     (substring 0 100 (post_content (ac_post (c_data c))) ++ "...")).

Lemma schedule_loop_posts_spec (posts : list content) :
  forall times bound published w out,
    fst (posts_loop posts times bound published w) = Some out ->
    exists new,
      out = (published ++ new)%list /\
      (List.length new <= List.length posts)%nat /\
      forall p, In p new ->
        exists k c t, nth_error posts k = Some c /\
                      nth_error times k = Some t /\ p = recorded c t.
Proof.
  induction posts as [|c posts IH]; intros times bound published w out.
  - cbn [schedule_loop_posts fst]. intros E. injection E as <-.
    exists []. rewrite app_nil_r. split; [reflexivity|].
    split; [cbn; lia|intros p []].
  - destruct times as [|t times].
    { cbn [schedule_loop_posts fst]. intros E. injection E as <-.
      exists []. rewrite app_nil_r. split; [reflexivity|].
      split; [cbn; lia|intros p []]. }
    cbn [schedule_loop_posts].
    destruct (db_schedule_post (post_id (ac_post (c_data c))) t w)
      as [r w1].
    assert (Hskip : forall b,
      fst (posts_loop posts times b published w1) = Some out ->
      exists new,
        out = (published ++ new)%list /\
        (List.length new <= List.length (c :: posts))%nat /\
        forall p, In p new ->
          exists k c' t', nth_error (c :: posts) k = Some c' /\
                          nth_error (t :: times) k = Some t' /\
                          p = recorded c' t').
    { intros b E. destruct (IH _ _ _ _ _ E) as (new & -> & L & H).
      exists new. split; [reflexivity|]. split; [cbn [List.length]; lia|].
      intros p Hp. destruct (H p Hp) as (k & c' & t' & A & B & C).
      exists (S k), c', t'. auto. }
    destruct r.
    + destruct bound; [apply Hskip|cbn [fst]; discriminate].
    + intros E. destruct (IH _ _ _ _ _ E) as (new & -> & L & H).
      exists (recorded c t :: new). rewrite <- app_assoc. cbn [app].
      split; [reflexivity|]. split; [cbn [List.length]; lia|].
      intros p [<-|Hp].
      * exists 0%nat, c, t. auto.
      * destruct (H p Hp) as (k & c' & t' & A & B & C).
        exists (S k), c', t'. auto.
    + apply Hskip.
    + apply Hskip.
Qed.

Lemma nth_error_lt (A : Type) (l : list A) (k : nat) (a : A) :
  nth_error l k = Some a -> (k < List.length l)%nat.
Proof. intros E. apply nth_error_Some. congruence. Qed.

(** [l[:stop]] for [stop >= 0] is a prefix of at most [stop] elements. *)
Lemma py_slice_to_prefix (A : Type) (l : list A) (stop : Z) :
  0 <= stop ->
  Z.of_nat (List.length (py_slice_to l stop)) <= stop /\
  forall k a, nth_error (py_slice_to l stop) k = Some a ->
              nth_error l k = Some a.
Proof.
  intros H. unfold py_slice_to. destruct (Z.ltb_spec stop 0); [lia|].
  split.
  - rewrite length_firstn. lia.
  - intros k a E.
    assert (Hk : (k < Z.to_nat stop)%nat).
    { apply nth_error_lt in E. rewrite length_firstn in E. lia. }
    now rewrite nth_error_firstn, (proj2 (Nat.ltb_lt _ _) Hk) in E.
Qed.

(** X3: the scheduling node records at most [max_posts_per_day] posts, each
    one for an approved candidate, with the time the scheduler computed for
    its index and a preview of at most 100 characters followed by three
    dots. The posts already recorded are kept. After the node
    [posts_published] is the number of recorded posts, unless the node
    failed, in which case it recorded nothing and appended an error. *)
Theorem schedule_posts_node_records (w : World)
    (st : LinkedInWorkflowState) :
  0 <= max_posts_per_day st ->
  let st' := fst (scheduling w st) in
  exists new,
    published_posts st' = (published_posts st ++ new)%list /\
    Z.of_nat (List.length new) <= max_posts_per_day st /\
    (forall p, In p new ->
       exists c i,
         In c (generated_content st) /\ is_approved c = true /\
         0 <= i < max_posts_per_day st /\
         schedule_time (fst (utcnow w)) i = Some (pp_scheduled_at p) /\
         pp_post_id p = post_id (ac_post (c_data c)) /\
         pp_content_preview p
         = substring 0 100 (post_content (ac_post (c_data c))) ++ "...") /\
    (posts_published st' = Z.of_nat (List.length (published_posts st')) \/
     (new = [] /\ posts_published st' = posts_published st /\
      exists msg, errors st' = (errors st ++ [msg])%list)) /\
    generated_content st' = generated_content st.
Proof.
  intros Hmax st'. subst st'. unfold schedule_posts_node.
  cbn [generated_content max_posts_per_day set_current_step
       published_posts].
  set (approved := filter is_approved (generated_content st)).
  set (posts := py_slice_to approved (max_posts_per_day st)).
  destruct (py_slice_to_prefix approved Hmax) as [Hlen Hnth].
  fold posts in Hlen, Hnth.
  destruct (utcnow w) as [base_time w1]. cbn [fst].
  destruct (calculate_optimal_post_times base_time
              (Z.of_nat (List.length posts))) as [times|] eqn:Et.
  - pose proof (@schedule_loop_posts_spec posts times false
                  (published_posts st) w1) as Hloop.
    destruct (posts_loop posts times false (published_posts st) w1)
      as [[out|] w2]; cbn [fst] in *.
    + destruct (Hloop out eq_refl) as (new & -> & L & H).
      exists new. split; [reflexivity|]. split; [lia|].
      split; [|split; [left; reflexivity|reflexivity]].
      intros p Hp. destruct (H p Hp) as (k & c & t & A & B & ->).
      unfold calculate_optimal_post_times in Et.
      destruct (schedule_loop_nth _ _ _ Et) as [_ Hk].
      apply Hk in B. cbn [Z.add] in B.
      assert (Hkl : (k < List.length posts)%nat)
        by (apply nth_error_lt in A; exact A).
      apply Hnth in A. apply nth_error_In in A.
      unfold approved in A. apply filter_In in A. destruct A as [A1 A2].
      exists c, (Z.of_nat k). cbn [pp_scheduled_at pp_post_id
                                   pp_content_preview].
      repeat split; auto; lia.
    + exists []. rewrite app_nil_r. cbn [List.length].
      split; [reflexivity|]. split; [lia|]. split; [intros p []|].
      split; [|reflexivity]. right. split; [reflexivity|].
      split; [reflexivity|]. eexists. reflexivity.
  - exists []. rewrite app_nil_r. cbn [List.length].
    split; [reflexivity|]. split; [lia|]. split; [intros p []|].
    split; [|reflexivity]. right. split; [reflexivity|].
      split; [reflexivity|]. eexists. reflexivity.
Qed.

End SchedulingFacts.

Lemma schedule_posts_node_records_witness :
  let st := Example.approved_state in
  let st' := fst (schedule_posts_node Stub.db Stub.clock
                    Stub.str_of_exception tt st) in
  exists new,
    published_posts st' = (published_posts st ++ new)%list /\
    Z.of_nat (List.length new) <= max_posts_per_day st /\
    (forall p, In p new ->
       exists c i,
         In c (generated_content st) /\ is_approved c = true /\
         0 <= i < max_posts_per_day st /\
         schedule_time (fst (Stub.clock tt)) i = Some (pp_scheduled_at p) /\
         pp_post_id p = post_id (ac_post (c_data c)) /\
         pp_content_preview p
         = substring 0 100 (post_content (ac_post (c_data c))) ++ "...") /\
    (posts_published st' = Z.of_nat (List.length (published_posts st')) \/
     (new = [] /\ posts_published st' = posts_published st /\
      exists msg, errors st' = (errors st ++ [msg])%list)) /\
    generated_content st' = generated_content st.
Proof.
  apply (@schedule_posts_node_records unit Stub.db Stub.clock
           Stub.str_of_exception tt Example.approved_state).
  vm_compute. discriminate.
Defined.

(** ** [_calculate_optimal_post_times]: every time lies ahead *)

Lemma slot_after_now (base_time : datetime) (i : Z) :
  wf base_time -> 0 <= i ->
  to_microseconds base_time < slot_us base_time i.
Proof.
  intros Hwf Hi. unfold slot_us, rolls, to_microseconds, wf in *.
  destruct (optimal_hour_cases i) as [[_ E]|[[_ E]|[_ E]]]; rewrite E;
    match goal with
    | |- context [?a >=? ?b] => destruct (Z.geb_spec a b)
    end; lia.
Qed.

(** X4: whatever the reference time, every computed publish time is strictly
    later than it: no post is scheduled in the past. For [num_posts <= 0]
    the list is empty. *)
Theorem post_times_after_now (base_time : datetime) (N : Z) :
  wf base_time ->
  ordinal base_time + 2 + N / 48 <= MAXORDINAL ->
  exists times,
    calculate_optimal_post_times base_time N = Some times /\
    List.length times = Z.to_nat N /\
    Forall (fun t => Datetime.ltb base_time t = true) times.
Proof.
  intros Hwf Hr. unfold calculate_optimal_post_times.
  destruct (Z.le_gt_cases N 0) as [Hn|Hn].
  - replace (Z.to_nat N) with 0%nat by lia. exists [].
    cbn [schedule_loop List.length]. repeat split; constructor.
  - destruct (@schedule_loop_some base_time (Z.to_nat N) 0)
      as (times & E & L & Hk); auto; try lia.
    { rewrite Z2Nat.id by lia. exact Hr. }
    exists times. split; [exact E|]. split; [exact L|].
    apply Forall_forall. intros t Ht. apply In_nth_error in Ht.
    destruct Ht as [k Ek].
    assert (Hlt : (k < Z.to_nat N)%nat)
      by (rewrite <- L; now apply nth_error_lt with t).
    destruct (Hk k Hlt) as (t' & Et' & _ & Ut).
    rewrite Ek in Et'. injection Et' as <-.
    unfold Datetime.ltb. apply Z.ltb_lt. rewrite Ut.
    apply slot_after_now; auto. lia.
Qed.

Lemma post_times_after_now_witness :
  exists times,
    calculate_optimal_post_times nine_o_clock 4 = Some times /\
    List.length times = Z.to_nat 4 /\
    Forall (fun t => Datetime.ltb nine_o_clock t = true) times.
Proof.
  apply (@post_times_after_now nine_o_clock 4).
  - unfold wf, nine_o_clock, MAXORDINAL; cbn; lia.
  - unfold nine_o_clock, MAXORDINAL; cbn; lia.
Defined.

(** ** The review of a candidate of the content agent *)

Lemma unapproved_rejected (c : content) :
  unapproved c ->
  (review_composite_score c <=? 30)%float = true /\
  c_approved (review_one c) = Some false.
Proof.
  intros [Hq [H0 H1]].
  destruct positive_finite_consts as (C3 & _ & _ & C100 & _).
  set (t := get_or_zero (trend_relevance_score (c_trend_info c))) in *.
  assert (E : review_composite_score c = (0 + t * 100 * 0.3)%float).
  { unfold review_composite_score, review_quality_metrics.
    rewrite Hq. reflexivity. }
  assert (A : (t * 100 <=? 100)%float = true).
  { change 100%float with (1 * 100)%float at 2.
    now apply float_mul_mono. }
  assert (B : (t * 100 * 0.3 <=? 100 * 0.3)%float = true).
  { apply float_mul_mono; auto. now apply float_mul_nonneg. }
  assert (D : (0 + t * 100 * 0.3 <=? 30)%float = true).
  { change 30%float with (0 + 100 * 0.3)%float.
    apply float_add_mono_r; auto; [reflexivity|].
    apply float_mul_nonneg; auto. now apply float_mul_nonneg. }
  rewrite E. split; [exact D|].
  cbn [review_one c_approved]. rewrite E. f_equal.
  destruct (40 <=? 0 + t * 100 * 0.3)%float eqn:F; [|reflexivity].
  pose proof (float_leb_trans F D) as G. discriminate G.
Qed.

(** X5: the ["post"] dict the content agent stores has no
    ["quality_metrics"] key, so the reviewer scores a candidate of the agent
    on the relevance of its trend alone: with a relevance in [[0, 1]] the
    composite score is at most 30, below the threshold of 40, and the
    candidate is never approved, whatever its own readability and
    engagement. *)
Theorem stored_post_never_approved (id : Z) (text : string)
    (hashtags : list string) (metrics : quality_metrics) (t : trend)
    (tone : string) :
  relevance_in_range t ->
  let c := mk_content (execute_logic id text hashtags metrics) t tone
                      None None in
  (review_composite_score c <=? 30)%float = true /\
  c_approved (review_one c) = Some false.
Proof.
  intros Ht c. apply unapproved_rejected. split; [reflexivity|exact Ht].
Qed.

Lemma stored_post_never_approved_witness :
  let c := mk_content (execute_logic 7 "A post." ["#AI"] Stub.good_metrics)
                      Stub.one_trend "professional" None None in
  (review_composite_score c <=? 30)%float = true /\
  c_approved (review_one c) = Some false.
Proof.
  apply (@stored_post_never_approved 7 "A post." ["#AI"] Stub.good_metrics
           Stub.one_trend "professional").
  split; reflexivity.
Defined.

(** ** What a run of the graph keeps *)

Lemma same_run_refl (st : LinkedInWorkflowState) : same_run st st.
Proof.
  unfold same_run. repeat split; auto; exists []; now rewrite app_nil_r.
Qed.

Lemma same_run_trans (a b c : LinkedInWorkflowState) :
  same_run a b -> same_run b c -> same_run a c.
Proof.
  unfold same_run.
  intros (A1 & A2 & A3 & A4 & A5 & A6 & A7 & A8 & (e1 & A9) & (p1 & A10))
         (B1 & B2 & B3 & B4 & B5 & B6 & B7 & B8 & (e2 & B9) & (p2 & B10)).
  repeat split; try congruence.
  - exists (e1 ++ e2)%list. now rewrite B9, A9, app_assoc.
  - exists (p1 ++ p2)%list. now rewrite B10, A10, app_assoc.
Qed.

Ltac same_run_fields :=
  unfold same_run;
  cbn [sources max_trends max_posts_per_day content_tones workflow_id
       started_at trends_found content_generated errors published_posts
       set_current_step set_trends set_generated_content
       set_published_posts set_posts_published append_error];
  repeat split; try reflexivity;
  try (exists []; now rewrite app_nil_r);
  try (eexists; reflexivity).

Section RunInvariants.

Variable World : Type.
Variable trend_agent_execute :
  list string -> Z -> World -> agent_result (list trend) * World.
Variable content_agent_execute :
  option Z -> string -> World -> agent_result agent_content * World.
Variable db_schedule_post : Z -> datetime -> World -> db_result * World.
Variable utcnow : World -> datetime * World.
Variable strftime_id : datetime -> string.
Variable isoformat : datetime -> string.
Variable recursion_error_message : string.
Variable str_of_exception : scheduling_exception -> string.

Local Abbreviation step :=
  (run_node trend_agent_execute content_agent_execute db_schedule_post
            utcnow str_of_exception).
Local Abbreviation steps :=
  (run_graph trend_agent_execute content_agent_execute db_schedule_post
             utcnow str_of_exception).
Local Abbreviation whole_run :=
  (ainvoke trend_agent_execute content_agent_execute db_schedule_post
           utcnow str_of_exception).
Local Abbreviation daily :=
  (run_daily_automation trend_agent_execute content_agent_execute
     db_schedule_post utcnow strftime_id isoformat
     recursion_error_message str_of_exception).

Lemma run_graph_step (limit : nat) (n : node) (w : World)
    (st : LinkedInWorkflowState) :
  steps (S limit) n w st
  = let '(st1, w1) := step n w st in
    match next_node n st1 with
    | None => (Some st1, w1)
    | Some n' => steps limit n' w1 st1
    end.
Proof. reflexivity. Qed.

Lemma run_node_same_run (n : node) (w : World)
    (st : LinkedInWorkflowState) :
  same_run st (fst (step n w st)).
Proof.
  destruct n; cbn [run_node].
  - unfold analyze_trends_node.
    cbn [sources max_trends set_current_step].
    destruct (trend_agent_execute (sources st) (max_trends st) w)
      as [[data|error|msg] w1]; cbn [fst]; same_run_fields.
  - unfold filter_trends_node. cbn [trends set_current_step].
    destruct (trends st); cbn [fst]; same_run_fields.
  - unfold generate_content_node.
    destruct (generate_for_trends _ _ _ _ _) as [generated w1].
    cbn [fst]. same_run_fields.
  - unfold review_content_node. cbn [fst]. same_run_fields.
  - unfold schedule_posts_node.
    destruct (utcnow w) as [base_time w1].
    destruct (calculate_optimal_post_times _ _) as [times|];
      [|cbn [fst]; same_run_fields].
    match goal with
    | |- context [schedule_loop_posts ?d ?p ?t ?b ?pub ?w] =>
        pose proof (@schedule_loop_posts_spec World d p t b pub w) as H;
        destruct (schedule_loop_posts d p t b pub w) as [[out|] w2]
    end; cbn [fst] in *; [|same_run_fields].
    destruct (H out eq_refl) as (new & -> & _).
    cbn [published_posts set_current_step]. same_run_fields.
  - unfold monitor_engagement_node. cbn [fst]. same_run_fields.
Qed.

Lemma run_graph_same_run (limit : nat) :
  forall n w st final,
    fst (steps limit n w st) = Some final -> same_run st final.
Proof.
  induction limit as [|limit IH]; intros n w st final;
    cbn [run_graph fst]; [discriminate|].
  pose proof (run_node_same_run n w st) as H1.
  destruct (step n w st) as [st1 w1]. cbn [fst] in H1.
  destruct (next_node n st1) as [n'|].
  - intros E. apply IH in E. now apply same_run_trans with st1.
  - cbn [fst]. intros E. injection E as <-. exact H1.
Qed.

(** X6: a run of the graph that ends, from any node and state, leaves the
    input parameters, [workflow_id] and [started_at] as they were; it never
    assigns the counters [trends_found] and [content_generated], which keep
    their initial values; and it only appends to [errors] and to
    [published_posts]. *)
Theorem run_graph_keeps_parameters (limit : nat) (n : node) (w : World)
    (st : LinkedInWorkflowState) :
  match fst (steps limit n w st) with
  | Some final => same_run st final
  | None => True
  end.
Proof.
  destruct (fst (steps limit n w st)) as [final|] eqn:E; [|exact I].
  now apply run_graph_same_run with limit n w.
Qed.

(** X7: on a run that ends, [run_daily_automation] returns the same dict
    whatever the graph did: [ainvoke] returns a [dict], on which every
    [getattr(final_state, name, default)] falls to its default.  The
    final state still holds the id of the run, ["daily_"] followed by the
    time of the first clock reading, but the dict says ["unknown"], counts
    0 and lists nothing; the id is reported only when the graph raised. *)
Theorem ended_run_reports_defaults (w : World) :
  let t1 := fst (utcnow w) in
  let w1 := snd (utcnow w) in
  let t2 := fst (utcnow w1) in
  let w2 := snd (utcnow w1) in
  let run_id := "daily_" ++ strftime_id t1 in
  match fst (whole_run (initial_state run_id (isoformat t2)) w2) with
  | Some out =>
      (exists final, out = StateDict final /\ workflow_id final = run_id) /\
      fst (daily w) = default_result
  | None =>
      get_key "workflow_id" (fst (daily w)) = Some (PyStr run_id)
  end.
Proof.
  cbv zeta. unfold run_daily_automation, ainvoke.
  destruct (utcnow w) as [t1 w1]. cbn [fst snd].
  destruct (utcnow w1) as [t2 w2]. cbn [fst snd].
  pose proof (@run_graph_same_run (Nat.pred recursion_limit)
                analyze_trends w2
                (initial_state ("daily_" ++ strftime_id t1)
                               (isoformat t2))) as H.
  destruct (steps (Nat.pred recursion_limit) analyze_trends w2 _)
    as [[final|] w3]; cbn [fst option_map] in *.
  - destruct (H final eq_refl) as (_ & _ & _ & _ & Hid & _).
    split; [|reflexivity]. exists final. split; [reflexivity|exact Hid].
  - reflexivity.
Qed.

(** *** A run without trends *)

(** X8: when the trend analysis fails, raises or finds nothing, the graph
    ends at the first review decision: it generates no content and calls
    neither the content agent nor the database.  The final state holds
    the message of the analysis node in [errors]; the dict the caller
    gets does not: it is the default one, with [success] true and an
    empty error list. *)
Theorem run_without_trends (w w1 w2 w3 : World) (t1 t2 : datetime)
    (r : agent_result (list trend)) :
  utcnow w = (t1, w1) -> utcnow w1 = (t2, w2) ->
  trend_agent_execute ["techcrunch"] 5 w2 = (r, w3) ->
  (forall t l, r <> AgentSuccess (t :: l)) ->
  exists final,
    whole_run (initial_state ("daily_" ++ strftime_id t1) (isoformat t2)) w2
    = (Some (StateDict final), w3) /\
    trends final = [] /\ generated_content final = [] /\
    published_posts final = [] /\
    errors final = analysis_errors r /\
    daily w = (default_result, w3).
Proof.
  intros E1 E2 E3 Hr.
  exists (mk_state ["techcrunch"] 5 3 ["professional"; "casual"] [] [] []
            ("daily_" ++ strftime_id t1) (isoformat t2)
            "reviewing_content" (analysis_errors r) 0 0 0).
  assert (E : whole_run (initial_state ("daily_" ++ strftime_id t1)
                                       (isoformat t2)) w2
              = (Some (StateDict
                   (mk_state ["techcrunch"] 5 3 ["professional"; "casual"]
                      [] [] [] ("daily_" ++ strftime_id t1) (isoformat t2)
                      "reviewing_content" (analysis_errors r) 0 0 0)),
                 w3)).
  { unfold ainvoke. change (Nat.pred recursion_limit) with (S 48).
    rewrite run_graph_step. cbn [run_node]. unfold analyze_trends_node.
    cbn [initial_state sources max_trends set_current_step].
    rewrite E3.
    destruct r as [[|t l]|error|msg]; try (now destruct (Hr t l));
      reflexivity. }
  split; [exact E|]. cbn [trends generated_content published_posts errors].
  repeat split.
  unfold run_daily_automation. rewrite E1, E2, E. reflexivity.
Qed.

(** *** A run with the content agent's candidates *)

Lemma unapproved_review (l : list content) :
  Forall unapproved l ->
  Forall unapproved (review_content_list l) /\
  approved_count (review_content_list l) = 0.
Proof.
  intros H. unfold review_content_list.
  pose proof (sort_desc_perm composite_key (map review_one l)) as P.
  rewrite Forall_forall in H. split.
  - apply Forall_forall. intros c Hc. apply (Permutation_in _ P) in Hc.
    apply in_map_iff in Hc. destruct Hc as (c0 & <- & Hc0).
    exact (H c0 Hc0).
  - apply approved_count_zero. intros c Hc.
    apply (Permutation_in _ P) in Hc.
    apply in_map_iff in Hc. destruct Hc as (c0 & <- & Hc0).
    destruct (H c0 Hc0) as [Hq Hr].
    destruct (unapproved_rejected (conj Hq Hr)) as [_ E].
    rewrite E. discriminate.
Qed.

Section NothingApproved.

Hypothesis stored_posts :
  forall id tone w data,
    fst (content_agent_execute id tone w) = AgentSuccess data ->
    exists post_id text hashtags metrics,
      data = execute_logic post_id text hashtags metrics.

Hypothesis ranked_trends :
  forall s l w data,
    fst (trend_agent_execute s l w) = AgentSuccess data ->
    Forall relevance_in_range data.

Lemma nothing_approved_step (n n' : node) (w : World)
    (st : LinkedInWorkflowState) :
  nothing_approved n st ->
  next_node n (fst (step n w st)) = Some n' ->
  nothing_approved n' (fst (step n w st)).
Proof.
  intros (Hb & Hp & Ht & Hg).
  destruct n; try discriminate Hb; cbn [run_node].
  - unfold analyze_trends_node.
    cbn [sources max_trends set_current_step].
    pose proof (ranked_trends (sources st) (max_trends st) w) as Hr.
    destruct (trend_agent_execute (sources st) (max_trends st) w)
      as [[data|error|msg] w1]; cbn [fst next_node] in *;
      intros E; injection E as <-; repeat split; auto;
      try now apply Hr.
  - unfold filter_trends_node. cbn [trends set_current_step].
    destruct (trends st) as [|t0 r] eqn:Et; cbn [fst next_node];
      intros E; injection E as <-; repeat split; auto.
    + cbn [trends set_current_step]. now rewrite Et.
    + cbn [trends set_trends]. rewrite <- Et in *.
      apply Forall_forall. intros t Hin.
      assert (Hs : In t (sort_desc relevance_key (trends st))).
      { unfold py_slice_to in Hin.
        destruct (_ <? 0); now apply firstn_incl in Hin. }
      apply (Permutation_in _ (sort_desc_perm relevance_key _)) in Hs.
      rewrite Forall_forall in Ht. now apply Ht.
  - unfold generate_content_node.
    cbn [set_current_step set_generated_content trends content_tones
         generated_content].
    destruct (generate_for_trends_fresh content_agent_execute
                (trends st) (content_tones st) w) as [Hf _].
    destruct (generate_for_trends content_agent_execute (trends st)
                (content_tones st) [] w) as [generated w1].
    cbn [fst next_node] in *. intros E. injection E as <-.
    repeat split; auto. cbn [generated_content set_generated_content].
    apply Forall_forall. intros c Hc.
    destruct (Hf c Hc) as (A & _ & _ & _ & (w' & B)). split.
    + apply stored_posts in B.
      destruct B as (i & text & tags & metrics & ->). reflexivity.
    + rewrite Forall_forall in Ht. now apply Ht.
  - unfold review_content_node.
    cbn [fst next_node generated_content set_generated_content
         set_current_step].
    destruct (unapproved_review Hg) as [Hg' Hz].
    unfold should_publish_content.
    cbn [generated_content set_generated_content].
    destruct (review_content_list (generated_content st)) as [|c0 r] eqn:El;
      [discriminate|].
    rewrite Hz. cbn [Z.geb Z.compare].
    destruct (_ <? 5); [|discriminate].
    intros E. injection E as <-. repeat split; auto.
Qed.

Lemma nothing_approved_run (limit : nat) :
  forall n w st final,
    nothing_approved n st ->
    fst (steps limit n w st) = Some final -> published_posts final = [].
Proof.
  induction limit as [|limit IH]; intros n w st final Hinv;
    [discriminate|].
  rewrite run_graph_step.
  pose proof (@nothing_approved_step n) as Hstep.
  specialize (fun n' => Hstep n' w st Hinv).
  assert (Hp : published_posts (fst (step n w st)) = []).
  { destruct Hinv as (Hb & Hp & _).
    destruct (run_node_same_run n w st)
      as (_ & _ & _ & _ & _ & _ & _ & _ & _ & (ps & Eps)).
    destruct n; try discriminate Hb; cbn [run_node] in *.
    - unfold analyze_trends_node.
      destruct (trend_agent_execute _ _ w) as [[data|e|m] w1]; exact Hp.
    - unfold filter_trends_node. cbn [set_current_step trends].
      destruct (trends st); exact Hp.
    - unfold generate_content_node.
      destruct (generate_for_trends _ _ _ _ _). exact Hp.
    - exact Hp. }
  destruct (step n w st) as [st1 w1]. cbn [fst] in *.
  destruct (next_node n st1) as [n'|].
  - intros E. apply (IH n' w1 st1); auto.
  - cbn [fst]. intros E. injection E as <-. exact Hp.
Qed.

End NothingApproved.

Lemma graph_run_nothing_scheduled (workflow_id started_at : string)
    (w w' : World) (out : state_value) :
  (forall id tone w0 data,
     fst (content_agent_execute id tone w0) = AgentSuccess data ->
     exists post_id text hashtags metrics,
       data = execute_logic post_id text hashtags metrics) ->
  (forall s l w0 data,
     fst (trend_agent_execute s l w0) = AgentSuccess data ->
     Forall relevance_in_range data) ->
  whole_run (initial_state workflow_id started_at) w = (Some out, w') ->
  exists final, out = StateDict final /\ published_posts final = [].
Proof.
  intros Hs Ht. unfold ainvoke.
  pose proof (@nothing_approved_run Hs Ht (Nat.pred recursion_limit)
                analyze_trends w
                (initial_state workflow_id started_at)) as H.
  destruct (steps (Nat.pred recursion_limit) analyze_trends w _)
    as [[final|] w3]; cbn [fst option_map] in *; [|discriminate].
  intros E. injection E as <- _. exists final. split; [reflexivity|].
  apply H; [repeat split; constructor|reflexivity].
Qed.

(** X9: when the content agent returns what [_execute_logic] builds (a
    ["post"] dict without ["quality_metrics"]) and the trend agent returns
    trends of relevance in [[0, 1]], no run of the graph ever schedules a
    post: whenever [ainvoke] returns, [published_posts] is still empty in
    the final state, however many trends were found and candidates
    generated. *)
Theorem run_schedules_nothing (workflow_id started_at : string)
    (w w' : World) (out : state_value) :
  (forall id tone w0 data,
     fst (content_agent_execute id tone w0) = AgentSuccess data ->
     exists post_id text hashtags metrics,
       data = execute_logic post_id text hashtags metrics) ->
  (forall s l w0 data,
     fst (trend_agent_execute s l w0) = AgentSuccess data ->
     Forall relevance_in_range data) ->
  whole_run (initial_state workflow_id started_at) w = (Some out, w') ->
  exists final, out = StateDict final /\ published_posts final = [].
Proof. apply graph_run_nothing_scheduled. Qed.

End RunInvariants.

Lemma run_without_trends_witness :
  exists final,
    ainvoke Stub.failing_trend_agent Stub.content_agent Stub.db Stub.clock
      Stub.str_of_exception
      (initial_state ("daily_" ++ Stub.strftime_id nine_o_clock)
                     (Stub.isoformat nine_o_clock)) tt
    = (Some (StateDict final), tt) /\
    trends final = [] /\ generated_content final = [] /\
    published_posts final = [] /\
    errors final
    = ["Trend analysis failed: No recent articles found"] /\
    run_daily_automation Stub.failing_trend_agent Stub.content_agent
      Stub.db Stub.clock Stub.strftime_id Stub.isoformat
      "Recursion limit of 50 reached" Stub.str_of_exception tt
    = (default_result, tt).
Proof.
  apply (@run_without_trends unit Stub.failing_trend_agent
           Stub.content_agent Stub.db Stub.clock Stub.strftime_id
           Stub.isoformat "Recursion limit of 50 reached"
           Stub.str_of_exception tt tt tt tt nine_o_clock nine_o_clock
           (AgentFailure (Some "No recent articles found")));
    try reflexivity.
  intros t l. discriminate.
Defined.

Lemma run_schedules_nothing_witness :
  exists final,
    ainvoke Example.three_trends_agent Example.good_content_agent Stub.db
      Stub.clock Stub.str_of_exception Stub.state0 tt
    = (Some (StateDict final), tt) /\
    List.length (trends final) = 3%nat /\
    List.length (generated_content final) = 6%nat /\
    published_posts final = [].
Proof.
  assert (E : ainvoke Example.three_trends_agent Example.good_content_agent
                Stub.db Stub.clock Stub.str_of_exception Stub.state0 tt
              = (Some (StateDict Example.six_candidates_state), tt))
    by (vm_compute; reflexivity).
  destruct (@run_schedules_nothing unit Example.three_trends_agent
              Example.good_content_agent Stub.db Stub.clock
              Stub.str_of_exception "daily_20261103_090000"
              "2026-11-03T09:00:00" tt tt
              (StateDict Example.six_candidates_state))
    as (final & Ef & Hp).
  - intros id tone w0 data H. injection H as <-.
    exists 7, "A post.", ["#AI"], Stub.good_metrics. reflexivity.
  - intros s l w0 data H. injection H as <-.
    repeat constructor.
  - exact E.
  - exists final. injection Ef as <-.
    split; [exact E|]. split; [reflexivity|]. split; [reflexivity|exact Hp].
Defined.

(** ** The counting loop of [_rank_trends] *)

Section CountingFacts.

Variable World : Type.
Variable lower : string -> string.
Variable generate_text : string -> World -> option string * World.
Variable float_of_reply : string -> option float.

Local Abbreviation count_loop := (count_topics lower).
Local Abbreviation score_loop := (rank_loop generate_text float_of_reply).
Local Abbreviation score_topic := (rank_topic generate_text float_of_reply).
Local Abbreviation ranker := (rank_trends lower generate_text float_of_reply).
Local Abbreviation mentions := (mentions_of lower).
Local Abbreviation describes_seen := (counts_mentions lower).

Lemma mentions_of_app (k : string) (l1 l2 : list topic_info) :
  mentions k (l1 ++ l2) = (mentions k l1 ++ mentions k l2)%list.
Proof. apply filter_app. Qed.

(** Once the counter has reached 10 the loop stops. *)
Lemma count_topics_full (topics : list topic_info) (counter : Z)
    (topic_counts : dict Z) (topic_data : dict topic_info) :
  10 <= counter ->
  count_loop topics counter topic_counts topic_data
  = (topic_counts, topic_data).
Proof.
  intros H. destruct topics as [|info rest]; cbn [count_topics];
    [reflexivity|].
  destruct (Z.geb_spec counter 10); [reflexivity|lia].
Qed.

(** Only the mentions the counter lets through are read. *)
Lemma count_topics_firstn (topics : list topic_info) :
  forall counter topic_counts topic_data,
    0 <= counter <= 10 ->
    count_loop topics counter topic_counts topic_data
    = count_loop (firstn (Z.to_nat (10 - counter)) topics) counter
                 topic_counts topic_data.
Proof.
  induction topics as [|info rest IH]; intros counter tc td Hc.
  - now rewrite firstn_nil.
  - destruct (Z.eq_dec counter 10) as [->|Hne].
    + cbn [Z.sub Z.to_nat Z.add Z.opp Z.pos_sub firstn].
      now rewrite !count_topics_full by lia.
    + replace (Z.to_nat (10 - counter))
        with (S (Z.to_nat (10 - (counter + 1)))) by lia.
      cbn [firstn count_topics].
      destruct (Z.geb_spec counter 10); [lia|].
      destruct (dict_get (lower (ti_topic info)) tc);
        match goal with
        | |- context [match ?x with Some _ => _ | None => _ end] =>
            destruct x
        end; apply IH; lia.
Qed.

Lemma count_topics_describes (topics : list topic_info) :
  forall seen counter topic_counts topic_data,
    describes_seen seen topic_counts topic_data ->
    counter = Z.of_nat (List.length seen) ->
    let r := count_loop topics counter topic_counts topic_data in
    describes_seen
      (seen ++ firstn (Z.to_nat (10 - counter)) topics)%list
      (fst r) (snd r).
Proof.
  induction topics as [|info rest IH]; intros seen counter tc td Hd Hc r;
    subst r.
  - rewrite firstn_nil, app_nil_r. exact Hd.
  - cbn [count_topics]. destruct (Z.geb_spec counter 10) as [Hge|Hlt].
    + replace (Z.to_nat (10 - counter)) with 0%nat by lia.
      cbn [firstn fst snd]. now rewrite app_nil_r.
    + replace (Z.to_nat (10 - counter))
        with (S (Z.to_nat (10 - (counter + 1)))) by lia.
      cbn [firstn].
      replace (seen ++ info :: firstn (Z.to_nat (10 - (counter + 1))) rest)%list
        with ((seen ++ [info]) ++
              firstn (Z.to_nat (10 - (counter + 1))) rest)%list
        by (now rewrite <- app_assoc).
      set (topic := lower (ti_topic info)).
      assert (Hstep : forall tc' td',
                describes_seen (seen ++ [info])%list tc' td' ->
                describes_seen
                  ((seen ++ [info]) ++
                   firstn (Z.to_nat (10 - (counter + 1))) rest)%list
                  (fst (count_loop rest (counter + 1) tc' td'))
                  (snd (count_loop rest (counter + 1) tc' td'))).
      { intros tc' td' H. apply IH; auto.
        rewrite length_app. cbn [List.length]. lia. }
      destruct (Hd topic) as [Gc Gd].
      destruct (dict_get topic tc) as [c|] eqn:G.
      * rewrite G. apply Hstep. intros k.
        rewrite mentions_of_app. unfold mentions_of at 2 4.
        cbn [filter]. fold topic. rewrite dict_get_set.
        destruct (Hd k) as [Kc Kd].
        rewrite (String.eqb_sym k topic).
        destruct (String.eqb_spec topic k) as [<-|Hne].
        -- destruct (mentions topic seen) as [|m0 ms] eqn:Em;
             [discriminate Gc|].
           injection Gc as ->. cbn [app hd_error]. split; [|exact Kd].
           f_equal. cbn [List.length]. rewrite length_app.
           cbn [List.length]. lia.
        -- rewrite app_nil_r. auto.
      * rewrite dict_get_set, String.eqb_refl. apply Hstep. intros k.
        rewrite mentions_of_app. unfold mentions_of at 2 4.
        cbn [filter]. fold topic. rewrite !dict_get_set.
        destruct (Hd k) as [Kc Kd].
        rewrite (String.eqb_sym k topic).
        destruct (String.eqb_spec topic k) as [<-|Hne].
        -- destruct (mentions topic seen) as [|m0 ms] eqn:Em;
             [|discriminate Gc].
           cbn [app hd_error List.length]. split; reflexivity.
        -- rewrite app_nil_r. auto.
Qed.

Lemma rank_topic_item (topic_data : dict topic_info) (topic : string)
    (count : Z) (w : World) (t : ranked_trend) :
  fst (score_topic topic_data topic count w) = Some t ->
  dict_get topic topic_data = Some (rt_info t) /\
  rt_mention_count t = count /\
  (0 <= count ->
   nonneg (rt_relevance_score t) /\
   (rt_relevance_score t <=? 1)%float = true).
Proof.
  unfold rank_topic.
  destruct (generate_text (relevance_prompt topic) w) as [[reply|] w1];
    cbn [fst]; [|discriminate].
  set (r := match float_of_reply reply with
            | Some r => clamp_relevance r
            | None => 0.5%float
            end).
  assert (Hr : nonneg r /\ (r <=? 1)%float = true).
  { unfold r. destruct (float_of_reply reply) as [x|].
    - apply clamp_relevance_range.
    - split; reflexivity. }
  destruct (dict_get topic topic_data) as [info|] eqn:G; cbn [fst];
    [|discriminate].
  intros E. injection E as <-.
  cbn [rt_relevance_score rt_mention_count rt_info].
  split; [reflexivity|]. split; [reflexivity|].
  intros Hc. destruct Hr as [Hr0 Hr1]. now apply final_score_bounds.
Qed.

Lemma rank_loop_items (topic_data : dict topic_info) (items : dict Z) :
  forall w t,
    In t (fst (score_loop topic_data items w)) ->
    exists topic count,
      In (topic, count) items /\
      dict_get topic topic_data = Some (rt_info t) /\
      rt_mention_count t = count /\
      (0 <= count ->
       nonneg (rt_relevance_score t) /\
       (rt_relevance_score t <=? 1)%float = true).
Proof.
  induction items as [|[topic count] rest IH]; intros w t;
    cbn [rank_loop fst]; [intros []|].
  pose proof (@rank_topic_item topic_data topic count w) as Hstep.
  destruct (score_topic topic_data topic count w) as [r w1].
  specialize (IH w1).
  destruct (score_loop topic_data rest w1) as [ranked w2].
  cbn [fst] in *.
  assert (Hrest : In t ranked ->
            exists topic0 count0,
              In (topic0, count0) ((topic, count) :: rest) /\
              dict_get topic0 topic_data = Some (rt_info t) /\
              rt_mention_count t = count0 /\
              (0 <= count0 ->
               nonneg (rt_relevance_score t) /\
               (rt_relevance_score t <=? 1)%float = true)).
  { intros H. destruct (IH t H) as (k & c & A & B).
    exists k, c. split; [now right|exact B]. }
  destruct r as [t0|]; [|exact Hrest].
  intros [<-|H]; [|now apply Hrest].
  exists topic, count. split; [now left|]. now apply Hstep.
Qed.

Lemma dict_in_get (V : Type) (k : string) (v : V) (d : dict V) :
  NoDup (dict_keys d) -> In (k, v) d -> dict_get k d = Some v.
Proof.
  induction d as [|[k0 v0] r IH]; cbn [dict_keys map fst dict_get In];
    [intros _ []|].
  intros Hnd. inversion Hnd as [|? ? Hnotin Hnd']; subst.
  intros [E|Hin].
  - injection E as -> ->. now rewrite String.eqb_refl.
  - destruct (String.eqb_spec k k0) as [->|Hne]; [|now apply IH].
    exfalso. apply Hnotin. apply in_map_iff. now exists (k0, v).
Qed.

Lemma mentions_of_topic (k : string) (l : list topic_info)
    (info : topic_info) :
  In info (mentions k l) -> lower (ti_topic info) = k.
Proof.
  intros H. apply filter_In in H. destruct H as [_ H].
  now apply String.eqb_eq.
Qed.

(** X10: the counter of the ranker stops the count after ten mentions: the
    ranking of a list of mentions is the ranking of its first ten. *)
Theorem rank_trends_first_ten (topics : list topic_info) (limit : Z)
    (w : World) :
  ranker topics limit w = ranker (firstn 10 topics) limit w.
Proof.
  unfold rank_trends.
  rewrite (@count_topics_firstn topics 0 [] []) by lia.
  reflexivity.
Qed.

Lemma rank_trends_mentions_facts (topics : list topic_info) (limit : Z)
    (w : World) (t : ranked_trend) :
  In t (fst (ranker topics limit w)) ->
  let counted_mentions :=
    mentions_of lower (trend_key lower t) (firstn 10 topics) in
  hd_error counted_mentions = Some (rt_info t) /\
  rt_mention_count t = Z.of_nat (List.length counted_mentions) /\
  1 <= rt_mention_count t /\
  nonneg (rt_relevance_score t) /\
  (rt_relevance_score t <=? 1)%float = true.
Proof.
  unfold rank_trends.
  pose proof (@count_topics_counted lower topics 0 [] []) as Hc.
  pose proof (@count_topics_describes topics [] 0 [] []) as Hd.
  destruct (count_loop topics 0 [] []) as [topic_counts topic_data].
  cbn [fst snd app] in Hc, Hd.
  change (Z.to_nat (10 - 0)) with 10%nat in Hd.
  destruct Hc as (Hnd & Hpos & _).
  { split; [constructor|split]; [intros k c []|intros k info H; discriminate H]. }
  specialize (Hd (fun k => conj eq_refl eq_refl) eq_refl).
  pose proof (@rank_loop_items topic_data topic_counts w t) as Hitems.
  destruct (score_loop topic_data topic_counts w) as [ranked w1].
  cbn [fst] in *. intros Hin.
  assert (Hr : In t ranked).
  { apply (Permutation_in _ (sort_desc_perm rt_relevance_score ranked)).
    unfold py_slice_to in Hin.
    destruct (limit <? 0); now apply firstn_incl in Hin. }
  destruct (Hitems Hr) as (topic & count & Hi & Hdata & Hcount & Hscore).
  destruct (Hd topic) as [Dc Dd].
  rewrite (dict_in_get _ _ _ Hnd Hi) in Dc. rewrite Hdata in Dd.
  assert (Hk : trend_key lower t = topic).
  { unfold trend_key. apply mentions_of_topic with (firstn 10 topics).
    destruct (mentions topic (firstn 10 topics)); [discriminate Dd|].
    injection Dd as <-. now left. }
  rewrite Hk. cbv zeta.
  destruct (mentions topic (firstn 10 topics)) as [|m0 ms];
    [discriminate Dc|].
  injection Dc as Ec. rewrite Hcount, Ec.
  split; [now rewrite Dd|]. split; [reflexivity|].
  split; [cbn [List.length]; lia|].
  apply Hscore. apply (Hpos topic count Hi).
Qed.

(** X11: for every trend the ranker returns, whatever the limit and whatever
    the language model replies: its data is the first of the first ten
    mentions with its lower-cased topic, its [mention_count] is the number
    of those mentions, which is at least 1, and its [relevance_score] lies
    in [[0, 1]]. *)
Theorem rank_trends_mentions (topics : list topic_info) (limit : Z)
    (w : World) :
  Forall (fun t =>
            let counted_mentions :=
              mentions_of lower (trend_key lower t) (firstn 10 topics) in
            hd_error counted_mentions = Some (rt_info t) /\
            rt_mention_count t = Z.of_nat (List.length counted_mentions) /\
            1 <= rt_mention_count t /\
            nonneg (rt_relevance_score t) /\
            (rt_relevance_score t <=? 1)%float = true)
         (fst (ranker topics limit w)).
Proof.
  apply Forall_forall. intros t Ht.
  now apply rank_trends_mentions_facts with limit w.
Qed.

End CountingFacts.

(** * Facts about the text helpers *)

Lemma length_append (a b : string) :
  String.length (a ++ b) = (String.length a + String.length b)%nat.
Proof. induction a as [|c a IH]; cbn; [reflexivity|now rewrite IH]. Qed.

Lemma length_substring_0 (n : nat) (s : string) :
  String.length (substring 0 n s) = Nat.min n (String.length s).
Proof.
  revert s. induction n as [|n IH]; intros [|c s]; cbn; auto.
Qed.

Lemma str_slice_to_length (s : string) (stop : Z) :
  0 <= stop -> str_len (str_slice_to s stop) <= stop.
Proof.
  intros H. unfold str_slice_to, str_len.
  destruct (Z.ltb_spec stop 0); [lia|].
  rewrite length_substring_0. lia.
Qed.

Section TextFacts.

Variable is_space : ascii -> bool.
Variable is_word : ascii -> bool.
Variable lower : string -> string.

Local Abbreviation lstrip := (str_lstrip is_space).
Local Abbreviation rstrip := (str_rstrip is_space).
Local Abbreviation strip := (str_strip is_space).
Local Abbreviation sub_hashtags := (re_sub_hashtags_from is_word).
Local Abbreviation sub_newlines := re_sub_newlines_from.
Local Abbreviation findall := (re_findall_hashtags_from is_word).
Local Abbreviation tagged := (has_hashtag is_word).
Local Abbreviation compliant := (ensure_linkedin_compliance is_space is_word).

(** *** Lengths *)

Lemma str_lstrip_length (s : string) :
  (String.length (lstrip s) <= String.length s)%nat.
Proof.
  induction s as [|c r IH]; cbn [str_lstrip String.length]; [lia|].
  destruct (is_space c); cbn [String.length]; lia.
Qed.

Lemma str_rstrip_length (s : string) :
  (String.length (rstrip s) <= String.length s)%nat.
Proof.
  induction s as [|c r IH]; cbn [str_rstrip String.length]; [lia|].
  destruct (rstrip r) as [|d r']; [destruct (is_space c)|];
    cbn [String.length] in *; lia.
Qed.

Lemma str_strip_length (s : string) :
  (String.length (strip s) <= String.length s)%nat.
Proof.
  unfold str_strip. pose proof (str_rstrip_length (lstrip s)).
  pose proof (str_lstrip_length s). lia.
Qed.

Lemma re_sub_hashtags_length (s : string) :
  forall b, (String.length (sub_hashtags b s) <= String.length s)%nat.
Proof.
  induction s as [|c r IH]; intros b;
    cbn [re_sub_hashtags_from String.length]; [lia|].
  destruct (b && is_word c); [specialize (IH true); lia|].
  destruct (Ascii.eqb c hash_sign && starts_with is_word r);
    [specialize (IH true); lia|].
  cbn [String.length]. specialize (IH false). lia.
Qed.

Lemma re_sub_newlines_length (s : string) :
  forall n, (String.length (sub_newlines n s) <= String.length s)%nat.
Proof.
  induction s as [|c r IH]; intros n;
    cbn [re_sub_newlines_from String.length]; [lia|].
  destruct (Ascii.eqb c newline); [destruct (n <? 2)%nat|];
    cbn [String.length];
    try (specialize (IH (S n)); lia); try (specialize (IH n); lia);
    specialize (IH 0%nat); lia.
Qed.

(** *** No hashtag is left *)

Lemma re_sub_hashtags_start (s : string) :
  starts_with is_word (sub_hashtags true s) = false /\
  (starts_with is_word (sub_hashtags false s) = true ->
   starts_with is_word s = true).
Proof.
  induction s as [|c r [IH1 IH2]]; [split; [reflexivity|discriminate]|].
  assert (H2 : starts_with is_word (sub_hashtags false (String c r)) = true ->
               starts_with is_word (String c r) = true).
  { cbn [re_sub_hashtags_from andb].
    destruct (Ascii.eqb c hash_sign && starts_with is_word r).
    - rewrite IH1. discriminate.
    - cbn [starts_with]. auto. }
  split; [|exact H2].
  cbn [re_sub_hashtags_from]. destruct (is_word c) eqn:Ew; cbn [andb].
  - exact IH1.
  - destruct (Ascii.eqb c hash_sign && starts_with is_word r);
      [exact IH1|exact Ew].
Qed.

Lemma re_sub_hashtags_clean (s : string) :
  forall b, tagged (sub_hashtags b s) = false.
Proof.
  induction s as [|c r IH]; intros b; cbn [re_sub_hashtags_from];
    [reflexivity|].
  destruct (b && is_word c); [apply IH|].
  destruct (Ascii.eqb c hash_sign && starts_with is_word r) eqn:E;
    [apply IH|].
  cbn [has_hashtag]. rewrite IH, orb_false_r.
  destruct (Ascii.eqb c hash_sign); [|reflexivity]. cbn [andb] in *.
  destruct (starts_with is_word (sub_hashtags false r)) eqn:F;
    [|reflexivity].
  apply re_sub_hashtags_start in F. congruence.
Qed.

Lemma re_sub_newlines_start (p : ascii -> bool) (s : string) (n : nat) :
  (n < 2)%nat ->
  starts_with p (sub_newlines n s) = starts_with p s.
Proof.
  intros Hn. destruct s as [|c r]; cbn [re_sub_newlines_from];
    [reflexivity|].
  destruct (Ascii.eqb c newline); [|reflexivity].
  destruct (Nat.ltb_spec n 2); [reflexivity|lia].
Qed.

Lemma re_sub_newlines_clean (s : string) :
  forall n, tagged s = false -> tagged (sub_newlines n s) = false.
Proof.
  induction s as [|c r IH]; intros n; cbn [re_sub_newlines_from has_hashtag];
    [reflexivity|].
  intros H. apply orb_false_iff in H. destruct H as [H1 H2].
  destruct (Ascii.eqb_spec c newline) as [->|Hne].
  - destruct (n <? 2)%nat; [|now apply IH].
    cbn [has_hashtag]. rewrite IH by exact H2. reflexivity.
  - cbn [has_hashtag]. rewrite IH by exact H2.
    rewrite re_sub_newlines_start by lia. now rewrite H1.
Qed.

Lemma str_lstrip_clean (s : string) :
  tagged s = false -> tagged (lstrip s) = false.
Proof.
  induction s as [|c r IH]; cbn [str_lstrip]; [reflexivity|].
  intros H. destruct (is_space c); [|exact H].
  cbn [has_hashtag] in H. apply orb_false_iff in H. now apply IH.
Qed.

Lemma str_rstrip_start (p : ascii -> bool) (s : string) :
  starts_with p (rstrip s) = true -> starts_with p s = true.
Proof.
  destruct s as [|c r]; cbn [str_rstrip]; [discriminate|].
  destruct (rstrip r); [destruct (is_space c)|]; cbn [starts_with]; auto.
  discriminate.
Qed.

Lemma str_rstrip_clean (s : string) :
  tagged s = false -> tagged (rstrip s) = false.
Proof.
  induction s as [|c r IH]; cbn [str_rstrip has_hashtag]; [reflexivity|].
  intros H. apply orb_false_iff in H. destruct H as [H1 H2].
  specialize (IH H2).
  pose proof (str_rstrip_start is_word r) as Hs.
  destruct (rstrip r) as [|d r'] eqn:Er.
  - destruct (is_space c); [reflexivity|].
    cbn [has_hashtag starts_with]. now rewrite andb_false_r.
  - cbn [has_hashtag] in *. rewrite IH, orb_false_r.
    destruct (Ascii.eqb c hash_sign); [|reflexivity].
    cbn [andb starts_with] in *.
    destruct (is_word d) eqn:F; [|reflexivity].
    specialize (Hs eq_refl). congruence.
Qed.

Lemma re_findall_hashtags_none (s : string) :
  forall b, tagged s = false -> (b = true -> starts_with is_word s = false) ->
            findall b s = [].
Proof.
  induction s as [|c r IH]; intros b; cbn [re_findall_hashtags_from has_hashtag];
    [reflexivity|].
  intros H Hb. apply orb_false_iff in H. destruct H as [H1 H2].
  rewrite H1.
  destruct b; cbn [andb].
  - cbn [starts_with] in Hb. rewrite (Hb eq_refl). apply IH; auto.
    discriminate.
  - apply IH; auto. discriminate.
Qed.

(** *** [strip] leaves nothing to strip *)

Lemma str_rstrip_idem (s : string) : rstrip (rstrip s) = rstrip s.
Proof.
  induction s as [|c r IH]; cbn [str_rstrip]; [reflexivity|].
  destruct (rstrip r) as [|d r'] eqn:Er.
  - destruct (is_space c) eqn:Ec; cbn [str_rstrip]; [reflexivity|].
    now rewrite Ec.
  - change (rstrip (String c (String d r')))
      with (match rstrip (String d r') with
            | EmptyString => if is_space c then EmptyString
                             else String c EmptyString
            | String e r'' => String c (String e r'')
            end).
    now rewrite IH.
Qed.

Lemma str_lstrip_start (s : string) :
  starts_with is_space (lstrip s) = false.
Proof.
  induction s as [|c r IH]; cbn [str_lstrip]; [reflexivity|].
  destruct (is_space c) eqn:Ec; [exact IH|exact Ec].
Qed.

Lemma str_lstrip_fixed (s : string) :
  starts_with is_space s = false -> lstrip s = s.
Proof.
  destruct s as [|c r]; cbn [starts_with str_lstrip]; [reflexivity|].
  now intros ->.
Qed.

Lemma str_strip_idem (s : string) : strip (strip s) = strip s.
Proof.
  unfold str_strip.
  assert (H : lstrip (rstrip (lstrip s)) = rstrip (lstrip s)).
  { apply str_lstrip_fixed.
    destruct (starts_with is_space (rstrip (lstrip s))) eqn:E;
      [|reflexivity].
    apply str_rstrip_start in E. now rewrite str_lstrip_start in E. }
  rewrite H. apply str_rstrip_idem.
Qed.

(** ** [_ensure_linkedin_compliance] *)

Lemma ensure_linkedin_compliance_facts (max_post_length : Z)
    (content : string) :
  3 <= max_post_length ->
  let out := compliant max_post_length content in
  str_len out <= max_post_length /\
  has_hashtag is_word out = false /\
  re_findall_hashtags is_word out = [] /\
  str_strip is_space out = out.
Proof.
  intros Hmax out. subst out. unfold ensure_linkedin_compliance.
  set (cut := if str_len content >? max_post_length
              then str_slice_to content (max_post_length - 3) ++ "..."
              else content).
  assert (Hcut : str_len cut <= max_post_length).
  { unfold cut. destruct (Z.gtb_spec (str_len content) max_post_length);
      [|lia].
    unfold str_len. rewrite length_append. cbn [String.length].
    pose proof (@str_slice_to_length content (max_post_length - 3)).
    unfold str_len in *. lia. }
  assert (Hclean : tagged (strip (re_sub_newlines (re_sub_hashtags is_word cut)))
                   = false).
  { unfold str_strip. apply str_rstrip_clean, str_lstrip_clean.
    apply re_sub_newlines_clean. apply re_sub_hashtags_clean. }
  split; [|split; [exact Hclean|split]].
  - unfold str_len in *.
    pose proof (str_strip_length (re_sub_newlines (re_sub_hashtags is_word cut))).
    pose proof (re_sub_newlines_length (re_sub_hashtags is_word cut) 0).
    pose proof (re_sub_hashtags_length cut false).
    unfold re_sub_newlines, re_sub_hashtags in *. lia.
  - apply re_findall_hashtags_none; [exact Hclean|discriminate].
  - apply str_strip_idem.
Qed.

(** X12: whatever text it is given, the compliance step returns a text of at
    most [max_post_length] characters (for a limit of 3 or more) in which
    the pattern [#\w+] has no match, and which neither starts nor ends with
    white space. *)
Theorem ensure_linkedin_compliance_spec (max_post_length : Z)
    (content : string) :
  3 <= max_post_length ->
  let out := compliant max_post_length content in
  str_len out <= max_post_length /\
  has_hashtag is_word out = false /\
  re_findall_hashtags is_word out = [] /\
  str_strip is_space out = out.
Proof. apply ensure_linkedin_compliance_facts. Qed.

(** ** [calculate_readability] *)

(** [max(0.0, min(100.0, score))] lies in [[0, 100]] for every [score],
    a NaN or an infinity included. *)
Lemma clamp_score_range (score : float) :
  nonneg (clamp_score score) /\ (clamp_score score <=? 100)%float = true.
Proof.
  unfold clamp_score, py_max, py_min.
  destruct (score <? 100)%float eqn:E1.
  - destruct (0 <? score)%float eqn:E0.
    + split; now apply float_ltb_leb.
    + split; reflexivity.
  - split; reflexivity.
Qed.

Lemma simple_readability_score_range (text : string) :
  nonneg (simple_readability_score is_space text) /\
  (simple_readability_score is_space text <=? 100)%float = true.
Proof.
  unfold simple_readability_score.
  destruct (is_blank is_space text); [split; reflexivity|].
  destruct (str_split is_space text); [split; reflexivity|].
  destruct (map _ _); [split; reflexivity|].
  cbv zeta. apply clamp_score_range.
Qed.

Lemma calculate_readability_bounds
    (textstat : option (string -> option float)) (text : string) :
  nonneg (calculate_readability is_space textstat text) /\
  (calculate_readability is_space textstat text <=? 100)%float = true.
Proof.
  unfold calculate_readability.
  destruct (is_blank is_space text); [split; reflexivity|].
  destruct textstat as [flesch|];
    [destruct (flesch text) as [score|]|];
    try apply simple_readability_score_range.
  apply clamp_score_range.
Qed.

(** X13: the readability score always lies in [[0, 100]]: for a blank text
    it is 50, a score of [textstat] is clamped (a NaN becomes 100), and when
    [textstat] is missing or raises the fallback score is clamped too. *)
Theorem calculate_readability_range
    (textstat : option (string -> option float)) (text : string) :
  nonneg (calculate_readability is_space textstat text) /\
  (calculate_readability is_space textstat text <=? 100)%float = true.
Proof. apply calculate_readability_bounds. Qed.

(** ** [_predict_engagement] *)

Lemma predict_engagement_bounds (content : string) :
  (0.4 <=? predict_engagement lower content)%float = true /\
  (predict_engagement lower content <=? 1)%float = true.
Proof.
  unfold predict_engagement. cbv zeta.
  generalize (str_contains "?" content) as question.
  generalize (any_in lower engagement_phrases content) as phrase.
  generalize (any_in lower insight_words content) as insight.
  generalize ((800 <=? str_len content) && (str_len content <=? 2000))
    as medium.
  generalize (str_len content <? 500) as short.
  generalize (str_count newline content >=? 2) as structured.
  generalize (any_in lower action_words content) as action.
  intros [|] [|] [|] [|] [|] [|] [|]; split; reflexivity.
Qed.

(** X14: the engagement score always lies in [[0.4, 1]]: the base score of
    0.5 loses at most 0.1 (a text under 500 characters) and the bonuses are
    capped at 1. *)
Theorem predict_engagement_range (content : string) :
  (0.4 <=? predict_engagement lower content)%float = true /\
  (predict_engagement lower content <=? 1)%float = true.
Proof. apply predict_engagement_bounds. Qed.

(** ** [validate_content] after [_ensure_linkedin_compliance] *)

Lemma dict_fromkeys_nil : dict_fromkeys [] = [].
Proof. reflexivity. Qed.

(** X15: a text the compliance step returned (with LinkedIn's limit of 3000)
    never fails the length check or the hashtag check of [validate_content]:
    it counts no hashtag, and it is valid exactly when its readability score
    is not below 60. *)
Theorem validate_compliant_content
    (textstat : option (string -> option float)) (raw : string) :
  let text := compliant 3000 raw in
  let v := validate_content is_space is_word lower textstat text in
  hashtag_count v = 0 /\ character_count v <= 3000 /\
  issues v = (if (readability_score v <? 60)%float
              then ["Content may be difficult to read"] else []) /\
  is_valid v = negb (readability_score v <? 60)%float.
Proof.
  intros text v. subst v.
  destruct (@ensure_linkedin_compliance_facts 3000 raw) as (L & _ & F & _);
    [lia|].
  fold text in L, F. unfold validate_content, extract_hashtags.
  rewrite F, dict_fromkeys_nil.
  destruct (Z.gtb_spec (str_len text) 3000) as [|_]; [lia|].
  cbn [List.length Z.of_nat Z.gtb Z.compare].
  destruct (calculate_readability is_space textstat text <? 60)%float
    eqn:E; cbn [hashtag_count character_count issues is_valid
                 readability_score app List.length Nat.eqb negb];
    rewrite ?E; auto.
Qed.

End TextFacts.

Lemma ensure_linkedin_compliance_spec_witness :
  let out := ensure_linkedin_compliance Example.is_space Example.is_word
               3000 Example.raw_content in
  str_len out <= 3000 /\
  has_hashtag Example.is_word out = false /\
  re_findall_hashtags Example.is_word out = [] /\
  str_strip Example.is_space out = out.
Proof.
  apply (@ensure_linkedin_compliance_spec Example.is_space Example.is_word
           3000 Example.raw_content).
  lia.
Defined.


(** * Facts about the agents *)

(** ** [TrendAnalysisAgent] *)

Module TrendAnalysisAgentFacts.

Import TrendAnalysisAgent.

Section LogicFacts.

Variable World : Type.
Variable lower : string -> string.
Variable fetch_techcrunch_articles :
  Z -> World -> option (list article) * World.
Variable extract_topics : string -> Z -> World -> option (list string) * World.
Variable generate_hashtags :
  string -> Z -> World -> option (list string) * World.
Variable generate_text : string -> World -> option string * World.
Variable float_of_reply : string -> option float.
Variable db_open : World -> option string * World.
Variable db_store_trend : ranked_trend -> World -> (trend + string) * World.
Variable db_close : World -> option string * World.
Variable utcnow : World -> datetime * World.
Variable log_activity :
  string -> kwargs -> option analysis -> option string ->
  datetime -> datetime -> World -> World.

Local Abbreviation fetch :=
  (fetch_recent_articles lower fetch_techcrunch_articles).
Local Abbreviation logic :=
  (execute_logic lower fetch_techcrunch_articles extract_topics
     generate_hashtags generate_text float_of_reply db_open db_store_trend db_close
     utcnow).
Local Abbreviation run :=
  (execute lower fetch_techcrunch_articles extract_topics
     generate_hashtags generate_text float_of_reply db_open db_store_trend db_close
     utcnow log_activity).
Local Abbreviation storing := (store_loop db_store_trend).

(** The world after an execution that only read the clock twice and
    logged its outcome. *)
Local Abbreviation logged status kw result error w :=
  (log_activity status kw result error (fst (utcnow w))
     (fst (utcnow (snd (utcnow w)))) (snd (utcnow (snd (utcnow w))))).

Lemma validate_input_ok (kw : kwargs) :
  validate_input kw = None <->
  kw_sources kw <> [] /\ 1 <= kw_limit kw <= 50.
Proof.
  unfold validate_input. destruct (kw_sources kw) as [|s r].
  - split; [discriminate|intros [H _]; now destruct H].
  - destruct (Z.ltb_spec (kw_limit kw) 1) as [A|A],
             (Z.gtb_spec (kw_limit kw) 50) as [B|B];
      cbn [orb]; split; try discriminate; try (intros [_ C]; lia);
      intros _; split; [discriminate|lia].
Qed.

Lemma trend_execute_rejected (kw : kwargs) (w : World) :
  kw_sources kw = [] \/ kw_limit kw < 1 \/ 50 < kw_limit kw ->
  let msg :=
    match kw_sources kw with
    | [] => "Sources must be a non-empty list"
    | _ :: _ => "Limit must be an integer between 1 and 50"
    end in
  run kw w = (AgentFailure (Some msg), logged "error" kw None (Some msg) w).
Proof.
  intros H msg. subst msg. unfold execute, BaseAgent.execute.
  destruct (utcnow w) as [t0 w1]. cbn [fst snd].
  assert (E : validate_input kw
              = Some match kw_sources kw with
                     | [] => "Sources must be a non-empty list"
                     | _ :: _ =>
                         "Limit must be an integer between 1 and 50"
                     end).
  { unfold validate_input. destruct (kw_sources kw) as [|s r];
      [reflexivity|].
    destruct H as [H|H]; [discriminate H|].
    destruct (Z.ltb_spec (kw_limit kw) 1), (Z.gtb_spec (kw_limit kw) 50);
      cbn [orb]; try reflexivity; lia. }
  rewrite E. unfold BaseAgent.failed.
  destruct (utcnow w1) as [t1 w2]. reflexivity.
Qed.

(** X16: a call with an empty list of sources, or with a limit outside [[1,
    50]], fails with the message of the validation; nothing is fetched,
    asked of the language model or stored: the clock is read twice and the
    failure is logged. *)
Theorem trend_execute_rejects_input (kw : kwargs) (w : World) :
  kw_sources kw = [] \/ kw_limit kw < 1 \/ 50 < kw_limit kw ->
  let msg :=
    match kw_sources kw with
    | [] => "Sources must be a non-empty list"
    | _ :: _ => "Limit must be an integer between 1 and 50"
    end in
  run kw w = (AgentFailure (Some msg), logged "error" kw None (Some msg) w).
Proof. apply trend_execute_rejected. Qed.

Lemma store_loop_length (trends : list ranked_trend) :
  forall stored w out,
    fst (storing trends stored w) = inl out ->
    List.length out = (List.length stored + List.length trends)%nat.
Proof.
  induction trends as [|t rest IH]; intros stored w out;
    cbn [store_loop fst List.length].
  - intros E. injection E as <-. lia.
  - destruct (db_store_trend t w) as [[t'|msg] w1]; cbn [fst];
      [|discriminate].
    intros E. apply IH in E. rewrite E, length_app. cbn [List.length]. lia.
Qed.

Lemma rank_trends_length (topics : list topic_info) (limit : Z)
    (w : World) :
  0 <= limit ->
  Z.of_nat (List.length
              (fst (rank_trends lower generate_text float_of_reply
                      topics limit w))) <= limit.
Proof.
  intros H. unfold rank_trends.
  destruct (count_topics lower topics 0 [] []) as [tc td].
  destruct (rank_loop generate_text float_of_reply td tc w) as [ranked w1].
  cbn [fst]. unfold py_slice_to. destruct (Z.ltb_spec limit 0); [lia|].
  rewrite length_firstn. lia.
Qed.

Lemma trend_execute_succeeded (kw : kwargs) (w w' : World)
    (data : analysis) :
  run kw w = (AgentSuccess data, w') ->
  kw_sources kw <> [] /\ 1 <= kw_limit kw <= 50 /\
  Z.of_nat (List.length (an_trends data)) <= kw_limit kw.
Proof.
  unfold execute, BaseAgent.execute, BaseAgent.failed.
  destruct (utcnow w) as [t0 w1].
  destruct (validate_input kw) as [msg|] eqn:Ev.
  { destruct (utcnow w1); discriminate. }
  apply validate_input_ok in Ev. destruct Ev as [Hs Hl].
  unfold execute_logic.
  destruct (fetch (kw_sources kw) (kw_hours_back kw) [] w1)
    as [[|a articles] w2].
  { destruct (utcnow w2) as [t1 w3]. intros E. injection E as <- _.
    repeat split; auto; cbn; lia. }
  destruct (extract_topics_from_articles _ _ _ _ _) as [topics w3].
  pose proof (@rank_trends_length topics (kw_limit kw) w3) as Hr.
  destruct (rank_trends _ _ _ topics (kw_limit kw) w3) as [ranked w4].
  cbn [fst] in Hr. unfold store_trends.
  destruct (db_open w4) as [[msg|] w5].
  { destruct (utcnow w5); discriminate. }
  pose proof (@store_loop_length ranked [] w5) as Hst.
  destruct (storing ranked [] w5) as [[stored|msg] w6]; cbn [fst] in *.
  - destruct (db_close w6) as [[msg|] w7].
    { destruct (utcnow w7); discriminate. }
    destruct (utcnow w7) as [now w8]. destruct (utcnow w8) as [t1 w9].
    intros E. injection E as <- _. cbn [an_trends].
    rewrite (Hst stored eq_refl). cbn [List.length].
    repeat split; auto; lia.
  - destruct (utcnow w6); discriminate.
Qed.

(** X17: a successful call was made with at least one source and a limit in
    [[1, 50]], and returns at most [limit] trends. *)
Theorem trend_execute_success_bound (kw : kwargs) (w w' : World)
    (data : analysis) :
  run kw w = (AgentSuccess data, w') ->
  kw_sources kw <> [] /\ 1 <= kw_limit kw <= 50 /\
  Z.of_nat (List.length (an_trends data)) <= kw_limit kw.
Proof. apply trend_execute_succeeded. Qed.

Lemma fetch_unsupported (sources : list string) (hours_back : Z) :
  Forall (fun s => lower s <> "techcrunch") sources ->
  forall articles w, fetch sources hours_back articles w = (articles, w).
Proof.
  induction 1 as [|s r Hs Hr IH]; intros articles w;
    cbn [fetch_recent_articles]; [reflexivity|].
  destruct (String.eqb_spec (lower s) "techcrunch"); [contradiction|].
  apply IH.
Qed.

(** X18: sources other than TechCrunch are skipped without an error: a valid
    call that names only such sources succeeds with no trend at all, and
    neither the news service, nor the language model, nor the database is
    used. *)
Theorem trend_execute_unsupported_sources (kw : kwargs) (w : World) :
  kw_sources kw <> [] -> 1 <= kw_limit kw <= 50 ->
  Forall (fun s => lower s <> "techcrunch") (kw_sources kw) ->
  run kw w
  = (AgentSuccess (mk_analysis [] 0 None None),
     logged "success" kw (Some (mk_analysis [] 0 None None)) None w).
Proof.
  intros Hs Hl Hu. unfold execute, BaseAgent.execute.
  destruct (utcnow w) as [t0 w1]. cbn [fst snd].
  rewrite (proj2 (validate_input_ok kw) (conj Hs Hl)).
  unfold execute_logic. rewrite fetch_unsupported by exact Hu.
  destruct (utcnow w1) as [t1 w2]. reflexivity.
Qed.

Lemma store_loop_from (P : trend -> Prop) (trends : list ranked_trend) :
  (forall r w t w', In r trends -> db_store_trend r w = (inl t, w') -> P t) ->
  forall stored w out,
    Forall P stored ->
    fst (storing trends stored w) = inl out -> Forall P out.
Proof.
  induction trends as [|r rest IH]; intros Hdb stored w out Hs;
    cbn [store_loop fst].
  - intros E. injection E as <-. exact Hs.
  - destruct (db_store_trend r w) as [[t|msg] w1] eqn:Er; cbn [fst];
      [|discriminate].
    apply IH.
    + intros r' w0 t' w0' Hin. apply Hdb. now right.
    + apply Forall_app. split; [exact Hs|]. constructor; [|constructor].
      apply (Hdb r w t w1); [now left|exact Er].
Qed.

(** When the database hands back the score it was given, every trend of
    a successful analysis has a relevance in [[0, 1]]. *)
Lemma trend_agent_relevance (sources : list string) (limit : Z)
    (w : World) (data : list trend) :
  (forall r w0 t w1,
     db_store_trend r w0 = (inl t, w1) ->
     trend_relevance_score t = Some (rt_relevance_score r)) ->
  fst (trend_agent_execute lower fetch_techcrunch_articles extract_topics
         generate_hashtags generate_text float_of_reply db_open
         db_store_trend db_close utcnow log_activity sources limit w)
  = AgentSuccess data ->
  Forall relevance_in_range data.
Proof.
  intros Hdb. unfold trend_agent_execute, execute, BaseAgent.execute,
    BaseAgent.failed.
  destruct (utcnow w) as [t0 w1].
  destruct (validate_input (mk_kwargs sources limit 24)) as [msg|].
  { destruct (utcnow w1); discriminate. }
  unfold execute_logic. cbn [kw_sources kw_hours_back kw_limit].
  destruct (fetch sources 24 [] w1) as [[|a articles] w2].
  { destruct (utcnow w2) as [t1 w3]. cbn [fst]. intros E.
    injection E as <-. constructor. }
  destruct (extract_topics_from_articles _ _ _ _ _) as [topics w3].
  pose proof (@rank_trends_mentions_facts World lower generate_text
                float_of_reply topics limit w3) as Hr.
  destruct (rank_trends _ _ _ topics limit w3) as [ranked w4].
  cbn [fst] in Hr. unfold store_trends.
  destruct (db_open w4) as [[msg|] w5].
  { destruct (utcnow w5); discriminate. }
  assert (Hrange : forall r w0 t w0',
            In r ranked -> db_store_trend r w0 = (inl t, w0') ->
            relevance_in_range t).
  { intros r w0 t w0' Hin E. destruct (Hr r Hin) as (_ & _ & _ & A & B).
    unfold relevance_in_range. rewrite (Hdb _ _ _ _ E).
    cbn [get_or_zero]. auto. }
  pose proof (@store_loop_from relevance_in_range ranked Hrange [] w5)
    as Hst.
  destruct (storing ranked [] w5) as [[stored|msg] w6]; cbn [fst] in *.
  - destruct (db_close w6) as [[msg|] w7].
    { destruct (utcnow w7); discriminate. }
    destruct (utcnow w7) as [now w8]. destruct (utcnow w8) as [t1 w9].
    cbn [fst]. intros E. injection E as <-. cbn [an_trends].
    apply Hst; [constructor|reflexivity].
  - destruct (utcnow w6); discriminate.
Qed.

End LogicFacts.

End TrendAnalysisAgentFacts.

Lemma trend_execute_rejects_input_witness :
  let kw := TrendAnalysisAgent.mk_kwargs ["techcrunch"] 0 24 in
  let msg :=
    match TrendAnalysisAgent.kw_sources kw with
    | [] => "Sources must be a non-empty list"
    | _ :: _ => "Limit must be an integer between 1 and 50"
    end in
  Example.trend_agent kw tt
  = (AgentFailure (Some msg),
     Example.log_trend_activity "error" kw None (Some msg)
       (fst (Stub.clock tt)) (fst (Stub.clock (snd (Stub.clock tt))))
       (snd (Stub.clock (snd (Stub.clock tt))))).
Proof.
  apply (@TrendAnalysisAgentFacts.trend_execute_rejects_input unit
           Stub.lower Example.fetch_techcrunch_articles
           Example.extract_topics Example.generate_hashtags
           Example.generate_text Stub.float_of_reply Example.db_open
           Example.db_store_trend Example.db_close Stub.clock Example.log_trend_activity
           (TrendAnalysisAgent.mk_kwargs ["techcrunch"] 0 24) tt).
  right. left. cbn. lia.
Defined.

Lemma trend_execute_success_bound_witness :
  TrendAnalysisAgent.kw_sources Example.trend_kwargs <> [] /\
  1 <= TrendAnalysisAgent.kw_limit Example.trend_kwargs <= 50 /\
  Z.of_nat (List.length
              (TrendAnalysisAgent.an_trends Example.trend_analysis))
  <= TrendAnalysisAgent.kw_limit Example.trend_kwargs.
Proof.
  apply (@TrendAnalysisAgentFacts.trend_execute_success_bound unit
           Stub.lower Example.fetch_techcrunch_articles
           Example.extract_topics Example.generate_hashtags
           Example.generate_text Stub.float_of_reply Example.db_open
           Example.db_store_trend Example.db_close Stub.clock Example.log_trend_activity
           Example.trend_kwargs tt tt Example.trend_analysis).
  vm_compute. reflexivity.
Defined.

Lemma trend_execute_unsupported_sources_witness :
  let kw := TrendAnalysisAgent.mk_kwargs ["reddit"] 5 24 in
  Example.trend_agent kw tt
  = (AgentSuccess (TrendAnalysisAgent.mk_analysis [] 0 None None),
     Example.log_trend_activity "success" kw
       (Some (TrendAnalysisAgent.mk_analysis [] 0 None None)) None
       (fst (Stub.clock tt)) (fst (Stub.clock (snd (Stub.clock tt))))
       (snd (Stub.clock (snd (Stub.clock tt))))).
Proof.
  apply (@TrendAnalysisAgentFacts.trend_execute_unsupported_sources unit
           Stub.lower Example.fetch_techcrunch_articles
           Example.extract_topics Example.generate_hashtags
           Example.generate_text Stub.float_of_reply Example.db_open
           Example.db_store_trend Example.db_close Stub.clock Example.log_trend_activity
           (TrendAnalysisAgent.mk_kwargs ["reddit"] 5 24) tt).
  - discriminate.
  - cbn. lia.
  - repeat constructor. vm_compute. discriminate.
Defined.


(** ** [list(dict.fromkeys(l))] *)

Lemma dict_keys_add (k : string) (d : dict unit) :
  NoDup (dict_keys d) ->
  NoDup (dict_keys (dict_set k tt d)) /\
  (forall x, In x (dict_keys (dict_set k tt d)) <->
             In x (dict_keys d) \/ x = k) /\
  exists rest, dict_keys (dict_set k tt d) = (dict_keys d ++ rest)%list.
Proof.
  intros Hnd. rewrite dict_keys_set.
  destruct (dict_get k d) as [v|] eqn:G.
  - split; [exact Hnd|]. split.
    + intros x. split; [now left|]. intros [H| ->]; [exact H|].
      apply dict_get_in in G. apply in_map_iff. now exists (k, v).
    + exists []. now rewrite app_nil_r.
  - apply dict_get_none in G. split; [|split].
    + apply NoDup_app; auto.
      * repeat constructor. intros [].
      * intros x Hx [<-|[]]. contradiction.
    + intros x. rewrite in_app_iff. cbn [In]. intuition.
    + now exists [k].
Qed.

Lemma dict_fromkeys_fold (l : list string) :
  forall d, NoDup (dict_keys d) ->
    let keys := dict_keys (fold_left (fun d k => dict_set k tt d) l d) in
    NoDup keys /\
    (forall x, In x keys <-> In x (dict_keys d) \/ In x l) /\
    exists rest, keys = (dict_keys d ++ rest)%list.
Proof.
  induction l as [|k l IH]; intros d Hnd; cbn [fold_left].
  - split; [exact Hnd|]. split.
    + intros x. cbn [In]. tauto.
    + exists []. now rewrite app_nil_r.
  - destruct (@dict_keys_add k d Hnd) as (N1 & I1 & (r1 & E1)).
    destruct (IH (dict_set k tt d) N1) as (N2 & I2 & (r2 & E2)).
    split; [exact N2|]. split.
    + intros x. rewrite I2, I1. cbn [In]. intuition.
    + exists (r1 ++ r2)%list. now rewrite E2, E1, app_assoc.
Qed.

Lemma dict_fromkeys_spec (a b : list string) :
  NoDup (dict_fromkeys (a ++ b)) /\
  (forall x, In x (dict_fromkeys (a ++ b)) <-> In x a \/ In x b) /\
  exists rest, dict_fromkeys (a ++ b) = (dict_fromkeys a ++ rest)%list.
Proof.
  unfold dict_fromkeys. rewrite fold_left_app.
  destruct (@dict_fromkeys_fold a [] (NoDup_nil _)) as (Na & Ia & _).
  destruct (@dict_fromkeys_fold b _ Na) as (Nb & Ib & Eb).
  split; [exact Nb|]. split; [|exact Eb].
  intros x. rewrite Ib, Ia. cbn [In dict_keys map]. tauto.
Qed.

(** ** [ContentCreationAgent] *)

Module ContentCreationAgentFacts.

Import ContentCreationAgent.

Section LogicFacts.

Variable World : Type.
Variable is_space : ascii -> bool.
Variable is_word : ascii -> bool.
Variable lower : string -> string.
Variable textstat : option (string -> option float).
Variable str_of_int : Z -> string.
Variable db_get_trend : Z -> World -> (option trend_row + string) * World.
Variable extract_topics :
  option string -> Z -> World -> (list string + string) * World.
Variable llm_generate_hashtags :
  string -> Z -> World -> option (list string) * World.
Variable llm_base_content :
  topic_details -> string -> Z -> World -> (string + string) * World.
Variable key_error : string -> string.
Variable improve_readability : string -> World -> option string * World.
Variable db_store_post :
  string -> list string -> float -> Z -> option Z -> World ->
  (Z + string) * World.
Variable utcnow : World -> datetime * World.
Variable log_activity :
  string -> kwargs -> option agent_content -> option string ->
  datetime -> datetime -> World -> World.

Local Abbreviation hashtags_of := (generate_hashtags llm_generate_hashtags).
Local Abbreviation optimize :=
  (optimize_content is_space is_word improve_readability).
Local Abbreviation base_content :=
  (generate_base_content is_space llm_base_content key_error).
Local Abbreviation quality :=
  (analyze_content_quality is_space is_word lower textstat).
Local Abbreviation logic :=
  (execute_logic is_space is_word lower textstat str_of_int db_get_trend
     extract_topics llm_generate_hashtags llm_base_content key_error
     improve_readability db_store_post).
Local Abbreviation run :=
  (execute is_space is_word lower textstat str_of_int db_get_trend
     extract_topics llm_generate_hashtags llm_base_content key_error
     improve_readability db_store_post utcnow log_activity).
Local Abbreviation variants :=
  (generate_multiple_variants is_space is_word lower textstat
     llm_generate_hashtags llm_base_content key_error improve_readability).
Local Abbreviation logged status kw result error w :=
  (log_activity status kw result error (fst (utcnow w))
     (fst (utcnow (snd (utcnow w)))) (snd (utcnow (snd (utcnow w))))).

(** *** [_validate_input] *)

Lemma tone_known (tone : string) :
  existsb (String.eqb tone) tones = true <-> In tone tones.
Proof.
  rewrite existsb_exists. split.
  - intros (x & Hin & E). apply String.eqb_eq in E. now subst.
  - intros H. exists tone. split; [exact H|apply String.eqb_refl].
Qed.

(** X19: a call without a usable topic (no [trend_topic_id], or 0, and no
    [custom_topic], or an empty one), or with a tone other than
    professional, casual and technical, fails with the message of the
    validation; no content is generated and nothing is stored: the clock is
    read twice and the failure is logged. *)
Theorem content_execute_rejects_input (kw : kwargs) (w : World) :
  (truthy_id (kw_trend_topic_id kw) = false /\
   truthy_str (kw_custom_topic kw) = false) \/
  ~ In (kw_tone kw) tones ->
  let msg :=
    if truthy_id (kw_trend_topic_id kw) || truthy_str (kw_custom_topic kw)
    then "Tone must be one of: professional, casual, technical"
    else "Either trend_topic_id or custom_topic must be provided" in
  run kw w = (AgentFailure (Some msg), logged "error" kw None (Some msg) w).
Proof.
  intros H msg. subst msg. unfold execute, BaseAgent.execute.
  destruct (utcnow w) as [t0 w1]. cbn [fst snd].
  assert (E : validate_input kw
              = Some (if truthy_id (kw_trend_topic_id kw)
                         || truthy_str (kw_custom_topic kw)
                      then "Tone must be one of: professional, casual, technical"
                      else "Either trend_topic_id or custom_topic must be provided")).
  { unfold validate_input.
    destruct (truthy_id (kw_trend_topic_id kw)),
             (truthy_str (kw_custom_topic kw)); cbn [negb andb orb];
      try reflexivity;
      (destruct H as [[A B]|H]; [discriminate|]);
      (destruct (existsb (String.eqb (kw_tone kw)) tones) eqn:T;
       [apply tone_known in T; contradiction|reflexivity]). }
  rewrite E. unfold BaseAgent.failed.
  destruct (utcnow w1) as [t1 w2]. reflexivity.
Qed.

(** *** [_generate_hashtags] *)

Lemma py_slice_to_firstn (A : Type) (l : list A) (stop : Z) :
  exists n, py_slice_to l stop = firstn n l.
Proof.
  unfold py_slice_to. destruct (stop <? 0); eauto.
Qed.

Lemma generate_hashtags_facts (content : string)
    (topic_info : topic_details) (w : World) :
  let tags := fst (hashtags_of content topic_info w) in
  NoDup tags /\
  Z.of_nat (List.length tags) <= max_hashtags settings /\
  match fst (llm_generate_hashtags content (max_hashtags settings) w) with
  | Some reply =>
      (forall t, In t tags -> In t (td_hashtags topic_info) \/ In t reply) /\
      exists rest,
        tags = firstn (Z.to_nat (max_hashtags settings))
                      (dict_fromkeys (td_hashtags topic_info) ++ rest)
  | None => tags = []
  end.
Proof.
  unfold generate_hashtags.
  destruct (llm_generate_hashtags content (max_hashtags settings) w)
    as [[reply|] w1]; cbn [fst].
  - destruct (dict_fromkeys_spec (td_hashtags topic_info) reply)
      as (Hnd & Hin & (rest & Hrest)).
    change (max_hashtags settings) with 5.
    change (py_slice_to ?l 5) with (firstn 5 l).
    split; [now apply firstn_NoDup|]. split.
    + rewrite length_firstn. lia.
    + split.
      * intros t Ht. apply firstn_incl in Ht. now apply Hin.
      * exists rest. now rewrite Hrest.
  - split; [constructor|]. split; [cbn; lia|reflexivity].
Qed.

(** X20: the hashtags of a post are distinct and at most [max_hashtags] (5);
    the hashtags of the trend come first, each once, followed by those the
    language model proposed for the content. When the call of the language
    model raises, the post gets no hashtag at all, not even those of its
    trend. *)
Theorem generate_hashtags_distinct (content : string)
    (topic_info : topic_details) (w : World) :
  let tags := fst (hashtags_of content topic_info w) in
  NoDup tags /\
  Z.of_nat (List.length tags) <= max_hashtags settings /\
  match fst (llm_generate_hashtags content (max_hashtags settings) w) with
  | Some reply =>
      (forall t, In t tags -> In t (td_hashtags topic_info) \/ In t reply) /\
      exists rest,
        tags = firstn (Z.to_nat (max_hashtags settings))
                      (dict_fromkeys (td_hashtags topic_info) ++ rest)
  | None => tags = []
  end.
Proof. apply generate_hashtags_facts. Qed.

(** *** [_optimize_content] and [_analyze_content_quality] *)

Lemma optimize_content_facts (content : string) (w : World) :
  let out := fst (optimize content w) in
  str_len out <= 3000 /\ has_hashtag is_word out = false /\
  re_findall_hashtags is_word out = [] /\ str_strip is_space out = out.
Proof.
  unfold optimize_content.
  destruct (improve_readability content w) as [[optimized|] w1];
    cbn [fst]; apply ensure_linkedin_compliance_facts; cbn; lia.
Qed.

Lemma analyze_content_quality_facts (content : string) :
  let q := quality content in
  nonneg (cq_readability_score q) /\
  (cq_readability_score q <=? 100)%float = true /\
  (0.4 <=? cq_engagement_score q)%float = true /\
  (cq_engagement_score q <=? 1)%float = true.
Proof.
  cbn [analyze_content_quality cq_readability_score cq_engagement_score].
  destruct (calculate_readability_bounds is_space textstat content).
  destruct (predict_engagement_bounds lower content).
  auto.
Qed.

(** *** [execute] *)

(** X21: what a successful call returns: the call named a usable topic and
    one of the three tones; the stored content has at most 3000 characters,
    no match of [#\w+] and no white space at its ends; its hashtags are
    distinct and at most 5; the post is a draft, and its dict carries the
    readability score but no ["quality_metrics"]; the metrics returned
    beside it have a readability in [[0, 100]] and an engagement in [[0.4,
    1]]. *)
Theorem content_execute_success (kw : kwargs) (w w' : World)
    (data : agent_content) :
  run kw w = (AgentSuccess data, w') ->
  In (kw_tone kw) tones /\
  truthy_id (kw_trend_topic_id kw) || truthy_str (kw_custom_topic kw)
  = true /\
  str_len (post_content (ac_post data)) <= 3000 /\
  has_hashtag is_word (post_content (ac_post data)) = false /\
  str_strip is_space (post_content (ac_post data))
  = post_content (ac_post data) /\
  NoDup (post_hashtags (ac_post data)) /\
  Z.of_nat (List.length (post_hashtags (ac_post data))) <= 5 /\
  post_status (ac_post data) = "draft" /\
  post_quality_metrics (ac_post data) = None /\
  exists readability engagement,
    ac_quality_metrics data
    = mk_quality_metrics (Some readability) (Some engagement) /\
    post_readability_score (ac_post data) = Some readability /\
    nonneg readability /\ (readability <=? 100)%float = true /\
    (0.4 <=? engagement)%float = true /\
    (engagement <=? 1)%float = true.
Proof.
  unfold execute, BaseAgent.execute, BaseAgent.failed.
  destruct (utcnow w) as [t0 w1].
  destruct (validate_input kw) as [msg|] eqn:Ev.
  { destruct (utcnow w1); discriminate. }
  assert (Hv : In (kw_tone kw) tones /\
               truthy_id (kw_trend_topic_id kw)
               || truthy_str (kw_custom_topic kw) = true).
  { unfold validate_input in Ev.
    destruct (truthy_id (kw_trend_topic_id kw)),
             (truthy_str (kw_custom_topic kw)); cbn [negb andb orb] in *;
      try discriminate Ev;
      (destruct (existsb (String.eqb (kw_tone kw)) tones) eqn:T;
       [apply tone_known in T; auto|discriminate Ev]). }
  destruct Hv as [Htone Htopic].
  unfold execute_logic.
  destruct (get_topic_info _ _ _ _ _ _) as [[topic_info|msg] w2];
    [|destruct (utcnow w2); discriminate].
  destruct (base_content topic_info (kw_tone kw) (kw_target_length kw) w2)
    as [[content|msg] w3]; [|destruct (utcnow w3); discriminate].
  pose proof (optimize_content_facts content w3) as Ho.
  destruct (optimize content w3) as [optimized w4]. cbn [fst] in Ho.
  destruct Ho as (Ho1 & Ho2 & _ & Ho3).
  assert (Hh : forall tags w5,
            (if kw_include_hashtags kw
             then hashtags_of optimized topic_info w4
             else ([], w4)) = (tags, w5) ->
            NoDup tags /\ Z.of_nat (List.length tags) <= 5).
  { intros tags w5. destruct (kw_include_hashtags kw).
    - intros E.
      destruct (generate_hashtags_facts optimized topic_info w4)
        as (A & B & _).
      rewrite E in A, B. cbn [fst] in A, B. auto.
    - intros E. injection E as <- _. split; [constructor|cbn; lia]. }
  destruct (if kw_include_hashtags kw
            then hashtags_of optimized topic_info w4
            else ([], w4)) as [tags w5].
  destruct (Hh tags w5 eq_refl) as [Hnd Hlen].
  destruct (analyze_content_quality_facts optimized) as (Q1 & Q2 & Q3 & Q4).
  unfold store_post.
  destruct (db_store_post _ _ _ _ _ w5) as [[id|msg] w6];
    [|destruct (utcnow w6); discriminate].
  destruct (utcnow w6) as [t1 w7]. intros E. injection E as <- _.
  cbn [stored_result execute_logic store_content ac_post ac_quality_metrics
       post_content post_hashtags post_status post_quality_metrics
       post_readability_score metrics_of qm_readability_score].
  repeat split; auto.
  exists (cq_readability_score (quality optimized)),
         (cq_engagement_score (quality optimized)).
  repeat split; auto.
Qed.

Lemma content_agent_stored (kw : kwargs) (w : World)
    (data : agent_content) :
  fst (run kw w) = AgentSuccess data ->
  exists id text tags q, data = stored_result id text tags q.
Proof.
  unfold execute, BaseAgent.execute, BaseAgent.failed.
  destruct (utcnow w) as [t0 w1].
  destruct (validate_input kw) as [msg|].
  { destruct (utcnow w1); discriminate. }
  unfold execute_logic.
  destruct (get_topic_info _ _ _ _ _ _) as [[topic_info|msg] w2];
    [|destruct (utcnow w2); discriminate].
  destruct (base_content topic_info (kw_tone kw) (kw_target_length kw) w2)
    as [[content|msg] w3]; [|destruct (utcnow w3); discriminate].
  destruct (optimize content w3) as [optimized w4].
  destruct (if kw_include_hashtags kw
            then hashtags_of optimized topic_info w4
            else ([], w4)) as [tags w5].
  unfold store_post.
  destruct (db_store_post _ _ _ _ _ w5) as [[id|msg] w6];
    [|destruct (utcnow w6); discriminate].
  destruct (utcnow w6) as [t1 w7]. cbn [fst]. intros E. injection E as <-.
  eauto.
Qed.

(** *** [generate_multiple_variants] *)

Lemma variants_loop_facts (topic_info : topic_details)
    (tones0 : list string) :
  forall i vs w,
    let out := fst (variants_loop is_space is_word lower textstat
                      llm_generate_hashtags llm_base_content key_error
                      improve_readability topic_info i tones0 vs w) in
    exists new,
      out = (vs ++ new)%list /\
      (List.length new <= List.length tones0)%nat /\
      Forall (fun v => i < var_variant v <= i + Z.of_nat (List.length tones0) /\
                       nth_error tones0 (Z.to_nat (var_variant v - 1 - i))
                       = Some (var_tone v) /\
                       str_len (var_content v) <= 3000 /\
                       has_hashtag is_word (var_content v) = false /\
                       NoDup (var_hashtags v)) new /\
      StronglySorted (fun a b => var_variant a < var_variant b) new.
Proof.
  induction tones0 as [|tone rest IH]; intros i vs w; cbn [variants_loop].
  - exists []. cbn [fst]. rewrite app_nil_r.
    repeat split; auto; constructor.
  - unfold generate_variant.
    destruct (base_content topic_info tone 1500 w) as [[content|msg] w1].
    + pose proof (optimize_content_facts content w1) as Ho.
      destruct (optimize content w1) as [optimized w2]. cbn [fst] in Ho.
      destruct Ho as (Ho1 & Ho2 & _).
      destruct (generate_hashtags_facts optimized topic_info w2)
        as (Hnd & _).
      destruct (hashtags_of optimized topic_info w2) as [tags w3].
      cbn [fst] in Hnd.
      destruct (IH (i + 1)
                  (vs ++ [mk_variant (i + 1) tone optimized tags
                            (quality optimized)])%list w3)
        as (new & E & L & F & Hs).
      cbv zeta in E. rewrite E.
      exists (mk_variant (i + 1) tone optimized tags (quality optimized)
              :: new).
      rewrite <- app_assoc. split; [reflexivity|].
      split; [cbn [List.length]; lia|]. split.
      * constructor.
        -- cbn [var_variant var_tone var_content var_hashtags List.length].
           replace (Z.to_nat (i + 1 - 1 - i)) with 0%nat by lia.
           repeat split; auto; lia.
        -- eapply Forall_impl; [|exact F]. cbn beta.
           intros v (A & B & C). cbn [List.length].
           split; [lia|]. split; [|exact C].
           replace (Z.to_nat (var_variant v - 1 - i))
             with (S (Z.to_nat (var_variant v - 1 - (i + 1)))) by lia.
           exact B.
      * constructor; [exact Hs|].
        eapply Forall_impl; [|exact F]. cbn beta.
        intros v (A & _). cbn [var_variant]. lia.
    + destruct (IH (i + 1) vs w1) as (new & E & L & F & Hs).
      cbv zeta in E. rewrite E. exists new.
      split; [reflexivity|]. split; [cbn [List.length]; lia|].
      split; [|exact Hs].
      eapply Forall_impl; [|exact F]. cbn beta.
      intros v (A & B & C). cbn [List.length].
      split; [lia|]. split; [|exact C].
      replace (Z.to_nat (var_variant v - 1 - i))
        with (S (Z.to_nat (var_variant v - 1 - (i + 1)))) by lia.
      exact B.
Qed.

(** X22: however large [count] is, at most three variants are returned, and
    none for [count <= 0]; the variant numbered [k] has the [k]-th of the
    tones professional, casual, technical; the numbers increase along the
    list (a variant whose generation raised is left out); and every content
    went through the compliance step. *)
Theorem generate_multiple_variants_bound (topic_info : topic_details)
    (count : Z) (w : World) :
  let vs := fst (variants topic_info count w) in
  Z.of_nat (List.length vs) <= Z.max 0 (Z.min count 3) /\
  Forall (fun v => 1 <= var_variant v <= Z.min count 3 /\
                   nth_error tones (Z.to_nat (var_variant v - 1))
                   = Some (var_tone v) /\
                   str_len (var_content v) <= 3000 /\
                   has_hashtag is_word (var_content v) = false) vs /\
  StronglySorted (fun a b => var_variant a < var_variant b) vs.
Proof.
  unfold generate_multiple_variants.
  set (n := Z.to_nat (Z.min count (Z.of_nat (List.length tones)))).
  destruct (variants_loop_facts topic_info (firstn n tones) 0 [] w)
    as (new & E & L & F & Hs).
  cbv zeta in E. cbv zeta. rewrite E. cbn [app].
  assert (Hn : List.length (firstn n tones) = n).
  { rewrite length_firstn. unfold n. cbn [tones List.length]. lia. }
  assert (Hz : Z.of_nat n = Z.max 0 (Z.min count 3)).
  { unfold n. cbn [tones List.length Z.of_nat Pos.of_succ_nat Pos.succ].
    lia. }
  rewrite Hn in *. split; [lia|]. split; [|exact Hs].
  eapply Forall_impl; [|exact F]. cbn beta.
  intros v (A & B & C & D & _).
  rewrite Z.sub_0_r in B.
  assert (Hlt : (Z.to_nat (var_variant v - 1) < n)%nat) by lia.
  rewrite nth_error_firstn, (proj2 (Nat.ltb_lt _ _) Hlt) in B.
  repeat split; auto; lia.
Qed.

End LogicFacts.

End ContentCreationAgentFacts.

Lemma content_execute_rejects_input_witness :
  let kw := Example.no_topic_kwargs in
  let msg :=
    if ContentCreationAgent.truthy_id
         (ContentCreationAgent.kw_trend_topic_id kw)
       || ContentCreationAgent.truthy_str
            (ContentCreationAgent.kw_custom_topic kw)
    then "Tone must be one of: professional, casual, technical"
    else "Either trend_topic_id or custom_topic must be provided" in
  Example.content_agent kw tt
  = (AgentFailure (Some msg),
     Example.log_content_activity "error" kw None (Some msg)
       (fst (Stub.clock tt)) (fst (Stub.clock (snd (Stub.clock tt))))
       (snd (Stub.clock (snd (Stub.clock tt))))).
Proof.
  apply (@ContentCreationAgentFacts.content_execute_rejects_input unit
           Example.is_space Example.is_word Stub.lower None
           Example.str_of_int Example.db_get_trend
           Example.extract_custom_topics Example.generate_hashtags
           Example.llm_base_content Example.key_error
           Example.improve_readability Example.db_store_post Stub.clock
           Example.log_content_activity Example.no_topic_kwargs tt).
  left. split; reflexivity.
Defined.

Lemma content_execute_success_witness :
  let kw := Example.content_kwargs in
  let data := Example.content_data in
  In (ContentCreationAgent.kw_tone kw) ContentCreationAgent.tones /\
  ContentCreationAgent.truthy_id (ContentCreationAgent.kw_trend_topic_id kw)
  || ContentCreationAgent.truthy_str
       (ContentCreationAgent.kw_custom_topic kw) = true /\
  str_len (post_content (ac_post data)) <= 3000 /\
  has_hashtag Example.is_word (post_content (ac_post data)) = false /\
  str_strip Example.is_space (post_content (ac_post data))
  = post_content (ac_post data) /\
  NoDup (post_hashtags (ac_post data)) /\
  Z.of_nat (List.length (post_hashtags (ac_post data))) <= 5 /\
  post_status (ac_post data) = "draft" /\
  post_quality_metrics (ac_post data) = None /\
  exists readability engagement,
    ac_quality_metrics data
    = mk_quality_metrics (Some readability) (Some engagement) /\
    post_readability_score (ac_post data) = Some readability /\
    nonneg readability /\ (readability <=? 100)%float = true /\
    (0.4 <=? engagement)%float = true /\
    (engagement <=? 1)%float = true.
Proof.
  apply (@ContentCreationAgentFacts.content_execute_success unit
           Example.is_space Example.is_word Stub.lower None
           Example.str_of_int Example.db_get_trend
           Example.extract_custom_topics Example.generate_hashtags
           Example.llm_base_content Example.key_error
           Example.improve_readability Example.db_store_post Stub.clock
           Example.log_content_activity Example.content_kwargs tt tt
           Example.content_data).
  vm_compute. reflexivity.
Defined.


(** ** The daily run with the two agents *)

Section DailyRunWithAgents.

Variable World : Type.
Variable is_space : ascii -> bool.
Variable is_word : ascii -> bool.
Variable lower : string -> string.
Variable textstat : option (string -> option float).
Variable str_of_int : Z -> string.
Variable fetch_techcrunch_articles :
  Z -> World -> option (list TrendAnalysisAgent.article) * World.
Variable extract_article_topics :
  string -> Z -> World -> option (list string) * World.
Variable topic_hashtags :
  string -> Z -> World -> option (list string) * World.
Variable generate_text : string -> World -> option string * World.
Variable float_of_reply : string -> option float.
Variable db_open : World -> option string * World.
Variable db_store_trend : ranked_trend -> World -> (trend + string) * World.
Variable db_close : World -> option string * World.
Variable db_get_trend :
  Z -> World -> (option ContentCreationAgent.trend_row + string) * World.
Variable extract_custom_topics :
  option string -> Z -> World -> (list string + string) * World.
Variable content_hashtags :
  string -> Z -> World -> option (list string) * World.
Variable llm_base_content :
  ContentCreationAgent.topic_details -> string -> Z -> World ->
  (string + string) * World.
Variable key_error : string -> string.
Variable improve_readability : string -> World -> option string * World.
Variable db_store_post :
  string -> list string -> float -> Z -> option Z -> World ->
  (Z + string) * World.
Variable db_schedule_post : Z -> datetime -> World -> db_result * World.
Variable utcnow : World -> datetime * World.
Variable log_trend_activity :
  string -> TrendAnalysisAgent.kwargs ->
  option TrendAnalysisAgent.analysis -> option string ->
  datetime -> datetime -> World -> World.
Variable log_content_activity :
  string -> ContentCreationAgent.kwargs -> option agent_content ->
  option string -> datetime -> datetime -> World -> World.
Variable str_of_exception : scheduling_exception -> string.

Local Abbreviation trend_agent :=
  (TrendAnalysisAgent.trend_agent_execute lower fetch_techcrunch_articles
     extract_article_topics topic_hashtags generate_text float_of_reply
     db_open db_store_trend db_close utcnow log_trend_activity).
Local Abbreviation content_agent :=
  (ContentCreationAgent.content_agent_execute is_space is_word lower
     textstat str_of_int db_get_trend extract_custom_topics
     content_hashtags llm_base_content key_error improve_readability
     db_store_post utcnow log_content_activity).
Local Abbreviation run_with_agents :=
  (ainvoke trend_agent content_agent db_schedule_post utcnow
           str_of_exception).

(** X23: a run of the graph with [TrendAnalysisAgent] and
    [ContentCreationAgent] as they are written, over a database that hands
    back the relevance score it was given: whatever the news feed and the
    language model return, no post is ever scheduled.  The ranker's
    scores lie in [[0, 1]] and the stored post carries no
    ["quality_metrics"], so no candidate reaches the approval threshold:
    whenever [ainvoke] returns, [published_posts] is empty in the final
    state. *)
Theorem agents_run_schedules_nothing (workflow_id started_at : string)
    (w w' : World) (out : state_value) :
  (forall r w0 t w1,
     db_store_trend r w0 = (inl t, w1) ->
     trend_relevance_score t = Some (rt_relevance_score r)) ->
  run_with_agents (initial_state workflow_id started_at) w
  = (Some out, w') ->
  exists final, out = StateDict final /\ published_posts final = [].
Proof.
  intros Hdb. apply graph_run_nothing_scheduled.
  - intros id tone w0 data E.
    apply ContentCreationAgentFacts.content_agent_stored in E.
    destruct E as (post_id & text & tags & q & ->).
    exists post_id, text, tags, (ContentCreationAgent.metrics_of q).
    reflexivity.
  - intros s l w0 data E.
    now apply TrendAnalysisAgentFacts.trend_agent_relevance in E.
Qed.

End DailyRunWithAgents.

Lemma agents_run_schedules_nothing_witness :
  exists final,
    ainvoke Example.three_topics_agent Example.stored_content_agent
      Stub.db Stub.clock Stub.str_of_exception Stub.state0 tt
    = (Some (StateDict final), tt) /\
    List.length (trends final) = 3%nat /\
    List.length (generated_content final) = 6%nat /\
    published_posts final = [].
Proof.
  assert (E : ainvoke Example.three_topics_agent
                Example.stored_content_agent Stub.db Stub.clock
                Stub.str_of_exception Stub.state0 tt
              = (Some (StateDict Example.agents_final_state), tt))
    by (vm_compute; reflexivity).
  destruct (@agents_run_schedules_nothing unit Example.is_space
              Example.is_word Stub.lower None Example.str_of_int
              Example.fetch_techcrunch_articles
              Example.extract_three_topics
              Example.generate_hashtags Example.generate_text
              Stub.float_of_reply Example.db_open Example.db_store_trend
              Example.db_close
              Example.db_get_trend Example.extract_custom_topics
              Example.generate_hashtags Example.llm_base_content
              Example.key_error Example.improve_readability
              Example.db_store_post Stub.db Stub.clock
              Example.log_trend_activity Example.log_content_activity
              Stub.str_of_exception "daily_20261103_090000"
              "2026-11-03T09:00:00" tt tt
              (StateDict Example.agents_final_state))
    as (final & Ef & Hp).
  - intros r w0 t w1 H. injection H as <- _. reflexivity.
  - exact E.
  - exists final. injection Ef as <-.
    split; [exact E|]. split; [reflexivity|]. split; [reflexivity|exact Hp].
Defined.

(** * Facts about the callers *)

Module SchedulerServiceFacts.

Import SchedulerService.

Section WorkflowService.

Variable World : Type.
Variable trend_agent_execute :
  list string -> Z -> World -> agent_result (list trend) * World.
Variable content_agent_execute :
  option Z -> string -> World -> agent_result agent_content * World.
Variable db_schedule_post : Z -> datetime -> World -> db_result * World.
Variable utcnow : World -> datetime * World.
Variable strftime_id : datetime -> string.
Variable isoformat : datetime -> string.
Variable recursion_error_message : string.
Variable str_of_exception : scheduling_exception -> string.
Variable db_open : World -> option string * World.
Variable db_add_activity : activity -> World -> World.

Local Abbreviation daily :=
  (run_daily_automation trend_agent_execute content_agent_execute
     db_schedule_post utcnow strftime_id isoformat
     recursion_error_message str_of_exception).
Local Abbreviation run_now :=
  (run_workflow_now daily db_open db_add_activity).

(** X24: [run_workflow_now] hands the caller the dict of the workflow as it
    is, and both shapes of that dict can be logged: when the database opens,
    exactly one row is added, with the status ["success"], the summary as
    details and no error message for a run that ended, and with the status
    ["error"], empty details and the error message for a run that failed. *)
Theorem run_workflow_now_logs (w : World) :
  let result := fst (daily w) in
  let w1 := snd (daily w) in
  fst (run_now w) = result /\
  match fst (db_open w1) with
  | Some _ => snd (run_now w) = snd (db_open w1)
  | None =>
      exists row,
        snd (run_now w) = db_add_activity row (snd (db_open w1)) /\
        act_agent_name row = "LinkedInWorkflow" /\
        act_activity_type row = "daily_automation" /\
        ((act_status row = "success" /\
          get_key "success" result = Some (PyBool true) /\
          get_key "summary" result = Some (act_details row) /\
          act_error_message row = None) \/
         (act_status row = "error" /\
          get_key "success" result = Some (PyBool false) /\
          act_details row = PyDict [] /\
          act_error_message row
          = Some (PyStr ("Workflow execution failed: "
                         ++ recursion_error_message))))
  end.
Proof.
  cbv zeta. unfold run_workflow_now.
  destruct (daily w) as [result w1] eqn:Ed. cbn [fst snd].
  split; [reflexivity|].
  unfold log_workflow_execution.
  destruct (db_open w1) as [[msg|] w2]; cbn [fst snd]; [reflexivity|].
  unfold run_daily_automation in Ed.
  destruct (utcnow w) as [t1 wa]. destruct (utcnow wa) as [t2 wb].
  destruct (ainvoke _ _ _ _ _ _ wb) as [[final|] wc];
    injection Ed as <- <-.
  - eexists. split; [reflexivity|].
    split; [reflexivity|]. split; [reflexivity|]. left.
    repeat split.
  - eexists. split; [reflexivity|].
    split; [reflexivity|]. split; [reflexivity|]. right.
    repeat split.
Qed.

End WorkflowService.

Section Automation.

Variable World : Type.
Variable add_job : string -> World -> option string * World.
Variable scheduler_start : World -> option string * World.
Variable scheduler_shutdown : World -> option string * World.
Variable str_of_http_exception : Z -> pyval -> string.
Variable key_error : string -> string.

Local Abbreviation starting := (start_automation add_job scheduler_start).
Local Abbreviation stopping := (stop_automation scheduler_shutdown).

(** X25: the routes [/automation/start] and [/automation/stop] never answer
    with the status 400 they raise for a refusal: the [HTTPException] is
    caught by the [except Exception] of the same route and raised again with
    the status 500. So starting a running automation, or stopping a stopped
    one, answers 500, and changes neither the flag nor the scheduler. *)
Theorem start_stop_routes_status (is_running : bool) (w : World) :
  let start_route :=
    AutomationRoutes.start_route str_of_http_exception starting key_error in
  let stop_route :=
    AutomationRoutes.stop_route str_of_http_exception stopping key_error in
  (forall status_code detail,
     fst (fst (start_route is_running w))
     = inr (AutomationRoutes.HTTPException status_code detail) ->
     status_code = 500) /\
  (forall status_code detail,
     fst (fst (stop_route is_running w))
     = inr (AutomationRoutes.HTTPException status_code detail) ->
     status_code = 500) /\
  start_route true w
  = (inr (AutomationRoutes.HTTPException 500
            (PyStr ("Automation start failed: "
                    ++ str_of_http_exception 400
                         (PyStr "Automation already running")))),
     true, w) /\
  stop_route false w
  = (inr (AutomationRoutes.HTTPException 500
            (PyStr ("Automation stop failed: "
                    ++ str_of_http_exception 400
                         (PyStr "Automation not running")))),
     false, w).
Proof.
  cbv zeta. split; [|split; [|split; reflexivity]].
  - intros code detail. unfold AutomationRoutes.start_route.
    destruct (starting is_running w) as [[result running] w1].
    cbn [fst]. unfold AutomationRoutes.try_except.
    destruct (AutomationRoutes.read_success key_error result)
      as [[|]|e]; [discriminate| |]; intros E; now injection E.
  - intros code detail. unfold AutomationRoutes.stop_route.
    destruct (stopping is_running w) as [[result running] w1].
    cbn [fst]. unfold AutomationRoutes.try_except.
    destruct (AutomationRoutes.read_success key_error result)
      as [[|]|e]; [discriminate| |]; intros E; now injection E.
Qed.

End Automation.

End SchedulerServiceFacts.

Module AutomationRoutesFacts.

Import AutomationRoutes.

Section Preview.

Variable World : Type.
Variable lower : string -> string.
Variable fetch_techcrunch_articles :
  Z -> World -> option (list TrendAnalysisAgent.article) * World.
Variable extract_topics : string -> Z -> World -> option (list string) * World.
Variable generate_hashtags :
  string -> Z -> World -> option (list string) * World.
Variable generate_text : string -> World -> option string * World.
Variable float_of_reply : string -> option float.
Variable db_open : World -> option string * World.
Variable db_store_trend : ranked_trend -> World -> (trend + string) * World.
Variable db_close : World -> option string * World.
Variable utcnow : World -> datetime * World.
Variable log_activity :
  string -> TrendAnalysisAgent.kwargs ->
  option TrendAnalysisAgent.analysis -> option string ->
  datetime -> datetime -> World -> World.
Variable str_of_http_exception : Z -> pyval -> string.
Variable key_error : string -> string.

Local Abbreviation agent :=
  (TrendAnalysisAgent.execute lower fetch_techcrunch_articles
     extract_topics generate_hashtags generate_text float_of_reply db_open
     db_store_trend db_close utcnow log_activity).

Lemma top_trends_of_facts (trends : list trend) (entries : list top_trend) :
  top_trends_of key_error trends = inl entries ->
  List.length entries = List.length trends /\
  Forall (fun e => (List.length (tt_hashtags e) <= 3)%nat) entries.
Proof.
  revert entries. induction trends as [|t rest IH]; intros entries;
    cbn [top_trends_of].
  - intros E. injection E as <-. split; [reflexivity|constructor].
  - unfold top_trend_of.
    destruct (trend_topic t) as [topic|]; [|discriminate].
    destruct (trend_relevance_score t) as [score|]; [|discriminate].
    destruct (top_trends_of key_error rest) as [es|e]; [|discriminate].
    intros E. injection E as <-. destruct (IH es eq_refl) as [L F].
    split; [cbn [List.length]; congruence|].
    constructor; [|exact F]. cbn [tt_hashtags].
    unfold py_slice_to. cbn [Z.ltb Z.compare Z.to_nat Pos.to_nat
                              Pos.iter_op Nat.add].
    rewrite length_firstn. lia.
Qed.

(** X26: the preview asks the trend agent for [max_posts * 2] trends, so it
    only works for [max_posts] from 1 to 25: outside that range (or without
    a source) it answers 500 before anything is fetched. A preview that is
    returned lists at most [max_posts] trends out of at most [2 * max_posts]
    found, each with at most three hashtags. *)
Theorem preview_workflow_plan_bounds (sources : list string)
    (max_posts : Z) (w : World) :
  let answer :=
    preview_workflow_plan str_of_http_exception key_error agent
      sources max_posts w in
  (sources = [] \/ max_posts < 1 \/ 25 < max_posts ->
   fst answer
   = inr (HTTPException 500 (PyStr "Failed to fetch trends for preview"))
   /\
   exists msg,
     snd answer
     = log_activity "error"
         (TrendAnalysisAgent.mk_kwargs sources (max_posts * 2) 24)
         None (Some msg) (fst (utcnow w))
         (fst (utcnow (snd (utcnow w))))
         (snd (utcnow (snd (utcnow w))))) /\
  (forall p,
     fst answer = inl p ->
     1 <= max_posts <= 25 /\
     pv_estimated_posts p <= max_posts /\
     pv_estimated_posts p <= pv_trends_found p <= 2 * max_posts /\
     Z.of_nat (List.length (pv_top_trends_for_content p))
     = pv_estimated_posts p /\
     Forall (fun e => (List.length (tt_hashtags e) <= 3)%nat)
            (pv_top_trends_for_content p)).
Proof.
  cbv zeta. unfold preview_workflow_plan. split.
  - intros H.
    rewrite (@TrendAnalysisAgentFacts.trend_execute_rejected World lower
               fetch_techcrunch_articles extract_topics generate_hashtags
               generate_text float_of_reply db_open db_store_trend db_close utcnow
               log_activity
               (TrendAnalysisAgent.mk_kwargs sources (max_posts * 2) 24) w).
    + cbn [fst snd try_except_http]. split; [reflexivity|]. eauto.
    + cbn [TrendAnalysisAgent.kw_sources TrendAnalysisAgent.kw_limit].
      destruct H as [H|H]; [now left|right; lia].
  - intros p.
    pose proof (@TrendAnalysisAgentFacts.trend_execute_succeeded World
                  lower fetch_techcrunch_articles extract_topics
                  generate_hashtags generate_text float_of_reply db_open
                  db_store_trend db_close utcnow log_activity
                  (TrendAnalysisAgent.mk_kwargs sources (max_posts * 2) 24)
                  w) as Hs.
    destruct (agent _ w) as [[data|error|msg] w1]; cbn [fst try_except_http];
      try discriminate.
    destruct (Hs w1 data eq_refl) as (_ & Hl & Hn).
    cbn [TrendAnalysisAgent.kw_limit] in Hl, Hn.
    set (all := TrendAnalysisAgent.an_trends data) in *.
    assert (Hpos : 0 <= max_posts) by lia.
    destruct (@py_slice_to_prefix trend all max_posts Hpos) as [Hlen _].
    assert (Hle : (List.length (py_slice_to all max_posts)
                   <= List.length all)%nat).
    { unfold py_slice_to. destruct (max_posts <? 0);
        rewrite length_firstn; lia. }
    pose proof (@top_trends_of_facts (py_slice_to all max_posts)) as Ht.
    destruct (top_trends_of key_error (py_slice_to all max_posts))
      as [entries|e]; [|destruct e; discriminate].
    destruct (Ht entries eq_refl) as [L F].
    intros E. injection E as <-.
    cbn [pv_estimated_posts pv_trends_found pv_top_trends_for_content].
    repeat split; auto; lia.
Qed.

End Preview.

End AutomationRoutesFacts.

